(** * A schema-aware query layer over a PostgreSQL session

    Shallow embedding of [model.py] (class [Database]), of the clause
    builder of [view.py] (class [Interface]) and of the parts of
    [controller.py] (class [AppController]) that drive them.

    Python text is modelled as [string] (ASCII text: [strip] and [lower]
    act on the ASCII range), a [dict] whose iteration order matters as an
    association list, a [dict] used for lookup only as a [gmap], and the
    psycopg2 connection together with the console as an explicit world
    that every operation threads through a small exception-and-state
    monad. *)

From stdpp Require Import gmap strings list.
From Stdlib Require Import ZArith Ascii String.
From stdpp Require Import pretty.

Open Scope string_scope.
Open Scope Z_scope.

(** ** Python string built-ins (ASCII) *)

Module Py.

Definition is_upper (c : ascii) : bool :=
  let n := nat_of_ascii c in (Nat.leb 65 n && Nat.leb n 90)%bool.

Definition lower_char (c : ascii) : ascii :=
  if is_upper c then ascii_of_nat (nat_of_ascii c + 32) else c.

(** [s.lower()] *)
Fixpoint lower (s : string) : string :=
  match s with
  | EmptyString => EmptyString
  | String c r => String (lower_char c) (lower r)
  end.

(** [c.isspace()] on ASCII: TAB..CR, FS..US and the blank. *)
Definition is_space (c : ascii) : bool :=
  let n := nat_of_ascii c in
  ((Nat.leb 9 n && Nat.leb n 13) || (Nat.leb 28 n && Nat.leb n 32))%bool.

Fixpoint lstrip (s : string) : string :=
  match s with
  | EmptyString => EmptyString
  | String c r => if is_space c then lstrip r else s
  end.

Fixpoint rstrip (s : string) : string :=
  match s with
  | EmptyString => EmptyString
  | String c r =>
      match rstrip r with
      | EmptyString => if is_space c then EmptyString else String c EmptyString
      | r' => String c r'
      end
  end.

(** [s.strip()] *)
Definition strip (s : string) : string := rstrip (lstrip s).

(** What [int] and [float] skip around a number (C's [Py_ISSPACE]):
    TAB..CR and the blank. FS..US, which [strip] removes, are not
    skipped. *)
Definition is_c_space (c : ascii) : bool :=
  let n := nat_of_ascii c in
  ((Nat.leb 9 n && Nat.leb n 13) || Nat.eqb n 32)%bool.

Fixpoint lskip (s : string) : string :=
  match s with
  | EmptyString => EmptyString
  | String c r => if is_c_space c then lskip r else s
  end.

Fixpoint rskip (s : string) : string :=
  match s with
  | EmptyString => EmptyString
  | String c r =>
      match rskip r with
      | EmptyString => if is_c_space c then EmptyString else String c EmptyString
      | r' => String c r'
      end
  end.

Definition skip_blanks (s : string) : string := rskip (lskip s).

(** [s.startswith(p)] *)
Definition startswith (s p : string) : bool := String.prefix p s.

(** [sub in s] *)
Definition contains (sub s : string) : bool :=
  match String.index 0 sub s with Some _ => true | None => false end.

(** [s in (a, b, ...)] *)
Definition among (s : string) (l : list string) : bool :=
  existsb (String.eqb s) l.

(** [s.replace(a, b)] for a one-character [a]. *)
Fixpoint replace_char (a : ascii) (b : string) (s : string) : string :=
  match s with
  | EmptyString => EmptyString
  | String c r =>
      if Ascii.eqb c a then b ++ replace_char a b r
      else String c (replace_char a b r)
  end.

(** [sep.join(l)] *)
Fixpoint join (sep : string) (l : list string) : string :=
  match l with
  | [] => EmptyString
  | [x] => x
  | x :: r => x ++ sep ++ join sep r
  end.

Definition is_digit (c : ascii) : bool :=
  let n := nat_of_ascii c in (Nat.leb 48 n && Nat.leb n 57)%bool.

Definition digit_value (c : ascii) : Z := Z.of_nat (nat_of_ascii c - 48).

(** A run of decimal digits in which single underscores may separate
    digits ([digitpart] of the Python grammar). [after_digit] tells
    whether the previous character was a digit. *)
Fixpoint digitpart (s : string) (acc : Z) (after_digit : bool) : option Z :=
  match s with
  | EmptyString => if after_digit then Some acc else None
  | String c r =>
      if is_digit c then digitpart r (10 * acc + digit_value c) true
      else if (Ascii.eqb c "_" && after_digit)%bool then digitpart r acc false
      else None
  end.

(** Splits an optional leading sign off: [(negative, rest)]. *)
Definition split_sign (s : string) : bool * string :=
  match s with
  | String "-" r => (true, r)
  | String "+" r => (false, r)
  | _ => (false, s)
  end.

(** The number of decimal digits in [s]. *)
Fixpoint count_digits (s : string) : nat :=
  match s with
  | EmptyString => 0%nat
  | String c r => if is_digit c then S (count_digits r) else count_digits r
  end.

(** [sys.int_info.default_max_str_digits]: [int] refuses a text of more
    digits. *)
Definition max_str_digits : nat := 4300%nat.

(** [int(s)]: [None] stands for the [ValueError] that [int] raises, on a
    text that is no integer literal and on one of more than
    [max_str_digits] digits. *)
Definition int (s : string) : option Z :=
  let (neg, body) := split_sign (skip_blanks s) in
  match digitpart body 0 false with
  | Some n =>
      if Nat.ltb max_str_digits (count_digits body) then None
      else Some (if neg then - n else n)
  | None => None
  end.

(** Cuts [s] at the first occurrence of the character [c]. *)
Fixpoint cut (c : ascii) (s : string) : string * option string :=
  match s with
  | EmptyString => (EmptyString, None)
  | String d r =>
      if Ascii.eqb d c then (EmptyString, Some r)
      else let (a, b) := cut c r in (String d a, b)
  end.

Definition is_digitpart (s : string) : bool :=
  match digitpart s 0 false with Some _ => true | None => false end.

(** [number] of the float grammar: [digitpart "." digitpart?] or
    ["." digitpart] or [digitpart]. *)
Definition is_number (s : string) : bool :=
  match cut "." s with
  | (ip, None) => is_digitpart ip
  | (ip, Some fp) =>
      match ip, fp with
      | EmptyString, EmptyString => false
      | EmptyString, _ => is_digitpart fp
      | _, EmptyString => is_digitpart ip
      | _, _ => (is_digitpart ip && is_digitpart fp)%bool
      end
  end.

Definition is_floatnumber (s : string) : bool :=
  match cut "e" s with
  | (m, None) => is_number m
  | (m, Some e) => (is_number m && is_digitpart (snd (split_sign e)))%bool
  end.

(** Whether [float(s)] returns; [false] stands for the [ValueError]. *)
Definition float_ok (s : string) : bool :=
  let body := snd (split_sign (lower (skip_blanks s))) in
  (among body ["inf"; "infinity"; "nan"] || is_floatnumber body)%bool.

End Py.

(** ** Values handed to the database session *)

(** A Python value bound to a [%s] placeholder. [VFloat s] is the double
    that [float] reads from the text [s]. *)
Inductive Value :=
| VNone
| VStr (s : string)
| VInt (n : Z)
| VFloat (s : string)
| VBool (b : bool).

Inductive Exn :=
| ValueError (msg : string)
| DatabaseError (pgerror : string)
| EOFError.

Inductive Result (A : Type) :=
| Return (a : A)
| Raise (e : Exn).
Arguments Return {A} a.
Arguments Raise {A} e.

(** ** The world: the psycopg2 session and the console *)

(** One row of [information_schema.columns] for schema [public]; the rows
    of a table are kept in [ordinal_position] order. An identity column
    ([GENERATED ... AS IDENTITY]) has [is_identity] set and no
    [column_default]; no query of [model.py] reads [is_identity]. *)
Record ColumnRow := {
  col_table : string;
  column_name : string;
  data_type : string;
  is_nullable : bool;
  column_default : option string;
  is_identity : bool
}.

(** One row of [table_constraints JOIN key_column_usage] for a
    [PRIMARY KEY] constraint. *)
Record PrimaryKeyRow := {
  pk_table : string;
  pk_column : string
}.

(** One row of [table_constraints JOIN key_column_usage JOIN
    constraint_column_usage] for a [FOREIGN KEY] constraint. *)
Record ForeignKeyRow := {
  child_table : string;
  child_column : string;
  parent_table : string;
  parent_column : string
}.

Record Catalog := {
  cat_tables : list string;
  cat_columns : list ColumnRow;
  cat_primary_keys : list PrimaryKeyRow;
  cat_foreign_keys : list ForeignKeyRow
}.

(** Statements sent through [cursor.execute]. The catalog queries are
    named after what they select; the others carry the identifiers that
    [sql.Identifier] quotes and the SQL text around them. *)
Inductive Statement :=
| SelectTableExists (table : string)
| SelectColumns (table : string)
| SelectPrimaryKey (table : string)
| SelectForeignKeys (table : string)
| SelectNotNullNoDefault (table : string)
| SelectJoinEdge (t1 t2 : string)
| InsertValues (table : string) (cols : list string) (placeholders : list string)
| UpdateById (table col idcol : string)
| DeleteById (table idcol : string)
| InsertGenerated (table : string) (cols : list string) (exprs : list string)
| Text (query : string).

(** What the session has been asked to do, oldest first. *)
Inductive Event :=
| Executed (q : Statement) (params : list Value)
| Committed
| RolledBack.

(** A [RealDictCursor] row: column name to value, in select-list order. *)
Definition DictRow := list (string * Value).

(** The server's answer to a statement that is not a catalog query. *)
Inductive Reply :=
| Done (rowcount : Z) (rows : list DictRow)
| Failed (pgerror : string).

(** The session and the console. A catalog query is answered from
    [catalog]; every other statement is answered by [engine], which may
    reject it. *)
Record World := {
  catalog : Catalog;
  engine : Statement -> list Value -> Reply;
  log : list Event;
  stdin : list string;
  stdout : list string
}.

Definition record (e : Event) (w : World) : World :=
  {| catalog := catalog w; engine := engine w; log := log w ++ [e];
     stdin := stdin w; stdout := stdout w |}.

(** ** Exceptions and state *)

Definition M (A : Type) : Type := World -> Result A * World.

Definition ret {A} (a : A) : M A := fun w => (Return a, w).

Definition raise {A} (e : Exn) : M A := fun w => (Raise e, w).

Definition bind {A B} (m : M A) (k : A -> M B) : M B :=
  fun w =>
    match m w with
    | (Return a, w') => k a w'
    | (Raise e, w') => (Raise e, w')
    end.

Notation "x <- m ;; k" := (bind m (fun x => k))
  (at level 100, m at next level, right associativity).
Notation "m ;;; k" := (bind m (fun _ => k))
  (at level 100, right associativity).

(** [try: body except Exception as e: handler(e)] *)
Definition try_except {A} (body : M A) (handler : Exn -> M A) : M A :=
  fun w =>
    match body w with
    | (Return a, w') => (Return a, w')
    | (Raise e, w') => handler e w'
    end.

(** Lifts a computation that touches neither session nor console. *)
Definition lift {A} (r : Result A) : M A := fun w => (r, w).

(** [cur.execute(q)] for a catalog query, with the rows it fetches. *)
Definition query {A} (q : Statement) (answer : Catalog -> A) : M A :=
  fun w => (Return (answer (catalog w)), record (Executed q []) w).

(** [cur.execute(q, params)] for any other statement: the server answers
    or psycopg2 raises [DatabaseError]. *)
Definition execute (q : Statement) (params : list Value) : M (Z * list DictRow) :=
  fun w =>
    match engine w q params with
    | Done n rows => (Return (n, rows), record (Executed q params) w)
    | Failed err => (Raise (DatabaseError err), record (Executed q params) w)
    end.

(** [self.connection.commit()] *)
Definition commit : M unit := fun w => (Return tt, record Committed w).

(** [self.connection.rollback()] *)
Definition rollback : M unit := fun w => (Return tt, record RolledBack w).

(** [input(prompt)]: the prompt is written, the next line is read. *)
Definition input (prompt : string) : M string :=
  fun w =>
    let w' := {| catalog := catalog w; engine := engine w; log := log w;
                 stdin := tail (stdin w); stdout := stdout w ++ [prompt] |} in
    match stdin w with
    | line :: _ => (Return line, w')
    | [] => (Raise EOFError, w')
    end.

(** [print(message)] *)
Definition print (message : string) : M unit :=
  fun w => (Return tt,
            {| catalog := catalog w; engine := engine w; log := log w;
               stdin := stdin w; stdout := stdout w ++ [message] |}).

(** ** The catalog queries of [model.py], as functions of the catalog *)

Definition q_table_exists (c : Catalog) (table : string) : bool :=
  Py.among table (cat_tables c).

Definition q_columns (c : Catalog) (table : string) : list (string * string) :=
  map (fun r => (column_name r, data_type r))
      (List.filter (fun r => String.eqb (col_table r) table) (cat_columns c)).

Definition q_primary_key (c : Catalog) (table : string) : list string :=
  map pk_column
      (List.filter (fun r => String.eqb (pk_table r) table) (cat_primary_keys c)).

Definition q_foreign_keys (c : Catalog) (table : string)
  : list (string * string * string) :=
  map (fun r => (child_column r, parent_table r, parent_column r))
      (List.filter (fun r => String.eqb (child_table r) table) (cat_foreign_keys c)).

Definition has_no_default (r : ColumnRow) : bool :=
  match column_default r with None => true | Some _ => false end.

Definition q_not_null_no_default (c : Catalog) (table : string) : list string :=
  map column_name
      (List.filter
         (fun r => (String.eqb (col_table r) table && negb (is_nullable r)
                    && has_no_default r)%bool)
         (cat_columns c)).

Definition q_join_edge (c : Catalog) (t1 t2 : string) : list ForeignKeyRow :=
  List.filter
    (fun r => ((String.eqb (child_table r) t1 && String.eqb (parent_table r) t2)
               || (String.eqb (child_table r) t2 && String.eqb (parent_table r) t1))%bool)
    (cat_foreign_keys c).

(** ** [dict] with insertion order *)

Fixpoint dict_set (k v : string) (d : list (string * string)) : list (string * string) :=
  match d with
  | [] => [(k, v)]
  | (k', v') :: r => if String.eqb k' k then (k', v) :: r else (k', v') :: dict_set k v r
  end.

Fixpoint dict_get (k : string) (d : list (string * string)) : option string :=
  match d with
  | [] => None
  | (k', v) :: r => if String.eqb k' k then Some v else dict_get k r
  end.

(** [{col: dtype for col, dtype in cols}] *)
Definition dict_of (cols : list (string * string)) : list (string * string) :=
  fold_left (fun d kv => dict_set (fst kv) (snd kv) d) cols [].

(** ** SQL quoting *)

Definition dq : string := String (ascii_of_nat 34) EmptyString.

(** [f'"{name}"'] *)
Definition in_quotes (name : string) : string := dq ++ name ++ dq.

(** [sql.Identifier(name)] as psycopg2 renders it. *)
Definition Identifier (name : string) : string :=
  dq ++ Py.replace_char (ascii_of_nat 34) (dq ++ dq) name ++ dq.

(** ** [class Database] *)

Definition table_exists (table : string) : M bool :=
  query (SelectTableExists table) (fun c => q_table_exists c table).

Definition get_columns (table : string) : M (option (list (string * string))) :=
  found <- table_exists table ;;
  if negb found then ret None
  else
    rows <- query (SelectColumns table) (fun c => q_columns c table) ;;
    ret (Some rows).

Definition get_column_types (table : string) : M (option (list (string * string))) :=
  cols <- get_columns table ;;
  match cols with
  | None => ret None
  | Some cols => ret (Some (dict_of cols))
  end.

Definition _find_pk_column (table : string) : M (option string) :=
  rows <- query (SelectPrimaryKey table) (fun c => q_primary_key c table) ;;
  ret (head rows).

(** Of the messages of the [ValueError] of [int] and of [float] only the
    constant beginning is kept. *)
Definition _cast_value_from_input (value : option string) (data_type : string)
  : Result Value :=
  match value with
  | None => Return VNone
  | Some value =>
      let dt := Py.lower data_type in
      let s := Py.strip value in
      if String.eqb s EmptyString then Return VNone
      else if (Py.contains "character" dt || Py.contains "text" dt)%bool then
        Return (VStr s)
      else if (Py.startswith dt "integer" || Py.among dt ["bigint"; "smallint"])%bool then
        match Py.int s with
        | Some n => Return (VInt n)
        | None => Raise (ValueError "invalid literal for int() with base 10")
        end
      else if (Py.startswith dt "numeric" || Py.startswith dt "double"
               || Py.startswith dt "real")%bool then
        if Py.float_ok s then Return (VFloat s)
        else Raise (ValueError "could not convert string to float")
      else if String.eqb dt "boolean" then
        if Py.among (Py.lower s) ["true"; "t"; "1"; "yes"; "y"] then Return (VBool true)
        else if Py.among (Py.lower s) ["false"; "f"; "0"; "no"; "n"] then
          Return (VBool false)
        else Raise (ValueError "Invalid boolean value")
      else if (Py.contains "date" dt || Py.contains "timestamp" dt)%bool then
        Return (VStr s)
      else Return (VStr s)
  end.

(** The [for col, dtype in col_types.items()] loop of
    [insert_entry_validated], with its three accumulators. *)
Fixpoint insert_loop (values_dict : gmap string (option string))
    (items : list (string * string))
    (cols : list string) (vals : list Value) (placeholders : list string)
  : Result (list string * list Value * list string) :=
  match items with
  | [] => Return (cols, vals, placeholders)
  | (col, dtype) :: rest =>
      match values_dict !! col with
      | None => insert_loop values_dict rest cols vals placeholders
      | Some val =>
          let casted :=
            match val with
            | None => Return VNone
            | Some v =>
                if String.eqb v EmptyString then Return VNone
                else _cast_value_from_input val dtype
            end in
          match casted with
          | Raise e => Raise e
          | Return python_val =>
              insert_loop values_dict rest (cols ++ [col]) (vals ++ [python_val])
                          (placeholders ++ ["%s"])
          end
      end
  end.

Definition insert_entry_validated (table : string)
    (values_dict : gmap string (option string)) (col_types : list (string * string))
  : M bool :=
  r <- lift (insert_loop values_dict col_types [] [] []) ;;
  let '(cols, vals, placeholders) := r in
  match cols with
  | [] => raise (ValueError "No columns to insert.")
  | _ =>
      execute (InsertValues table cols placeholders) vals ;;;
      commit ;;;
      ret true
  end.

Definition update_entry_validated (table column row_id : string)
    (new_value : option string) (col_types : list (string * string)) : M bool :=
  match dict_get column col_types with
  | None => raise (ValueError "Unknown column")
  | Some dtype =>
      casted <- lift (_cast_value_from_input new_value dtype) ;;
      id_col <- _find_pk_column table ;;
      match id_col with
      | None => raise (ValueError "Primary key column not found for table")
      | Some id_col =>
          r <- execute (UpdateById table column id_col) [casted; VStr row_id] ;;
          let affected := fst r in
          commit ;;;
          ret (0 <? affected)
      end
  end.

Definition delete_entry (table row_id : string) : M bool :=
  id_col <- _find_pk_column table ;;
  match id_col with
  | None => raise (ValueError "Primary key not found")
  | Some id_col =>
      r <- execute (DeleteById table id_col) [VStr row_id] ;;
      let affected := fst r in
      commit ;;;
      ret (0 <? affected)
  end.

(** [fk_map[col] = (ftable, fcol)] for every fetched row. *)
Definition build_fk_map (rows : list (string * string * string))
  : gmap string (string * string) :=
  fold_left (fun m r => let '(col, ftable, fcol) := r in <[col := (ftable, fcol)]> m)
            rows ∅.

(** The [if / elif] chain of [generate_rows_sql] that picks the
    expression generating the values of one column. *)
Definition select_expr (fk_map : gmap string (string * string))
    (col_name data_type : string) : string :=
  let dt := Py.lower data_type in
  match fk_map !! col_name with
  | Some (ftable, fcol) =>
      "(SELECT " ++ Identifier fcol ++ " FROM " ++ Identifier ftable
        ++ " ORDER BY random() LIMIT 1)"
  | None =>
      if Py.contains "email" (Py.lower col_name) then
        "substring(md5(random()::text),1,7) || '@gmail.com'"
      else if (Py.startswith dt "integer" || Py.among dt ["bigint"; "smallint"])%bool then
        "floor(random()*10000)::int"
      else if (Py.startswith dt "numeric"
               || Py.among dt ["real"; "double precision"])%bool then
        "round(random()*10000::numeric,2)"
      else if String.eqb dt "boolean" then
        "(random() > 0.5)"
      else if Py.contains "timestamp" dt then
        "timestamp '2020-01-01' + random() * (timestamp '2025-12-31' - timestamp '2020-01-01')"
      else if Py.contains "date" dt then
        "date '2020-01-01' + (random() * 2000)::int"
      else if (Py.contains "character" dt || Py.contains "text" dt)%bool then
        "substring(md5(random()::text),1,10)"
      else
        "NULL"
  end.

(** The [for col_name, data_type in cols] loop of [generate_rows_sql]. *)
Fixpoint generate_loop (fk_map : gmap string (string * string))
    (not_null_cols : list string) (cols : list (string * string))
    (col_names select_exprs : list string) : list string * list string :=
  match cols with
  | [] => (col_names, select_exprs)
  | (col_name, data_type) :: rest =>
      if negb (Py.among col_name not_null_cols) then
        generate_loop fk_map not_null_cols rest col_names select_exprs
      else
        generate_loop fk_map not_null_cols rest
                      (col_names ++ [col_name])
                      (select_exprs ++ [select_expr fk_map col_name data_type])
  end.

Definition generate_rows_sql (table : string) (count : Z) : M Z :=
  cols <- get_columns table ;;
  match cols with
  | None | Some [] => raise (ValueError "Table not found or has no columns")
  | Some cols =>
      fk_rows <- query (SelectForeignKeys table) (fun c => q_foreign_keys c table) ;;
      let fk_map := build_fk_map fk_rows in
      not_null_cols <- query (SelectNotNullNoDefault table)
                             (fun c => q_not_null_no_default c table) ;;
      let '(col_names, select_exprs) :=
        generate_loop fk_map not_null_cols cols [] [] in
      match col_names with
      | [] => raise (ValueError "No columns to insert (all are PK/DEFAULT)")
      | _ =>
          try_except
            (execute (InsertGenerated table col_names select_exprs) [VInt count] ;;;
             commit ;;;
             ret count)
            (fun e => rollback ;;; raise e)
      end
  end.

Definition find_join_expression (t1 t2 : string) : M (option string) :=
  rows <- query (SelectJoinEdge t1 t2) (fun c => q_join_edge c t1 t2) ;;
  match head rows with
  | None => ret None
  | Some r =>
      ret (Some (in_quotes (child_table r) ++ "." ++ in_quotes (child_column r)
                 ++ " = "
                 ++ in_quotes (parent_table r) ++ "." ++ in_quotes (parent_column r)))
  end.

(** [cols = list(rows[0].keys()) if rows else []] and
    [[tuple(r.values()) for r in rows]] *)
Definition rows_and_cols (rows : list DictRow) : list (list Value) * list string :=
  (map (fun r => map snd r) rows,
   match rows with
   | r0 :: _ => map fst r0
   | [] => []
   end).

Definition execute_raw_select (query : string)
  : M (list (list Value) * list string) :=
  r <- execute (Text query) [] ;;
  ret (rows_and_cols (snd r)).

Definition execute_prepared_select (template_sql : string) (params : list Value)
  : M (list (list Value) * list string) :=
  r <- execute (Text template_sql) params ;;
  ret (rows_and_cols (snd r)).

(** ** [class Interface]: the clause builder *)

Definition _literal_for_numeric (s : string) : string :=
  if Py.float_ok s then s else "0".

Definition _quote_literal (s : string) : string :=
  "'" ++ Py.replace_char "'" "''" s ++ "'".

(** [" AND ".join(clauses) if clauses else "TRUE"] *)
Definition and_join (clauses : list string) : string :=
  match clauses with
  | [] => "TRUE"
  | _ => Py.join " AND " clauses
  end.

Definition build_filter_clause (table column data_type : string) : M string :=
  let dt := Py.lower data_type in
  let col_ref := in_quotes table ++ "." ++ in_quotes column in
  if (Py.startswith dt "integer"
      || Py.among dt ["bigint"; "smallint"; "numeric"; "double precision"; "real"])%bool
  then
    lo <- input "Enter lower bound (or press Enter to skip): " ;;
    let lo := Py.strip lo in
    hi <- input "Enter upper bound (or press Enter to skip): " ;;
    let hi := Py.strip hi in
    let clauses : list string := [] in
    let clauses :=
      if negb (String.eqb lo EmptyString)
      then app clauses [col_ref ++ " >= " ++ _literal_for_numeric lo] else clauses in
    let clauses :=
      if negb (String.eqb hi EmptyString)
      then app clauses [col_ref ++ " <= " ++ _literal_for_numeric hi] else clauses in
    ret (and_join clauses)
  else if (Py.contains "character" dt || String.eqb dt "text")%bool then
    pattern <- input "Enter pattern (SQL LIKE, use % as wildcard, e.g. 'Ann%'): " ;;
    let pattern := Py.strip pattern in
    if String.eqb pattern EmptyString then ret "TRUE"
    else ret (col_ref ++ " ILIKE " ++ _quote_literal pattern)
  else if String.eqb dt "boolean" then
    val <- input "Enter boolean (true/false): " ;;
    let val := Py.lower (Py.strip val) in
    if Py.among val ["true"; "t"; "1"; "yes"; "y"] then ret (col_ref ++ " = TRUE")
    else if Py.among val ["false"; "f"; "0"; "no"; "n"] then ret (col_ref ++ " = FALSE")
    else ret "TRUE"
  else if (Py.contains "date" dt || Py.contains "timestamp" dt)%bool then
    lo <- input "Start date/time (ISO format) (or press Enter to skip): " ;;
    let lo := Py.strip lo in
    hi <- input "End date/time (ISO format) (or press Enter to skip): " ;;
    let hi := Py.strip hi in
    let clauses : list string := [] in
    let clauses :=
      if negb (String.eqb lo EmptyString)
      then app clauses [col_ref ++ " >= " ++ _quote_literal lo] else clauses in
    let clauses :=
      if negb (String.eqb hi EmptyString)
      then app clauses [col_ref ++ " <= " ++ _quote_literal hi] else clauses in
    ret (and_join clauses)
  else
    val <- input ("Enter value to match for " ++ column ++ ": ") ;;
    let val := Py.strip val in
    if String.eqb val EmptyString then ret "TRUE"
    else ret (col_ref ++ " = " ++ _quote_literal val).

(** The [for col, dtype in col_types.items()] loop of
    [get_values_for_columns]. *)
Fixpoint values_loop (items : list (string * string))
    (result : gmap string (option string)) : M (gmap string (option string)) :=
  match items with
  | [] => ret result
  | (col, dtype) :: rest =>
      val <- input (col ++ " (" ++ dtype ++ "): ") ;;
      if String.eqb (Py.strip val) EmptyString then values_loop rest result
      else values_loop rest (<[col := Some val]> result)
  end.

Definition get_values_for_columns (col_types : list (string * string))
  : M (gmap string (option string)) :=
  print "Provide values for columns. Leave empty to set NULL or skip (if default/serial)." ;;;
  values_loop col_types ∅.

Definition show_message (message : string) : M unit := print message.

(** ** [class AppController]: the search statement *)

(** The message shown when the two tables are unrelated; it ends in a
    line feed. *)
Definition cross_join_warning : string :=
  "No foreign key relation found between chosen tables. Using CROSS JOIN."
    ++ String (ascii_of_nat 10) EmptyString.

(** The [if table2: ... else: ...] block of [multi_attribute_search]
    that chooses the FROM clause once both tables are known to exist. *)
Definition search_from_clause (table1 table2 : string) : M string :=
  if negb (String.eqb table2 EmptyString) then
    join_expr <- find_join_expression table1 table2 ;;
    match join_expr with
    | None | Some EmptyString =>
        show_message cross_join_warning ;;;
        ret (in_quotes table1 ++ " CROSS JOIN " ++ in_quotes table2)
    | Some join_expr =>
        ret (in_quotes table1 ++ " JOIN " ++ in_quotes table2 ++ " ON " ++ join_expr)
    end
  else ret (in_quotes table1).

(** [multi_attribute_search] from the FROM clause on: the statement is
    assembled from the collected filters and run. *)
Definition search_statement (from_clause : string) (filters : list string) : string :=
  let where_sql := and_join filters in
  "SELECT * FROM " ++ from_clause ++ " WHERE " ++ where_sql ++ " LIMIT 1000;".

Definition run_search (table1 table2 : string) (filters : list string)
  : M (list (list Value) * list string) :=
  from_clause <- search_from_clause table1 table2 ;;
  execute_raw_select (search_statement from_clause filters).

(** ** Type categories

    The source has no category type: each of its three dispatch chains
    tests the lower-cased native type name in its own order. Each chain
    is read off here as a classifier, first match first. *)

Inductive TypeCategory :=
| CInteger | CDecimal | CBoolean | CText | CTemporal | CUnknown.

(** The tests of [_cast_value_from_input], in its order. *)
Definition cast_category (data_type : string) : TypeCategory :=
  let dt := Py.lower data_type in
  if (Py.contains "character" dt || Py.contains "text" dt)%bool then CText
  else if (Py.startswith dt "integer" || Py.among dt ["bigint"; "smallint"])%bool
  then CInteger
  else if (Py.startswith dt "numeric" || Py.startswith dt "double"
           || Py.startswith dt "real")%bool then CDecimal
  else if String.eqb dt "boolean" then CBoolean
  else if (Py.contains "date" dt || Py.contains "timestamp" dt)%bool then CTemporal
  else CUnknown.

(** The type tests of [generate_rows_sql], in its order. *)
Definition generation_category (data_type : string) : TypeCategory :=
  let dt := Py.lower data_type in
  if (Py.startswith dt "integer" || Py.among dt ["bigint"; "smallint"])%bool
  then CInteger
  else if (Py.startswith dt "numeric"
           || Py.among dt ["real"; "double precision"])%bool then CDecimal
  else if String.eqb dt "boolean" then CBoolean
  else if Py.contains "timestamp" dt then CTemporal
  else if Py.contains "date" dt then CTemporal
  else if (Py.contains "character" dt || Py.contains "text" dt)%bool then CText
  else CUnknown.

(** The tests of [build_filter_clause], in its order; its first test
    covers the integer and the decimal names together. *)
Definition filter_category (data_type : string) : TypeCategory :=
  let dt := Py.lower data_type in
  if (Py.startswith dt "integer" || Py.among dt ["bigint"; "smallint"])%bool
  then CInteger
  else if Py.among dt ["numeric"; "double precision"; "real"] then CDecimal
  else if (Py.contains "character" dt || String.eqb dt "text")%bool then CText
  else if String.eqb dt "boolean" then CBoolean
  else if (Py.contains "date" dt || Py.contains "timestamp" dt)%bool then CTemporal
  else CUnknown.

Definition is_numeric (c : TypeCategory) : bool :=
  match c with CInteger | CDecimal => true | _ => false end.

(** ** Observations used in the statements *)

Definition outcome {A} (r : Result A * World) : Result A := fst r.

Definition log_after {A} (r : Result A * World) : list Event := log (snd r).

Definition printed {A} (r : Result A * World) : list string := stdout (snd r).

(** The column list that [generate_rows_sql] builds for a table. *)
Definition insertable_columns (c : Catalog) (table : string) : list string :=
  fst (generate_loop (build_fk_map (q_foreign_keys c table))
                     (q_not_null_no_default c table) (q_columns c table) [] []).

(** The expressions that go with them. *)
Definition generated_exprs (c : Catalog) (table : string) : list string :=
  snd (generate_loop (build_fk_map (q_foreign_keys c table))
                     (q_not_null_no_default c table) (q_columns c table) [] []).

(** The test of the generation loop on one [(name, type)] pair, and the
    expression the loop appends for a pair that passes it. *)
Definition is_required (not_null_cols : list string) (cd : string * string) : bool :=
  Py.among (fst cd) not_null_cols.

Definition expr_for (fk_map : gmap string (string * string))
    (cd : string * string) : string :=
  select_expr fk_map (fst cd) (snd cd).

(** The catalog rows of the columns of one table. *)
Definition table_rows (c : Catalog) (table : string) : list ColumnRow :=
  List.filter (fun r => String.eqb (col_table r) table) (cat_columns c).

(** The catalog queries that [generate_rows_sql] runs before it builds
    its statement. *)
Definition generation_reads (table : string) : list Event :=
  [Executed (SelectTableExists table) [];
   Executed (SelectColumns table) [];
   Executed (SelectForeignKeys table) [];
   Executed (SelectNotNullNoDefault table) []].

Definition first_is_space (s : string) : bool :=
  match s with
  | String c _ => Py.is_space c
  | EmptyString => false
  end.

Fixpoint last_is_space (s : string) : bool :=
  match s with
  | EmptyString => false
  | String c EmptyString => Py.is_space c
  | String _ r => last_is_space r
  end.

(** Whether the column of an item of [col_types] is a key of
    [values_dict]. *)
Definition is_present (values_dict : gmap string (option string))
    (item : string * string) : bool :=
  match values_dict !! fst item with Some _ => true | None => false end.

(** The items of [col_types] that [insert_entry_validated] keeps. *)
Definition present_items (values_dict : gmap string (option string))
    (col_types : list (string * string)) : list (string * string) :=
  List.filter (is_present values_dict) col_types.

(** [v] is the cast of the value supplied for the column of [item]. *)
Definition casts_to (values_dict : gmap string (option string))
    (item : string * string) (v : Value) : Prop :=
  exists raw, values_dict !! fst item = Some raw
              /\ _cast_value_from_input raw (snd item) = Return v.

(** The comparisons of a range filter whose bounds are [lo] and [hi],
    an empty bound standing for an omitted one. *)
Definition range_clauses (col_ref : string) (literal : string -> string)
    (lo hi : string) : list string :=
  app (if negb (String.eqb lo EmptyString)
       then [col_ref ++ " >= " ++ literal lo] else [])
      (if negb (String.eqb hi EmptyString)
       then [col_ref ++ " <= " ++ literal hi] else []).

(** The join condition of a foreign-key row, as [find_join_expression]
    formats it. *)
Definition join_condition (r : ForeignKeyRow) : string :=
  in_quotes (child_table r) ++ "." ++ in_quotes (child_column r) ++ " = "
    ++ in_quotes (parent_table r) ++ "." ++ in_quotes (parent_column r).

(** A foreign-key row links [t1] and [t2], in either role. *)
Definition links (t1 t2 : string) (r : ForeignKeyRow) : Prop :=
  (child_table r = t1 /\ parent_table r = t2)
  \/ (child_table r = t2 /\ parent_table r = t1).

(** ** A sample schema

    [orders(id serial primary key, customer_id -> customers.id not null,
    amount numeric not null, note text, tag uuid not null)],
    [customers(id serial primary key, email varchar not null, name text
    not null)] and
    [notes(body text, rank integer)], which has no primary key, and
    [tickets(id integer generated always as identity primary key,
    subject text not null)]. *)

Definition shop : Catalog := {|
  cat_tables := ["customers"; "notes"; "orders"; "tickets"];
  cat_columns := [
    {| col_table := "orders"; column_name := "id"; data_type := "integer";
       is_nullable := false;
       column_default := Some "nextval('orders_id_seq'::regclass)";
       is_identity := false |};
    {| col_table := "orders"; column_name := "customer_id"; data_type := "integer";
       is_nullable := false; column_default := None;
       is_identity := false |};
    {| col_table := "orders"; column_name := "amount"; data_type := "numeric";
       is_nullable := false; column_default := None;
       is_identity := false |};
    {| col_table := "orders"; column_name := "note"; data_type := "text";
       is_nullable := true; column_default := None;
       is_identity := false |};
    {| col_table := "orders"; column_name := "tag"; data_type := "uuid";
       is_nullable := false; column_default := None;
       is_identity := false |};
    {| col_table := "customers"; column_name := "id"; data_type := "integer";
       is_nullable := false;
       column_default := Some "nextval('customers_id_seq'::regclass)";
       is_identity := false |};
    {| col_table := "customers"; column_name := "email";
       data_type := "character varying";
       is_nullable := false; column_default := None;
       is_identity := false |};
    {| col_table := "customers"; column_name := "name"; data_type := "text";
       is_nullable := false; column_default := None;
       is_identity := false |};
    {| col_table := "notes"; column_name := "body"; data_type := "text";
       is_nullable := true; column_default := None;
       is_identity := false |};
    {| col_table := "notes"; column_name := "rank"; data_type := "integer";
       is_nullable := true; column_default := None;
       is_identity := false |};
    {| col_table := "tickets"; column_name := "id"; data_type := "integer";
       is_nullable := false; column_default := None;
       is_identity := true |};
    {| col_table := "tickets"; column_name := "subject"; data_type := "text";
       is_nullable := false; column_default := None;
       is_identity := false |}
  ];
  cat_primary_keys := [
    {| pk_table := "orders"; pk_column := "id" |};
    {| pk_table := "customers"; pk_column := "id" |};
    {| pk_table := "tickets"; pk_column := "id" |}
  ];
  cat_foreign_keys := [
    {| child_table := "orders"; child_column := "customer_id";
       parent_table := "customers"; parent_column := "id" |}
  ]
|}.

(** [currency(code char(3) primary key, label text)]: a primary key
    that the user supplies, without default. *)
Definition currencies : Catalog := {|
  cat_tables := ["currency"];
  cat_columns := [
    {| col_table := "currency"; column_name := "code"; data_type := "character";
       is_nullable := false; column_default := None;
       is_identity := false |};
    {| col_table := "currency"; column_name := "label"; data_type := "text";
       is_nullable := true; column_default := None;
       is_identity := false |}
  ];
  cat_primary_keys := [ {| pk_table := "currency"; pk_column := "code" |} ];
  cat_foreign_keys := []
|}.

(** [order_items(order_id integer not null, product_id integer not
    null, quantity integer not null, primary key (order_id,
    product_id))]: a primary key of two columns. *)
Definition baskets : Catalog := {|
  cat_tables := ["order_items"];
  cat_columns := [
    {| col_table := "order_items"; column_name := "order_id";
       data_type := "integer"; is_nullable := false; column_default := None;
       is_identity := false |};
    {| col_table := "order_items"; column_name := "product_id";
       data_type := "integer"; is_nullable := false; column_default := None;
       is_identity := false |};
    {| col_table := "order_items"; column_name := "quantity";
       data_type := "integer"; is_nullable := false; column_default := None;
       is_identity := false |}
  ];
  cat_primary_keys := [
    {| pk_table := "order_items"; pk_column := "order_id" |};
    {| pk_table := "order_items"; pk_column := "product_id" |}
  ];
  cat_foreign_keys := []
|}.

(** A server that accepts every statement, touching one row and
    returning none. *)
Definition accepting : Statement -> list Value -> Reply :=
  fun _ _ => Done 1 [].

(** A server that rejects every statement. *)
Definition rejecting : Statement -> list Value -> Reply :=
  fun _ _ => Failed "ERROR: rejected".

(** A fresh session on [shop] with the given server and console input. *)
Definition fresh (server : Statement -> list Value -> Reply) (lines : list string)
  : World :=
  {| catalog := shop; engine := server; log := []; stdin := lines; stdout := [] |}.

(** ** The rest of [class Database] *)

Definition newline : string := String (ascii_of_nat 10) EmptyString.

(** [cur.execute(q, params)] for a catalog query that binds parameters. *)
Definition query_with {A} (q : Statement) (params : list Value)
    (answer : Catalog -> A) : M A :=
  fun w => (Return (answer (catalog w)), record (Executed q params) w).

Definition q_child_tables (c : Catalog) (parent : string) : list string :=
  map child_table
      (List.filter (fun r => String.eqb (parent_table r) parent) (cat_foreign_keys c)).

(** The text of the query of [get_child_tables]. *)
Definition child_tables_sql : string :=
  Py.join newline
    [EmptyString;
     "                SELECT tc.table_name";
     "                FROM information_schema.table_constraints AS tc";
     "                JOIN information_schema.key_column_usage AS kcu";
     "                   ON tc.constraint_name = kcu.constraint_name";
     "                JOIN information_schema.constraint_column_usage AS ccu";
     "                   ON ccu.constraint_name = tc.constraint_name";
     "                WHERE constraint_type = 'FOREIGN KEY' AND ccu.table_name = %s;";
     "            "].

(** The template [sql1] of [get_prepared_reports_templates]. *)
Definition sql1 : string :=
  Py.join newline
    [EmptyString;
     "            SELECT ";
     "                r.route_id,";
     "                r.departurep,";
     "                r.arrivalp,";
     "                COUNT(b.booking_id) AS total_bookings";
     "            FROM " ++ dq ++ "route" ++ dq ++ " r";
     "            JOIN " ++ dq ++ "booking" ++ dq ++ " b ON b.route_id = r.route_id";
     "            WHERE TO_DATE(b.bookingdate, 'DD.MM.YYYY') BETWEEN %s AND %s";
     "            GROUP BY r.route_id, r.departurep, r.arrivalp";
     "            ORDER BY total_bookings DESC";
     "            LIMIT 100;";
     "        "].

(** The template [sql2] of [get_prepared_reports_templates]. *)
Definition sql2 : string :=
  Py.join newline
    [EmptyString;
     "            SELECT ";
     "                bu.buyer_id,";
     "                bu." ++ dq ++ "Surname" ++ dq ++ ",";
     "                COUNT(DISTINCT b.booking_id) AS total_bookings,";
     "                COUNT(p.payment_id) AS payments_count,";
     "                SUM(COALESCE(CAST(p.sum AS numeric), 0)) AS total_paid";
     "            FROM " ++ dq ++ "buyer" ++ dq ++ " bu";
     "            JOIN " ++ dq ++ "booking" ++ dq ++ " b ON b.buyer_id = bu.buyer_id";
     "            LEFT JOIN " ++ dq ++ "payment" ++ dq ++ " p ON p.booking_id = b.booking_id";
     "            WHERE CAST(p.sum AS numeric) >= %s";
     "            GROUP BY bu.buyer_id, bu." ++ dq ++ "Surname" ++ dq;
     "            HAVING SUM(COALESCE(CAST(p.sum AS numeric), 0)) > %s";
     "            ORDER BY total_paid DESC";
     "            LIMIT 100;";
     "        "].

(** The template [sql3] of [get_prepared_reports_templates]. *)
Definition sql3 : string :=
  Py.join newline
    [EmptyString;
     "            SELECT ";
     "                r.route_id,";
     "                r.departurep,";
     "                r.arrivalp,";
     "                COUNT(DISTINCT b.booking_id) AS bookings,";
     "                SUM(COALESCE(CAST(p.sum AS numeric), 0)) AS total_sum,";
     "                AVG(COALESCE(CAST(p.sum AS numeric), 0)) AS avg_payment";
     "            FROM " ++ dq ++ "route" ++ dq ++ " r";
     "            JOIN " ++ dq ++ "booking" ++ dq ++ " b ON b.route_id = r.route_id";
     "            LEFT JOIN " ++ dq ++ "payment" ++ dq ++ " p ON p.booking_id = b.booking_id";
     "            WHERE r.departurep ILIKE %s";
     "            AND r.arrivalp ILIKE %s";
     "            AND CAST(p.sum AS numeric) >= %s";
     "            GROUP BY r.route_id, r.departurep, r.arrivalp";
     "            ORDER BY avg_payment DESC";
     "            LIMIT 100;";
     "        "].

Definition get_child_tables (parent : string) : M (list string) :=
  query_with (Text child_tables_sql) [VStr parent] (fun c => q_child_tables c parent).

Definition get_prepared_reports_templates : list (string * string) :=
  [("Number of bookings for routes in a given date range", sql1);
   ("Buyers with payments exceeding a certain amount", sql2);
   ("Average payments by route by departure/arrival filters", sql3)].

(** ** The rest of [class Interface] *)

(** [while True: body], for a body that reads a line in every round and
    leaves the loop by [return]: [Some a] stands for [return a], [None]
    for falling through to the next round. The rounds are counted by the
    lines that are left, so the loop ends by [return] or by the
    [EOFError] of the read that finds no line. *)
Fixpoint rounds {A} (body : M (option A)) (lines : list string) : M A :=
  match lines with
  | [] =>
      r <- body ;;
      match r with
      | Some a => ret a
      | None => raise EOFError
      end
  | _ :: rest =>
      r <- body ;;
      match r with
      | Some a => ret a
      | None => rounds body rest
      end
  end.

Definition while_true {A} (body : M (option A)) : M A :=
  fun w => rounds body (stdin w) w.

Definition get_input (prompt : string) : M string := input prompt.

Definition get_table_name (prompt : string) (allow_empty : bool) : M string :=
  while_true
    (t <- input prompt ;;
     let t := Py.strip t in
     if (String.eqb t EmptyString && allow_empty)%bool then ret (Some EmptyString)
     else if negb (String.eqb t EmptyString) then ret (Some t)
     else print "Table name cannot be empty." ;;; ret None).

(** The default prompt of [get_table_name]. *)
Definition table_prompt : string := "Enter table name: ".

(** [for x in items: print(line(x))] *)
Fixpoint print_each {A} (line : A -> string) (items : list A) : M unit :=
  match items with
  | [] => ret tt
  | x :: rest => print (line x) ;;; print_each line rest
  end.

Definition display_tables (tables : list string) : M unit :=
  print (newline ++ "Tables:") ;;;
  print_each (fun t => "- " ++ t) tables ;;;
  print EmptyString.

Definition display_columns (columns : list (string * string)) (table : string)
  : M unit :=
  print (newline ++ "Columns in " ++ table ++ ":") ;;;
  print_each (fun cd => " - " ++ fst cd ++ " (" ++ snd cd ++ ")") columns ;;;
  print EmptyString.



Definition get_id (table : string) : M string :=
  v <- input ("Enter " ++ table ++ " primary key value (ID): ") ;;
  ret (Py.strip v).

Definition get_row_count : M string :=
  v <- input "Enter number of rows to generate: " ;;
  ret (Py.strip v).

Definition confirm (prompt : string) : M bool :=
  ans <- input prompt ;;
  let ans := Py.lower (Py.strip ans) in
  ret (Py.among ans ["y"; "yes"]).

Definition get_number_of_filters : M Z :=
  while_true
    (v <- input "How many attribute filters do you want to apply? (0-10): " ;;
     let v := Py.strip v in
     match Py.int v with
     | Some n =>
         if ((0 <=? n) && (n <=? 10))%bool then ret (Some n)
         else print "Enter a number between 0 and 10." ;;; ret None
     | None => print "Enter a number between 0 and 10." ;;; ret None
     end).

(** [l[i]]: a negative index counts from the end; [None] stands for the
    [IndexError]. *)
Definition py_index {A} (l : list A) (i : Z) : option A :=
  let n := Z.of_nat (length l) in
  if (0 <=? i) && (i <? n) then nth_error l (Z.to_nat i)
  else if (- n <=? i) && (i <? 0) then nth_error l (Z.to_nat (n + i))
  else None.

(** [for i, x in enumerate(items, start=i): print(line(i, x))] *)
Fixpoint print_numbered {A} (line : nat -> A -> string) (i : nat) (items : list A)
  : M unit :=
  match items with
  | [] => ret tt
  | x :: rest => print (line i x) ;;; print_numbered line (S i) rest
  end.

(** The [while True] loop that [choose_table_for_filter] and
    [choose_column] share: a number is read and the entry it indexes is
    returned. *)
Definition choose_from (prompt : string) (entries : list string) : M string :=
  while_true
    (v <- input prompt ;;
     let v := Py.strip v in
     match Py.int v with
     | Some n =>
         match py_index entries (n - 1) with
         | Some entry => ret (Some entry)
         | None => print "Invalid choice." ;;; ret None
         end
     | None => print "Invalid choice." ;;; ret None
     end).

Definition choose_table_for_filter (tables : list string) : M string :=
  print "Available tables for filter:" ;;;
  print_numbered (fun i t => pretty i ++ ". " ++ t) 1 tables ;;;
  choose_from "Choose table number: " tables.

(** [col_types[c]] is the type paired with [c], the keys of a [dict]
    being distinct. *)
Definition choose_column (table : string) (col_types : list (string * string))
  : M string :=
  print ("Columns in " ++ table ++ ":") ;;;
  let cols := map fst col_types in
  print_numbered (fun i cd => pretty i ++ ". " ++ fst cd ++ " (" ++ snd cd ++ ")")
                 1 col_types ;;;
  choose_from "Choose column number: " cols.

(** [re.fullmatch(r"\d+", s)] on ASCII text. *)
Fixpoint all_digits (s : string) : bool :=
  match s with
  | EmptyString => false
  | String c EmptyString => Py.is_digit c
  | String c r => (Py.is_digit c && all_digits r)%bool
  end.

(** [re.fullmatch(r"-?\d+", s)] *)
Definition is_int_literal (s : string) : bool :=
  match s with
  | String "-" r => all_digits r
  | _ => all_digits s
  end.

(** [re.fullmatch(r"-?\d+\.\d+", s)] *)
Definition is_float_literal (s : string) : bool :=
  let body := match s with String "-" r => r | _ => s end in
  match Py.cut "." body with
  | (ip, Some fp) => (all_digits ip && all_digits fp)%bool
  | (_, None) => false
  end.

(** [_try_cast_param]; the messages are those of
    [_cast_value_from_input]. *)
Definition _try_cast_param (val : string) : Result Value :=
  let s := Py.strip val in
  if String.eqb s EmptyString then Return VNone
  else if is_int_literal s then
    match Py.int s with
    | Some n => Return (VInt n)
    | None => Raise (ValueError "invalid literal for int() with base 10")
    end
  else if is_float_literal s then
    if Py.float_ok s then Return (VFloat s)
    else Raise (ValueError "could not convert string to float")
  else if Py.among (Py.lower s) ["true"; "false"] then
    Return (VBool (String.eqb (Py.lower s) "true"))
  else Return (VStr s).

(** [template_sql.count("%s")] *)
Fixpoint count_placeholders (s : string) : nat :=
  match s with
  | String "%" (String "s" r) => S (count_placeholders r)
  | String _ r => count_placeholders r
  | EmptyString => 0
  end.

(** The [for i in range(num)] loop of [ask_parameters_for_template],
    from round [i] on, [left] rounds being left. *)
Fixpoint ask_loop (i left : nat) (params : list Value) : M (list Value) :=
  match left with
  | O => ret params
  | S left' =>
      val <- input ("Enter value for parameter " ++ pretty (i + 1)%nat ++ " : ") ;;
      v <- lift (_try_cast_param val) ;;
      ask_loop (S i) left' (params ++ [v])
  end.

Definition ask_parameters_for_template (template_sql : string) : M (list Value) :=
  let num := count_placeholders template_sql in
  ask_loop 0 num [].

(** [display_query_result]; [str] is Python's [str] on the values of a
    result row. *)
Definition display_query_result (str : Value -> string)
    (columns : list string) (rows : list (list Value)) : M unit :=
  match rows with
  | [] => print ("No rows returned." ++ newline)
  | _ =>
      print (newline ++ "Query result:") ;;;
      print (Py.join " | " columns) ;;;
      print (string_of_list_ascii
               (repeat "-"%char (String.length (Py.join " | " columns) + 4))) ;;;
      print_each (fun r => Py.join " | " (map str r)) rows ;;;
      print EmptyString
  end.

(** ** The rest of [class AppController] *)

(** [str(e)] *)
Definition exn_str (e : Exn) : string :=
  match e with
  | ValueError msg => msg
  | DatabaseError pgerror => pgerror
  | EOFError => EmptyString
  end.

(** [e.pgerror or str(e)] *)
Definition pgerror_or_str (pgerror : string) : string :=
  if String.eqb pgerror EmptyString then exn_str (DatabaseError pgerror)
  else pgerror.

Module AppController.

Definition show_columns : M unit :=
  table <- get_table_name table_prompt false ;;
  columns <- get_columns table ;;
  match columns with
  | None => show_message ("Table '" ++ table ++ "' not found." ++ newline)
  | Some columns => display_columns columns table
  end.

Definition add_entry : M unit :=
  table <- get_table_name table_prompt false ;;
  col_types <- get_column_types table ;;
  match col_types with
  | None => show_message ("Table '" ++ table ++ "' not found." ++ newline)
  | Some col_types =>
      values <- get_values_for_columns col_types ;;
      try_except
        (insert_entry_validated table values col_types ;;;
         show_message ("Data successfully added." ++ newline))
        (fun e =>
           match e with
           | DatabaseError pgerror =>
               show_message ("Database error while inserting: "
                               ++ pgerror_or_str pgerror ++ newline)
           | ValueError msg =>
               show_message ("Validation error: " ++ msg ++ newline)
           | EOFError => raise e
           end)
  end.


(** The [if children:] block of [delete_entry]: whether the deletion
    goes on. *)
Definition confirm_children (table row_id : string) (children : list string)
  : M bool :=
  match children with
  | [] => ret true
  | _ =>
      show_message ("Warning: There are child tables referencing " ++ table ++ ": "
                      ++ Py.join ", " children) ;;;
      ok <- confirm ("Do you really want to delete " ++ table ++ " row " ++ row_id
                       ++ "? This may cascade or fail. (yes/no): ") ;;
      if negb ok then show_message ("Delete cancelled." ++ newline) ;;; ret false
      else ret true
  end.

Definition delete_entry : M unit :=
  table <- get_table_name table_prompt false ;;
  row_id <- get_id table ;;
  children <- get_child_tables table ;;
  go_on <- confirm_children table row_id children ;;
  if negb go_on then ret tt
  else
    try_except
      (deleted <- delete_entry table row_id ;;
       if deleted : bool
       then show_message ("Data successfully deleted." ++ newline)
       else show_message ("No rows deleted (check ID)." ++ newline))
      (fun e =>
         match e with
         | DatabaseError pgerror =>
             show_message ("Database error while deleting: "
                             ++ pgerror_or_str pgerror ++ newline)
         | _ => raise e
         end).

(** [ms] is what [int((t1-t0)*1000)] comes to, the two readings of
    [time.perf_counter] being outside the model. *)
Definition generate_data_sql (ms : Z) : M unit :=
  table <- get_table_name table_prompt false ;;
  count <- get_row_count ;;
  match Py.int count with
  | None => show_message ("Invalid number of rows." ++ newline)
  | Some count =>
      if count <=? 0 then show_message ("Invalid number of rows." ++ newline)
      else
        try_except
          (inserted <- generate_rows_sql table count ;;
           show_message ("Inserted approximately " ++ pretty inserted
                           ++ " rows into '" ++ table ++ "' in " ++ pretty ms
                           ++ " ms." ++ newline))
          (fun e => show_message ("Error during generation: " ++ exn_str e ++ newline))
  end.

Definition run_prepared_reports (str : Value -> string) (ms : Z) : M unit :=
  let reports := get_prepared_reports_templates in
  show_message "Prepared reports:" ;;;
  print_numbered (fun i r => pretty i ++ ". " ++ fst r) 1 reports ;;;
  choice <- get_input "Choose report number: " ;;
  match Py.int choice with
  | None => show_message ("Invalid choice." ++ newline)
  | Some choice =>
      if negb ((1 <=? choice) && (choice <=? Z.of_nat (length reports)))%bool
      then show_message ("Invalid choice." ++ newline)
      else
        match py_index reports (choice - 1) with
        | None => show_message ("Invalid choice." ++ newline)
        | Some (title, template) =>
            params <- ask_parameters_for_template template ;;
            try_except
              (r <- execute_prepared_select template params ;;
               let '(rows, cols) := r in
               display_query_result str cols rows ;;;
               show_message ("Report '" ++ title ++ "' executed in " ++ pretty ms
                               ++ " ms." ++ newline))
              (fun e => show_message ("Error running report: " ++ exn_str e ++ newline))
        end
  end.

End AppController.

(** ** Frames used in the statements about the console and the controller *)

(** The session part of the world is the same in [w'] as in [w]. *)
Definition same_session (w w' : World) : Prop :=
  catalog w' = catalog w /\ engine w' = engine w /\ log w' = log w.

(** A computation that talks to the console only. *)
Definition console_only {A} (m : M A) : Prop :=
  forall w, same_session w (snd (m w)).

(** A computation that leaves catalog and server alone and adds to the
    log only events that satisfy [P]. *)
Definition sends_only (P : Event -> Prop) {A} (m : M A) : Prop :=
  forall w,
    catalog (snd (m w)) = catalog w /\ engine (snd (m w)) = engine w
    /\ exists new, log (snd (m w)) = (log w ++ new)%list /\ Forall P new.


(** The event is a catalog query: one of the six named ones, or the
    child-table query. *)
Definition is_read (e : Event) : Prop :=
  match e with
  | Executed (SelectTableExists _) _ | Executed (SelectColumns _) _
  | Executed (SelectPrimaryKey _) _ | Executed (SelectForeignKeys _) _
  | Executed (SelectNotNullNoDefault _) _ | Executed (SelectJoinEdge _ _) _ => True
  | Executed (Text q) _ => q = child_tables_sql
  | _ => False
  end.

(** The event binds no null value to an INSERT. *)
Definition binds_no_null (e : Event) : Prop :=
  match e with
  | Executed (InsertValues _ _ _) vals => ~ In VNone vals
  | _ => True
  end.

(** The world after the console has consumed [n] lines and printed
    [out]. *)
Definition after_console (w : World) (n : nat) (out : list string) : World :=
  {| catalog := catalog w; engine := engine w; log := log w;
     stdin := drop n (stdin w); stdout := (stdout w ++ out)%list |}.

(** A computation that sends at most one statement to the session, and
    nothing else; if it sends one, it satisfies [P]. *)
Definition sends_at_most_one (P : Event -> Prop) {A} (m : M A) : Prop :=
  forall w, exists new,
    log (snd (m w)) = (log w ++ new)%list
    /\ (new = [] \/ exists e, new = [e] /\ P e).

(** The event is one of the prepared reports, with as many parameters
    as the template has placeholders. *)
Definition is_report (e : Event) : Prop :=
  exists title template params,
    In (title, template) get_prepared_reports_templates
    /\ length params = count_placeholders template
    /\ e = Executed (Text template) params.

(** * Properties *)

(** ** The Python built-ins on sample inputs *)

Example int_examples :
  Py.int " 42 " = Some 42 /\ Py.int "-1_000" = Some (-1000) /\
  Py.int "abc" = None /\ Py.int EmptyString = None /\ Py.int "1__0" = None /\
  Py.int "007" = Some 7.
Proof. repeat split; reflexivity. Qed.

(** [strip] removes a file separator (byte 28), [int] does not skip it. *)
Example int_blanks :
  let s := String (ascii_of_nat 28) "5" in
  Py.strip s = "5" /\ Py.int s = None /\ Py.int (Py.strip s) = Some 5.
Proof. repeat split; reflexivity. Qed.

Example float_examples :
  Py.float_ok "10" = true /\ Py.float_ok "-1.5e3" = true /\
  Py.float_ok ".5" = true /\ Py.float_ok "1." = true /\
  Py.float_ok "NaN" = true /\ Py.float_ok "." = false /\
  Py.float_ok "abc" = false /\ Py.float_ok "1e" = false /\
  Py.float_ok EmptyString = false /\ Py.float_ok "1_0.0_1" = true.
Proof. repeat split; reflexivity. Qed.

Example strip_examples :
  Py.strip "  a b  " = "a b" /\ Py.strip "   " = EmptyString /\
  Py.strip "x" = "x".
Proof. repeat split; reflexivity. Qed.

(** ** Membership and the catalog queries *)

Lemma among_In (s : string) (l : list string) :
  Py.among s l = true <-> In s l.
Proof.
  unfold Py.among. rewrite existsb_exists. split.
  - intros (x & Hx & Heq). apply String.eqb_eq in Heq. now subst.
  - intros H. exists s. split; [assumption | apply String.eqb_refl].
Qed.

Lemma q_not_null_no_default_sound (c : Catalog) (table name : string) :
  In name (q_not_null_no_default c table) ->
  exists r, In r (cat_columns c) /\ col_table r = table /\ column_name r = name
            /\ is_nullable r = false /\ column_default r = None.
Proof.
  unfold q_not_null_no_default. rewrite in_map_iff.
  intros (r & Hname & Hin). apply filter_In in Hin as [Hin Hkeep].
  apply andb_prop in Hkeep as [Hkeep Hdef].
  apply andb_prop in Hkeep as [Htab Hnull].
  exists r. repeat split; try assumption.
  - now apply String.eqb_eq.
  - now destruct (is_nullable r).
  - unfold has_no_default in Hdef. now destruct (column_default r).
Qed.

Lemma q_join_edge_links (c : Catalog) (t1 t2 : string) (r : ForeignKeyRow) :
  In r (q_join_edge c t1 t2) <-> In r (cat_foreign_keys c) /\ links t1 t2 r.
Proof.
  unfold q_join_edge, links. rewrite filter_In.
  rewrite orb_true_iff, !andb_true_iff, !String.eqb_eq. tauto.
Qed.

(** ** Running the transaction boundary *)

Lemma log_record (e : Event) (w : World) : log (record e w) = (log w ++ [e])%list.
Proof. reflexivity. Qed.

Lemma find_pk_run (table : string) (w : World) :
  _find_pk_column table w
  = (Return (head (q_primary_key (catalog w) table)),
     record (Executed (SelectPrimaryKey table) []) w).
Proof. reflexivity. Qed.

(** C1, at a failing input: the server rejects the statement of an
    insert, of an update and of a delete. Each of the three propagates
    the [DatabaseError] with the statement as the last thing the session
    saw: no rollback is issued, whereas [generate_rows_sql] on the same
    session rolls back before it re-raises. *)
Theorem single_row_writes_do_not_roll_back :
  let w := fresh rejecting [] in
  let ins := insert_entry_validated "customers" {[ "email" := Some "a@b.c" ]}
               [("id", "integer"); ("email", "character varying")] w in
  let upd := update_entry_validated "orders" "amount" "7" (Some "12.50")
               [("id", "integer"); ("amount", "numeric")] w in
  let del := delete_entry "orders" "7" w in
  let gen := generate_rows_sql "customers" 5 w in
  (outcome ins = Raise (DatabaseError "ERROR: rejected")
   /\ log_after ins
      = [Executed (InsertValues "customers" ["email"] ["%s"]) [VStr "a@b.c"]])
  /\ (outcome upd = Raise (DatabaseError "ERROR: rejected")
      /\ log_after upd
         = [Executed (SelectPrimaryKey "orders") [];
            Executed (UpdateById "orders" "amount" "id") [VFloat "12.50"; VStr "7"]])
  /\ (outcome del = Raise (DatabaseError "ERROR: rejected")
      /\ log_after del
         = [Executed (SelectPrimaryKey "orders") [];
            Executed (DeleteById "orders" "id") [VStr "7"]])
  /\ (outcome gen = Raise (DatabaseError "ERROR: rejected")
      /\ last (log_after gen) = Some RolledBack).
Proof. vm_compute. repeat split; reflexivity. Qed.

(** General form of the same observation: whatever the server answers,
    the three single-row writes never issue a rollback. *)
Lemma insert_log (table : string) (values_dict : gmap string (option string))
    (col_types : list (string * string)) (w : World) :
  let r := insert_entry_validated table values_dict col_types w in
  log_after r = log w
  \/ exists q params,
       (outcome r = Return true
        /\ log_after r = (log w ++ [Executed q params; Committed])%list)
       \/ (exists err, outcome r = Raise (DatabaseError err)
           /\ log_after r = (log w ++ [Executed q params])%list).
Proof.
  unfold insert_entry_validated, bind, lift, log_after, outcome. simpl.
  destruct (insert_loop values_dict col_types [] [] []) as [[[cols vals] ph]|e];
    [|now left].
  destruct cols as [|c cols]; [now left|]. right.
  exists (InsertValues table (c :: cols) ph), vals.
  unfold execute, commit, ret.
  destruct (engine w _ _) as [n rows|err]; simpl.
  - left. split; [reflexivity|]. now rewrite <- app_assoc.
  - right. exists err. now split.
Qed.

Lemma no_rollback_appended (l : list Event) (tl : list Event) :
  ~ In RolledBack l -> Forall (fun e => e <> RolledBack) tl ->
  ~ In RolledBack (l ++ tl)%list.
Proof.
  intros Hl Htl Hin. apply in_app_or in Hin as [Hin|Hin]; [now apply Hl|].
  rewrite Forall_forall in Htl. apply list_elem_of_In in Hin.
  now apply (Htl RolledBack Hin).
Qed.

Lemma update_delete_never_roll_back (w : World) (table column row_id : string)
    (new_value : option string) (col_types : list (string * string)) :
  ~ In RolledBack (log w) ->
  ~ In RolledBack
      (log_after (update_entry_validated table column row_id new_value col_types w))
  /\ ~ In RolledBack (log_after (delete_entry table row_id w)).
Proof.
  intros Hclean.
  unfold update_entry_validated, delete_entry, bind, lift, raise, log_after.
  rewrite !find_pk_run.
  unfold execute, commit, ret.
  repeat change (engine (record ?e ?w0)) with (engine w0).
  split.
  - destruct (dict_get column col_types) as [dtype|]; [|exact Hclean].
    destruct (_cast_value_from_input new_value dtype) as [v|e]; [|exact Hclean].
    rewrite find_pk_run.
    destruct (head (q_primary_key (catalog w) table)) as [id_col|]; simpl.
    + repeat change (engine (record ?e ?w0)) with (engine w0).
      destruct (engine w _ _) as [n rows|err]; simpl;
        rewrite <- ?app_assoc; apply no_rollback_appended; try assumption;
        repeat constructor; discriminate.
    + apply no_rollback_appended; [assumption|]. repeat constructor; discriminate.
  - destruct (head (q_primary_key (catalog w) table)) as [id_col|]; simpl.
    + destruct (engine w _ _) as [n rows|err]; simpl;
        rewrite <- ?app_assoc; apply no_rollback_appended; try assumption;
        repeat constructor; discriminate.
    + apply no_rollback_appended; [assumption|]. repeat constructor; discriminate.
Qed.

(** ** Primary-key precondition of update and delete *)

(** C5, as stated, fails on three counts. On a table without primary
    key, an update that names an unknown column, or whose new value does
    not cast, fails with the error of that test and not with the one of
    the missing key: the column and the value are tested first. An
    update or a delete that does reach the primary-key test has by then
    sent the primary-key lookup to the session. And a table whose
    primary key has two columns has no single-column key, yet the lookup
    returns its rows and the delete goes ahead on the first of them. *)
Lemma update_without_pk_fails_otherwise :
  let w := fresh accepting [] in
  let types := [("body", "text"); ("rank", "integer")] in
  let w2 := {| catalog := baskets; engine := accepting; log := [];
               stdin := []; stdout := [] |} in
  q_primary_key (catalog w) "notes" = []
  /\ update_entry_validated "notes" "title" "1" (Some "x") types w
     = (Raise (ValueError "Unknown column"), w)
  /\ (exists msg,
        update_entry_validated "notes" "rank" "1" (Some "abc") types w
        = (Raise (ValueError msg), w)
        /\ msg <> "Primary key column not found for table")
  /\ outcome (update_entry_validated "notes" "rank" "1" (Some "3") types w)
     = Raise (ValueError "Primary key column not found for table")
  /\ log_after (update_entry_validated "notes" "rank" "1" (Some "3") types w)
     = [Executed (SelectPrimaryKey "notes") []]
  /\ log_after (delete_entry "notes" "1" w)
     = [Executed (SelectPrimaryKey "notes") []]
  /\ q_primary_key baskets "order_items" = ["order_id"; "product_id"]
  /\ outcome (delete_entry "order_items" "7" w2) = Return true
  /\ log_after (delete_entry "order_items" "7" w2)
     = [Executed (SelectPrimaryKey "order_items") [];
        Executed (DeleteById "order_items" "order_id") [VStr "7"];
        Committed].
Proof.
  vm_compute. repeat split; try reflexivity.
  eexists. split; [reflexivity | discriminate].
Qed.

(** C5, amended: on a table for which the primary-key lookup finds no
    row, a delete fails with "Primary key not found", and an update of a
    known column with a value that casts fails with "Primary key column
    not found for table"; in both the lookup is the only statement the
    session has seen. An update that names an unknown column fails with
    "Unknown column", and one whose value does not cast fails with the
    error of the cast, both before anything is sent: the world is as it
    was. So whatever the update, it fails, and neither it nor the delete
    adds anything to the session's log but the lookup: no UPDATE or
    DELETE statement is executed and nothing is committed. *)
Theorem no_primary_key_no_write (w : World) (table column row_id : string)
    (new_value : option string) (col_types : list (string * string)) :
  q_primary_key (catalog w) table = [] ->
  let lookup := record (Executed (SelectPrimaryKey table) []) w in
  let upd := update_entry_validated table column row_id new_value col_types w in
  delete_entry table row_id w = (Raise (ValueError "Primary key not found"), lookup)
  /\ (forall dtype casted,
        dict_get column col_types = Some dtype ->
        _cast_value_from_input new_value dtype = Return casted ->
        upd = (Raise (ValueError "Primary key column not found for table"), lookup))
  /\ (dict_get column col_types = None ->
      upd = (Raise (ValueError "Unknown column"), w))
  /\ (forall dtype e,
        dict_get column col_types = Some dtype ->
        _cast_value_from_input new_value dtype = Raise e ->
        upd = (Raise e, w))
  /\ (exists e, outcome upd = Raise e)
  /\ (log_after upd = log w
      \/ log_after upd = (log w ++ [Executed (SelectPrimaryKey table) []])%list).
Proof.
  intros Hpk lookup upd. subst lookup upd.
  unfold delete_entry, update_entry_validated, bind, lift, raise, outcome, log_after.
  rewrite !find_pk_run, Hpk. simpl.
  split; [reflexivity|]. split; [|split; [|split]].
  - intros dtype casted Hget Hcast. rewrite Hget, Hcast. simpl. now rewrite Hpk.
  - now intros ->.
  - intros dtype e Hget Hcast. now rewrite Hget, Hcast.
  - destruct (dict_get column col_types) as [dtype|]; simpl.
    + destruct (_cast_value_from_input new_value dtype) as [v|e]; simpl.
      * rewrite Hpk. simpl. split; [eauto | now right].
      * split; [eauto | now left].
    + split; [eauto | now left].
Qed.

Lemma no_primary_key_no_write_witness :
  q_primary_key (catalog (fresh accepting [])) "notes" = []
  /\ delete_entry "notes" "1" (fresh accepting [])
     = (Raise (ValueError "Primary key not found"),
        record (Executed (SelectPrimaryKey "notes") []) (fresh accepting []))
  /\ update_entry_validated "notes" "rank" "1" (Some "3")
       [("body", "text"); ("rank", "integer")] (fresh accepting [])
     = (Raise (ValueError "Primary key column not found for table"),
        record (Executed (SelectPrimaryKey "notes") []) (fresh accepting [])).
Proof.
  split; [reflexivity|].
  pose proof (no_primary_key_no_write (fresh accepting []) "notes" "rank" "1"
                (Some "3") [("body", "text"); ("rank", "integer")] eq_refl)
    as (Hdel & Hupd & _).
  split; [exact Hdel|]. now apply (Hupd "integer" (VInt 3)).
Defined.

(** ** Result sets without rows *)

(** C10: when the server answers a query with no rows, both select
    executors return the empty row list with the empty column list: the
    column names are read off the first row, and there is none. *)
Theorem no_rows_no_columns (w : World) (query template_sql : string)
    (params : list Value) (n m : Z) :
  engine w (Text query) [] = Done n [] ->
  engine w (Text template_sql) params = Done m [] ->
  outcome (execute_raw_select query w) = Return ([], [])
  /\ outcome (execute_prepared_select template_sql params w) = Return ([], []).
Proof.
  intros Hraw Hprep.
  unfold execute_raw_select, execute_prepared_select, bind, execute, outcome.
  now rewrite Hraw, Hprep.
Qed.

Lemma no_rows_no_columns_witness :
  outcome (execute_raw_select "SELECT * FROM t WHERE TRUE LIMIT 1000;"
             (fresh accepting []))
  = Return ([], [])
  /\ outcome (execute_prepared_select "SELECT a FROM t WHERE a >= %s;" [VInt 3]
                (fresh accepting []))
     = Return ([], []).
Proof.
  apply (no_rows_no_columns (fresh accepting []) _ _ [VInt 3] 1 1); reflexivity.
Defined.

(** With rows, the column names are the keys of the first row. *)
Lemma rows_and_cols_first (r0 : DictRow) (rows : list DictRow) :
  snd (rows_and_cols (r0 :: rows)) = map fst r0.
Proof. reflexivity. Qed.

(** ** Synthetic data generation *)

Section GenerateLoop.

Variable fk_map : gmap string (string * string).
Variable not_null_cols : list string.

Lemma generate_loop_spec (cols : list (string * string))
    (col_names select_exprs : list string) :
  generate_loop fk_map not_null_cols cols col_names select_exprs
  = ((col_names ++ map fst (List.filter (is_required not_null_cols) cols))%list,
     (select_exprs
        ++ map (expr_for fk_map) (List.filter (is_required not_null_cols) cols))%list).
Proof.
  revert col_names select_exprs.
  induction cols as [|[c dt] cols IH]; intros col_names select_exprs; simpl.
  - now rewrite !app_nil_r.
  - change (is_required not_null_cols (c, dt)) with (Py.among c not_null_cols).
    destruct (Py.among c not_null_cols); simpl.
    + rewrite IH. now rewrite <- !app_assoc.
    + apply IH.
Qed.

Lemma generate_loop_pairs (cols : list (string * string)) :
  let r := generate_loop fk_map not_null_cols cols [] [] in
  combine (fst r) (snd r)
  = map (fun cd => (fst cd, expr_for fk_map cd))
        (List.filter (is_required not_null_cols) cols).
Proof.
  simpl. rewrite generate_loop_spec. simpl.
  induction (List.filter (is_required not_null_cols) cols) as [|cd l IH]; simpl;
    [reflexivity|].
  now rewrite IH.
Qed.

Lemma generate_loop_names_in (cols : list (string * string)) (name : string) :
  In name (fst (generate_loop fk_map not_null_cols cols [] [])) ->
  In name (map fst cols) /\ In name not_null_cols.
Proof.
  rewrite generate_loop_spec. simpl. rewrite in_map_iff.
  intros ([c dt] & Heq & Hin). simpl in Heq. subst c.
  apply filter_In in Hin as [Hin Hkeep]. split.
  - apply in_map_iff. now exists (name, dt).
  - now apply among_In.
Qed.

End GenerateLoop.

Lemma unique_by_name (rows : list ColumnRow) (r1 r2 : ColumnRow) :
  List.NoDup (map column_name rows) ->
  In r1 rows -> In r2 rows -> column_name r1 = column_name r2 -> r1 = r2.
Proof.
  induction rows as [|r rows IH]; intros Hnd H1 H2 Heq; [contradiction|].
  simpl in Hnd. inversion Hnd as [|? ? Hnot Hnd']; subst.
  destruct H1 as [->|H1], H2 as [->|H2]; try reflexivity.
  - exfalso. apply Hnot. rewrite Heq. now apply in_map.
  - exfalso. apply Hnot. rewrite <- Heq. now apply in_map.
  - now apply IH.
Qed.

Lemma get_columns_run (table : string) (w : World) :
  get_columns table w
  = if q_table_exists (catalog w) table
    then (Return (Some (q_columns (catalog w) table)),
          record (Executed (SelectColumns table) [])
                 (record (Executed (SelectTableExists table) []) w))
    else (Return None, record (Executed (SelectTableExists table) []) w).
Proof.
  unfold get_columns, table_exists, bind, query, ret. simpl.
  now destruct (q_table_exists (catalog w) table).
Qed.

(** What [generate_rows_sql] does on a table that exists and has
    columns, case by case. *)
Lemma generate_rows_sql_run (w : World) (table : string) (count : Z) :
  q_table_exists (catalog w) table = true ->
  q_columns (catalog w) table <> [] ->
  let r := generate_rows_sql table count w in
  let names := insertable_columns (catalog w) table in
  let stmt := InsertGenerated table names (generated_exprs (catalog w) table) in
  let reads := (log w ++ generation_reads table)%list in
  match names with
  | [] =>
      outcome r = Raise (ValueError "No columns to insert (all are PK/DEFAULT)")
      /\ log_after r = reads
  | _ =>
      match engine w stmt [VInt count] with
      | Done _ _ =>
          outcome r = Return count
          /\ log_after r = (reads ++ [Executed stmt [VInt count]; Committed])%list
      | Failed err =>
          outcome r = Raise (DatabaseError err)
          /\ log_after r = (reads ++ [Executed stmt [VInt count]; RolledBack])%list
      end
  end.
Proof.
  intros Hexists Hcols. cbv zeta.
  unfold insertable_columns, generated_exprs, generate_rows_sql, bind.
  rewrite get_columns_run, Hexists.
  destruct (q_columns (catalog w) table) as [|cd cols] eqn:Ecols; [easy|].
  unfold query.
  repeat change (catalog (record ?e ?w0)) with (catalog w0).
  destruct (generate_loop _ _ (cd :: cols) [] []) as [names exprs] eqn:Eloop.
  simpl fst. simpl snd.
  destruct names as [|name names].
  - unfold raise, outcome, log_after. simpl. split; [reflexivity|].
    now rewrite <- !app_assoc.
  - unfold try_except, bind, execute, commit, rollback, ret, raise.
    repeat change (engine (record ?e ?w0)) with (engine w0).
    destruct (engine w _ _) as [n rows|err]; unfold outcome, log_after; simpl;
      (split; [reflexivity|]); now rewrite <- !app_assoc.
Qed.

(** A table none of whose columns is insertable: the generator learns
    it from the catalog, raises "No columns to insert" after its four
    catalog queries and sends no INSERT. *)
Lemma generation_fails_after_catalog_reads :
  let w := fresh accepting [] in
  let r := generate_rows_sql "notes" 5 w in
  insertable_columns shop "notes" = []
  /\ outcome r = Raise (ValueError "No columns to insert (all are PK/DEFAULT)")
  /\ log_after r
     = [Executed (SelectTableExists "notes") [];
        Executed (SelectColumns "notes") [];
        Executed (SelectForeignKeys "notes") [];
        Executed (SelectNotNullNoDefault "notes") []].
Proof. vm_compute. repeat split; reflexivity. Qed.

(** On a table that exists and has columns, every column of the
    generated column list is a column of that table which the catalog
    reports as NOT NULL and without a default, so a nullable column and
    a column with a database-side default (a serial key among them) are
    never in it. If the list is empty the operation fails with
    "No columns to insert" after its four catalog queries and before any
    INSERT is executed or anything is committed; otherwise exactly one
    INSERT follows, over exactly that list, closed by a commit or a
    rollback. *)
Theorem generated_columns_are_required (w : World) (table : string) (count : Z) :
  q_table_exists (catalog w) table = true ->
  q_columns (catalog w) table <> [] ->
  let r := generate_rows_sql table count w in
  let names := insertable_columns (catalog w) table in
  (forall name, In name names ->
     exists row, In row (cat_columns (catalog w)) /\ col_table row = table
                 /\ column_name row = name
                 /\ is_nullable row = false /\ column_default row = None)
  /\ (List.NoDup (map column_name (table_rows (catalog w) table)) ->
      forall row, In row (table_rows (catalog w) table) ->
        is_nullable row = true \/ column_default row <> None ->
        ~ In (column_name row) names)
  /\ (names = [] ->
      outcome r = Raise (ValueError "No columns to insert (all are PK/DEFAULT)")
      /\ log_after r = (log w ++ generation_reads table)%list)
  /\ (names <> [] ->
      exists exprs closing,
        log_after r
        = (log w ++ generation_reads table
             ++ [Executed (InsertGenerated table names exprs) [VInt count]; closing])%list
        /\ (closing = Committed \/ closing = RolledBack)).
Proof.
  intros Hexists Hcols r names.
  pose proof (generate_rows_sql_run w table count Hexists Hcols) as Hrun.
  cbv zeta in Hrun. fold r names in Hrun.
  assert (Hsound : forall name, In name names ->
            exists row, In row (cat_columns (catalog w)) /\ col_table row = table
                        /\ column_name row = name
                        /\ is_nullable row = false /\ column_default row = None).
  { intros name Hin. subst names. unfold insertable_columns in Hin.
    apply generate_loop_names_in in Hin as [_ Hin].
    now apply q_not_null_no_default_sound. }
  split; [exact Hsound|]. split; [|split].
  - intros Hunique row Hrow Hskip Hin.
    destruct (Hsound _ Hin) as (row' & Hin' & Htab & Hname & Hnull & Hdef).
    assert (Hrow' : In row' (table_rows (catalog w) table)).
    { apply filter_In. split; [assumption | now apply String.eqb_eq]. }
    assert (row' = row) as -> by (eapply unique_by_name; eassumption).
    destruct Hskip as [Hskip|Hskip]; congruence.
  - intros Hnil. now rewrite Hnil in Hrun.
  - intros Hne. destruct names as [|n0 names0] eqn:En; [easy|].
    exists (generated_exprs (catalog w) table).
    destruct (engine w _ _) as [k rows|err].
    + exists Committed. destruct Hrun as [_ ->].
      split; [now rewrite <- app_assoc | now left].
    + exists RolledBack. destruct Hrun as [_ ->].
      split; [now rewrite <- app_assoc | now right].
Qed.

(** C2, at a failing input: [tickets.id] is an identity primary key. The
    catalog reports it NOT NULL and, like every identity column, without
    [column_default]; the generator recognises a key the database fills
    by its default alone and never reads [is_identity], so it takes the
    column for one it has to fill: [id] is in the column list of the
    INSERT, with a random integer as its value. *)
Theorem identity_primary_key_is_generated :
  let w := fresh accepting [] in
  let r := generate_rows_sql "tickets" 3 w in
  q_primary_key shop "tickets" = ["id"]
  /\ (exists row, In row (cat_columns shop) /\ col_table row = "tickets"
                  /\ column_name row = "id" /\ is_identity row = true
                  /\ is_nullable row = false /\ column_default row = None)
  /\ insertable_columns shop "tickets" = ["id"; "subject"]
  /\ outcome r = Return 3
  /\ log_after r
     = (generation_reads "tickets"
          ++ [Executed
                (InsertGenerated "tickets" ["id"; "subject"]
                   ["floor(random()*10000)::int";
                    "substring(md5(random()::text),1,10)"])
                [VInt 3];
              Committed])%list.
Proof.
  vm_compute. repeat split; try reflexivity.
  eexists. split; [do 10 right; left; reflexivity|]. now repeat split.
Qed.

(** A serial key, by contrast, has a default and is left out. *)
Example insertable_columns_of_orders :
  insertable_columns shop "orders" = ["customer_id"; "amount"; "tag"].
Proof. reflexivity. Qed.

(** A primary key is left out because of its default, not because it is
    a key: one without default is generated like any other column. *)
Example plain_primary_key_is_generated :
  q_primary_key currencies "currency" = ["code"]
  /\ insertable_columns currencies "currency" = ["code"]
  /\ generated_exprs currencies "currency" = ["substring(md5(random()::text),1,10)"].
Proof. repeat split; reflexivity. Qed.

(** The choice of the expression, column by column. *)
Lemma generated_pairs (c : Catalog) (table : string) :
  combine (insertable_columns c table) (generated_exprs c table)
  = map (fun cd => (fst cd, expr_for (build_fk_map (q_foreign_keys c table)) cd))
        (List.filter (is_required (q_not_null_no_default c table)) (q_columns c table)).
Proof. apply generate_loop_pairs. Qed.

(** For every column that generation selects, that is not a
    foreign-key column and whose name holds no "email", the expression
    paired with it in the statement is the ten-character token
    [substring(md5(random()::text),1,10)] when its type is of the text
    category, and the literal [NULL] when its type matches no rule of
    the chain. *)
Lemma select_expr_text_and_unknown (c : Catalog)
    (table col_name data_type : string) :
  In (col_name, data_type) (q_columns c table) ->
  In col_name (q_not_null_no_default c table) ->
  build_fk_map (q_foreign_keys c table) !! col_name = None ->
  Py.contains "email" (Py.lower col_name) = false ->
  let pairs := combine (insertable_columns c table) (generated_exprs c table) in
  (generation_category data_type = CText ->
   In (col_name, "substring(md5(random()::text),1,10)") pairs)
  /\ (generation_category data_type = CUnknown -> In (col_name, "NULL") pairs).
Proof.
  intros Hcol Hnn Hfk Hmail pairs. subst pairs. rewrite generated_pairs.
  assert (Hin : In (col_name,
                    select_expr (build_fk_map (q_foreign_keys c table))
                                col_name data_type)
                   (map (fun cd => (fst cd,
                           expr_for (build_fk_map (q_foreign_keys c table)) cd))
                        (List.filter (is_required (q_not_null_no_default c table))
                                     (q_columns c table)))).
  { apply in_map_iff. exists (col_name, data_type). split; [reflexivity|].
    apply filter_In. split; [assumption|]. now apply among_In. }
  revert Hin. unfold select_expr, generation_category. rewrite Hfk, Hmail.
  destruct (_ || _)%bool; [split; discriminate|].
  destruct (_ || _)%bool; [split; discriminate|].
  destruct (String.eqb _ _); [split; discriminate|].
  destruct (Py.contains "timestamp" _); [split; discriminate|].
  destruct (Py.contains "date" _); [split; discriminate|].
  destruct (_ || _)%bool; intros Hin; split; intros Hcat;
    try discriminate; exact Hin.
Qed.

(** C3, at a failing input: [orders.tag] is a NOT NULL [uuid] column
    without default. Its type matches no rule of the chain; generation
    selects the column because it is NOT NULL and pairs it with the
    literal [NULL], so the one INSERT it sends puts a null into a
    NOT NULL column. The cast and the filter of the same program treat
    the same type as text. *)
Theorem unknown_type_generates_null :
  let r := generate_rows_sql "orders" 5 (fresh accepting []) in
  generation_category "uuid" = CUnknown
  /\ In "tag" (q_not_null_no_default shop "orders")
  /\ select_expr ∅ "tag" "uuid" = "NULL"
  /\ In ("tag", "NULL")
        (combine (insertable_columns shop "orders") (generated_exprs shop "orders"))
  /\ log_after r
     = app (generation_reads "orders")
           [Executed
              (InsertGenerated "orders" ["customer_id"; "amount"; "tag"]
                 ["(SELECT " ++ Identifier "id" ++ " FROM "
                    ++ Identifier "customers" ++ " ORDER BY random() LIMIT 1)";
                  "round(random()*10000::numeric,2)";
                  "NULL"])
              [VInt 5];
            Committed]
  /\ _cast_value_from_input (Some "6f1c") "uuid" = Return (VStr "6f1c")
  /\ outcome (build_filter_clause "orders" "tag" "uuid" (fresh accepting ["6f1c"]))
     = Return (in_quotes "orders" ++ "." ++ in_quotes "tag" ++ " = '6f1c'").
Proof.
  vm_compute. repeat split; try reflexivity; right; right; now left.
Qed.

Example generated_statement_of_customers :
  log_after (generate_rows_sql "customers" 3 (fresh accepting []))
  = (generation_reads "customers"
       ++ [Executed
             (InsertGenerated "customers" ["email"; "name"]
                ["substring(md5(random()::text),1,7) || '@gmail.com'";
                 "substring(md5(random()::text),1,10)"])
             [VInt 3];
           Committed])%list.
Proof. reflexivity. Qed.

(** ** Join resolution *)

Lemma append_assoc (a b c : string) : ((a ++ b) ++ c = a ++ (b ++ c))%string.
Proof.
  induction a as [|x a IH]; [reflexivity|].
  change (String x ((a ++ b) ++ c) = String x (a ++ (b ++ c)))%string.
  now rewrite IH.
Qed.

Lemma find_join_expression_run (t1 t2 : string) (w : World) :
  find_join_expression t1 t2 w
  = (Return (option_map join_condition (head (q_join_edge (catalog w) t1 t2))),
     record (Executed (SelectJoinEdge t1 t2) []) w).
Proof.
  unfold find_join_expression, bind, query, ret.
  repeat change (catalog (record ?e ?w0)) with (catalog w0).
  now destruct (head (q_join_edge (catalog w) t1 t2)).
Qed.

Lemma join_condition_quoted (r : ForeignKeyRow) :
  exists rest, join_condition r = String (ascii_of_nat 34) rest.
Proof. eexists. reflexivity. Qed.

Lemma search_from_clause_run (t1 t2 : string) (w : World) :
  t2 <> EmptyString ->
  let seen := record (Executed (SelectJoinEdge t1 t2) []) w in
  search_from_clause t1 t2 w
  = match head (q_join_edge (catalog w) t1 t2) with
    | Some r =>
        (Return (in_quotes t1 ++ " JOIN " ++ in_quotes t2 ++ " ON "
                   ++ join_condition r),
         seen)
    | None =>
        (Return (in_quotes t1 ++ " CROSS JOIN " ++ in_quotes t2),
         snd (print cross_join_warning seen))
    end.
Proof.
  intros Ht2 seen.
  assert (Hne : String.eqb t2 EmptyString = false) by now apply String.eqb_neq.
  unfold search_from_clause. rewrite Hne.
  change (negb false) with true. cbv iota.
  unfold bind. rewrite find_join_expression_run.
  destruct (head (q_join_edge (catalog w) t1 t2)) as [r|]; [|reflexivity].
  destruct (join_condition_quoted r) as [rest Hrest].
  change (option_map join_condition (Some r)) with (Some (join_condition r)).
  rewrite Hrest. reflexivity.
Qed.

(** C8: for two tables, the second one named, the join resolver takes
    the first foreign-key row that links them in either role. If there is
    one, the resolver returns the equality of the child column and the
    parent column, each identifier in double quotes, and the search joins
    the tables [ON] it without printing anything. If no foreign-key row
    links them, the resolver returns nothing, and the search prints the
    warning and uses a [CROSS JOIN] without condition. *)
Theorem join_resolution (w : World) (t1 t2 : string) :
  t2 <> EmptyString ->
  let seen := record (Executed (SelectJoinEdge t1 t2) []) w in
  match head (q_join_edge (catalog w) t1 t2) with
  | Some r =>
      In r (cat_foreign_keys (catalog w)) /\ links t1 t2 r
      /\ find_join_expression t1 t2 w
         = (Return (Some (dq ++ child_table r ++ dq ++ "." ++ dq ++ child_column r ++ dq
                          ++ " = "
                          ++ dq ++ parent_table r ++ dq ++ "." ++ dq ++ parent_column r
                          ++ dq)),
            seen)
      /\ search_from_clause t1 t2 w
         = (Return (in_quotes t1 ++ " JOIN " ++ in_quotes t2 ++ " ON " ++ join_condition r),
            seen)
      /\ printed (search_from_clause t1 t2 w) = stdout w
  | None =>
      (forall r, In r (cat_foreign_keys (catalog w)) -> ~ links t1 t2 r)
      /\ find_join_expression t1 t2 w = (Return None, seen)
      /\ outcome (search_from_clause t1 t2 w)
         = Return (in_quotes t1 ++ " CROSS JOIN " ++ in_quotes t2)
      /\ printed (search_from_clause t1 t2 w)
         = (stdout w ++ [cross_join_warning])%list
      /\ log_after (search_from_clause t1 t2 w) = log seen
  end.
Proof.
  intros Ht2 seen.
  rewrite (search_from_clause_run t1 t2 w Ht2), find_join_expression_run.
  fold seen.
  destruct (head (q_join_edge (catalog w) t1 t2)) as [r|] eqn:Ehead.
  - assert (Hin : In r (q_join_edge (catalog w) t1 t2)).
    { destruct (q_join_edge (catalog w) t1 t2); [discriminate|].
      injection Ehead as ->. now left. }
    apply q_join_edge_links in Hin as [Hin Hlinks].
    split; [assumption|]. split; [assumption|].
    split; [|split]; try reflexivity.
    unfold join_condition, in_quotes. simpl option_map.
    now rewrite !append_assoc.
  - split; [|repeat split; reflexivity].
    intros r Hin Hlinks.
    assert (Hsel : In r (q_join_edge (catalog w) t1 t2))
      by (apply q_join_edge_links; now split).
    destruct (q_join_edge (catalog w) t1 t2); [contradiction | discriminate].
Qed.

Lemma join_resolution_witness :
  find_join_expression "orders" "customers" (fresh accepting [])
  = (Return (Some (dq ++ "orders" ++ dq ++ "." ++ dq ++ "customer_id" ++ dq
                   ++ " = " ++ dq ++ "customers" ++ dq ++ "." ++ dq ++ "id" ++ dq)),
     record (Executed (SelectJoinEdge "orders" "customers") []) (fresh accepting [])).
Proof.
  assert (H : "customers" <> EmptyString) by discriminate.
  exact (proj1 (proj2 (proj2
           (join_resolution (fresh accepting []) "orders" "customers" H)))).
Defined.

(** The resolver is direction-blind: the child may be named second. *)
Example join_either_role :
  outcome (find_join_expression "customers" "orders" (fresh accepting []))
  = outcome (find_join_expression "orders" "customers" (fresh accepting [])).
Proof. reflexivity. Qed.

Example cross_join_fallback :
  outcome (search_from_clause "orders" "notes" (fresh accepting []))
  = Return (dq ++ "orders" ++ dq ++ " CROSS JOIN " ++ dq ++ "notes" ++ dq)
  /\ printed (search_from_clause "orders" "notes" (fresh accepting []))
     = [cross_join_warning].
Proof. split; reflexivity. Qed.

(** ** Range filters *)

Lemma filter_numeric_test (data_type : string) :
  is_numeric (filter_category data_type) = true ->
  (Py.startswith (Py.lower data_type) "integer"
   || Py.among (Py.lower data_type)
        ["bigint"; "smallint"; "numeric"; "double precision"; "real"])%bool = true.
Proof.
  unfold filter_category, Py.among. simpl existsb.
  destruct (Py.startswith _ _); [reflexivity|].
  destruct (String.eqb _ "bigint"); [reflexivity|].
  destruct (String.eqb _ "smallint"); [reflexivity|].
  destruct (String.eqb _ "numeric"); [reflexivity|].
  destruct (String.eqb _ "double precision"); [reflexivity|].
  destruct (String.eqb _ "real"); [reflexivity|]. simpl.
  repeat (match goal with |- context [if ?b then _ else _] => destruct b end;
          simpl; try discriminate).
Qed.

Lemma filter_temporal_test (data_type : string) :
  filter_category data_type = CTemporal ->
  let dt := Py.lower data_type in
  (Py.startswith dt "integer"
   || Py.among dt ["bigint"; "smallint"; "numeric"; "double precision"; "real"])%bool
  = false
  /\ (Py.contains "character" dt || String.eqb dt "text")%bool = false
  /\ String.eqb dt "boolean" = false
  /\ (Py.contains "date" dt || Py.contains "timestamp" dt)%bool = true.
Proof.
  unfold filter_category, Py.among. simpl existsb.
  destruct (Py.startswith _ _); [discriminate|].
  destruct (String.eqb _ "bigint"); [discriminate|].
  destruct (String.eqb _ "smallint"); [discriminate|].
  destruct (String.eqb _ "numeric"); [discriminate|].
  destruct (String.eqb _ "double precision"); [discriminate|].
  destruct (String.eqb _ "real"); [discriminate|]. simpl.
  destruct (_ || _)%bool; [discriminate|].
  destruct (String.eqb _ "boolean"); [discriminate|].
  destruct (_ || _)%bool; [easy | discriminate].
Qed.

Lemma build_filter_clause_range (w : World) (table column data_type : string)
    (lo hi : string) (rest : list string) :
  stdin w = lo :: hi :: rest ->
  let col_ref := in_quotes table ++ "." ++ in_quotes column in
  let r := build_filter_clause table column data_type w in
  (is_numeric (filter_category data_type) = true ->
   outcome r
   = Return (and_join (range_clauses col_ref _literal_for_numeric
                                     (Py.strip lo) (Py.strip hi))))
  /\ (filter_category data_type = CTemporal ->
      outcome r
      = Return (and_join (range_clauses col_ref _quote_literal
                                        (Py.strip lo) (Py.strip hi)))).
Proof.
  intros Hin col_ref r. subst r. unfold build_filter_clause. split.
  - intros Hcat. rewrite (filter_numeric_test _ Hcat).
    unfold bind, input, outcome, range_clauses, ret. rewrite Hin. simpl stdin.
    now destruct (String.eqb (Py.strip lo) _), (String.eqb (Py.strip hi) _).
  - intros Hcat. destruct (filter_temporal_test _ Hcat) as (-> & -> & -> & ->).
    unfold bind, input, outcome, range_clauses, ret. rewrite Hin. simpl stdin.
    now destruct (String.eqb (Py.strip lo) _), (String.eqb (Py.strip hi) _).
Qed.

(** C7: in the filter of a numeric column, a bound that [float] cannot
    read is written as the literal [0]. The builder returns a clause for
    every pair of answers, well-formed or not: a lower bound that is
    given and malformed yields the comparison [>= 0], an upper bound
    that is given and malformed yields [<= 0]. *)
Theorem malformed_bound_reads_as_zero (w : World) (table column data_type : string)
    (lo hi : string) (rest : list string) :
  is_numeric (filter_category data_type) = true ->
  stdin w = lo :: hi :: rest ->
  let col_ref := in_quotes table ++ "." ++ in_quotes column in
  let r := build_filter_clause table column data_type w in
  (forall s, Py.float_ok s = false -> _literal_for_numeric s = "0")
  /\ (exists clause, outcome r = Return clause)
  /\ (Py.strip lo <> EmptyString -> Py.float_ok (Py.strip lo) = false ->
      exists upper, outcome r = Return (and_join ((col_ref ++ " >= 0") :: upper)))
  /\ (Py.strip hi <> EmptyString -> Py.float_ok (Py.strip hi) = false ->
      exists lower, outcome r = Return (and_join (app lower [col_ref ++ " <= 0"]))).
Proof.
  intros Hcat Hin col_ref r.
  destruct (build_filter_clause_range w table column data_type lo hi rest Hin)
    as [Hnum _].
  specialize (Hnum Hcat). fold col_ref r in Hnum.
  split; [|split; [|split]].
  - intros s Hs. unfold _literal_for_numeric. now rewrite Hs.
  - eexists. exact Hnum.
  - intros Hlo Hbad. apply String.eqb_neq in Hlo.
    eexists. rewrite Hnum. unfold range_clauses, _literal_for_numeric at 1.
    rewrite Hlo, Hbad. reflexivity.
  - intros Hhi Hbad. apply String.eqb_neq in Hhi.
    eexists. rewrite Hnum. unfold range_clauses.
    rewrite Hhi. unfold _literal_for_numeric at 2. rewrite Hbad. reflexivity.
Qed.

Lemma malformed_bound_reads_as_zero_witness :
  exists upper,
    outcome (build_filter_clause "orders" "amount" "numeric"
               (fresh accepting ["ten"; "7"]))
    = Return (and_join ((in_quotes "orders" ++ "." ++ in_quotes "amount" ++ " >= 0")
                          :: upper)).
Proof.
  assert (Hne : Py.strip "ten" <> EmptyString) by discriminate.
  exact (proj1 (proj2 (proj2
           (malformed_bound_reads_as_zero (fresh accepting ["ten"; "7"])
              "orders" "amount" "numeric" "ten" "7" [] eq_refl eq_refl)))
           Hne eq_refl).
Defined.

Example malformed_bounds :
  outcome (build_filter_clause "orders" "amount" "numeric"
             (fresh accepting ["ten"; "1e"]))
  = Return (dq ++ "orders" ++ dq ++ "." ++ dq ++ "amount" ++ dq ++ " >= 0 AND "
              ++ dq ++ "orders" ++ dq ++ "." ++ dq ++ "amount" ++ dq ++ " <= 0").
Proof. reflexivity. Qed.

(** C9: the filter of a numeric or of a temporal column is [TRUE] when
    both bounds are left empty, the single comparison when one bound is
    given, and the two comparisons joined by [AND] when both are; the
    bound is written by [_literal_for_numeric] for a numeric column and
    as a quoted literal for a temporal one. *)
Theorem range_predicate_shape (w : World) (table column data_type : string)
    (lo hi : string) (rest : list string) (literal : string -> string) :
  stdin w = lo :: hi :: rest ->
  (is_numeric (filter_category data_type) = true /\ literal = _literal_for_numeric)
  \/ (filter_category data_type = CTemporal /\ literal = _quote_literal) ->
  let col_ref := in_quotes table ++ "." ++ in_quotes column in
  let lower := col_ref ++ " >= " ++ literal (Py.strip lo) in
  let upper := col_ref ++ " <= " ++ literal (Py.strip hi) in
  outcome (build_filter_clause table column data_type w)
  = Return (match Py.strip lo, Py.strip hi with
            | EmptyString, EmptyString => "TRUE"
            | _, EmptyString => lower
            | EmptyString, _ => upper
            | _, _ => lower ++ " AND " ++ upper
            end).
Proof.
  intros Hin Hcat col_ref lower upper.
  destruct (build_filter_clause_range w table column data_type lo hi rest Hin)
    as [Hnum Htemp].
  assert (Hrun : outcome (build_filter_clause table column data_type w)
                 = Return (and_join (range_clauses col_ref literal
                                                   (Py.strip lo) (Py.strip hi)))).
  { destruct Hcat as [[Hc ->]|[Hc ->]]; [now apply Hnum | now apply Htemp]. }
  rewrite Hrun. subst lower upper. unfold range_clauses.
  now destruct (Py.strip lo), (Py.strip hi).
Qed.

Lemma range_predicate_shape_witness :
  outcome (build_filter_clause "orders" "amount" "numeric"
             (fresh accepting ["10"; EmptyString]))
  = Return (dq ++ "orders" ++ dq ++ "." ++ dq ++ "amount" ++ dq ++ " >= 10").
Proof.
  apply (range_predicate_shape (fresh accepting ["10"; EmptyString])
           "orders" "amount" "numeric" "10" EmptyString [] _literal_for_numeric).
  - reflexivity.
  - left. split; reflexivity.
Defined.

Example both_bounds_omitted :
  outcome (build_filter_clause "orders" "amount" "numeric"
             (fresh accepting ["  "; EmptyString])) = Return "TRUE"
  /\ outcome (build_filter_clause "t" "day" "date"
                (fresh accepting [EmptyString; EmptyString])) = Return "TRUE".
Proof. split; reflexivity. Qed.

Example temporal_bounds :
  outcome (build_filter_clause "t" "day" "timestamp without time zone"
             (fresh accepting ["2024-01-01"; "2024-12-31"]))
  = Return (dq ++ "t" ++ dq ++ "." ++ dq ++ "day" ++ dq ++ " >= '2024-01-01' AND "
              ++ dq ++ "t" ++ dq ++ "." ++ dq ++ "day" ++ dq ++ " <= '2024-12-31'").
Proof. reflexivity. Qed.

(** ** Single-row insert *)

Lemma cast_of_blank (data_type : string) :
  _cast_value_from_input (Some EmptyString) data_type = Return VNone.
Proof. reflexivity. Qed.

Lemma present_items_cons (values_dict : gmap string (option string))
    (col dtype : string) (items : list (string * string)) :
  present_items values_dict ((col, dtype) :: items)
  = match values_dict !! col with
    | Some _ => (col, dtype) :: present_items values_dict items
    | None => present_items values_dict items
    end.
Proof.
  unfold present_items. simpl. unfold is_present at 1. simpl.
  now destruct (values_dict !! col).
Qed.

Lemma insert_loop_spec (values_dict : gmap string (option string))
    (items : list (string * string)) :
  forall cols vals placeholders cols' vals' placeholders',
    insert_loop values_dict items cols vals placeholders
    = Return (cols', vals', placeholders') ->
    exists vs,
      cols' = (cols ++ map fst (present_items values_dict items))%list
      /\ vals' = (vals ++ vs)%list
      /\ placeholders'
         = (placeholders ++ map (fun _ => "%s") (present_items values_dict items))%list
      /\ Forall2 (casts_to values_dict) (present_items values_dict items) vs.
Proof.
  induction items as [|[col dtype] items IH];
    intros cols vals placeholders cols' vals' placeholders' Hloop.
  - simpl in Hloop. injection Hloop as <- <- <-.
    exists []. simpl. rewrite !app_nil_r. repeat split. constructor.
  - simpl in Hloop. rewrite present_items_cons.
    destruct (values_dict !! col) as [val|] eqn:Elookup.
    + assert (Hcast : forall v,
                 match val with
                 | Some v0 => if String.eqb v0 EmptyString then Return VNone
                              else _cast_value_from_input val dtype
                 | None => Return VNone
                 end = Return v ->
                 _cast_value_from_input val dtype = Return v).
      { intros v. destruct val as [v0|]; [|easy].
        destruct (String.eqb v0 EmptyString) eqn:Eblank; [|easy].
        apply String.eqb_eq in Eblank. subst v0. now rewrite cast_of_blank. }
      destruct (match val with Some _ => _ | None => _ end) as [python_val|e];
        [|discriminate].
      specialize (Hcast python_val eq_refl).
      apply IH in Hloop as (vs & -> & -> & -> & Hall).
      exists (python_val :: vs). simpl. rewrite <- !app_assoc. repeat split.
      constructor; [|exact Hall]. exists val. now split.
    + now apply IH.
Qed.

Lemma insert_loop_nothing_present (values_dict : gmap string (option string))
    (items : list (string * string)) (cols : list string) (vals : list Value)
    (placeholders : list string) :
  present_items values_dict items = [] ->
  insert_loop values_dict items cols vals placeholders
  = Return (cols, vals, placeholders).
Proof.
  induction items as [|[col dtype] items IH]; [reflexivity|].
  rewrite present_items_cons. simpl.
  destruct (values_dict !! col); [discriminate | exact IH].
Qed.

(** What the console supplies: [get_values_for_columns] drops every
    blank answer, and the cast of an answer that is not blank is never
    the null value. The null binding of [insert_entry_validated] is
    reached by callers that pass [None] or a blank text themselves. *)
Lemma values_loop_non_blank (items : list (string * string)) :
  forall result w d w',
    (forall col v, result !! col = Some v ->
       exists s, v = Some s /\ Py.strip s <> EmptyString) ->
    values_loop items result w = (Return d, w') ->
    forall col v, d !! col = Some v ->
      exists s, v = Some s /\ Py.strip s <> EmptyString.
Proof.
  induction items as [|[c dtype] items IH]; intros result w d w' Hinv Hrun.
  - injection Hrun as <- _. exact Hinv.
  - simpl in Hrun. unfold bind, input in Hrun.
    destruct (stdin w) as [|line lines]; [discriminate|].
    destruct (String.eqb (Py.strip line) EmptyString) eqn:Eblank.
    + eapply IH; eassumption.
    + eapply IH; [|eassumption].
      intros col v. destruct (decide (c = col)) as [->|Hne].
      * rewrite lookup_insert_eq. intros [= <-]. exists line.
        split; [reflexivity | now apply String.eqb_neq].
      * rewrite lookup_insert_ne by assumption. apply Hinv.
Qed.

Lemma console_values_non_blank (col_types : list (string * string))
    (w w' : World) (d : gmap string (option string)) :
  get_values_for_columns col_types w = (Return d, w') ->
  forall col v, d !! col = Some v ->
    exists s, v = Some s /\ Py.strip s <> EmptyString.
Proof.
  unfold get_values_for_columns, bind, print. intros Hrun.
  eapply values_loop_non_blank; [|eassumption].
  intros col v. now rewrite lookup_empty.
Qed.

Lemma cast_non_blank (s data_type : string) :
  Py.strip s <> EmptyString ->
  _cast_value_from_input (Some s) data_type <> Return VNone.
Proof.
  intros Hs. apply String.eqb_neq in Hs.
  unfold _cast_value_from_input. rewrite Hs.
  repeat (match goal with
          | |- context [if ?b then _ else _] => destruct b
          | |- context [match ?o with Some _ => _ | None => _ end] => destruct o
          end; try discriminate).
Qed.

(** C4, as stated, fails: a column that is present with a blank value is
    kept although its cast result is the null value; the row is inserted
    with NULL bound to it. *)
Lemma blank_value_is_inserted_as_null :
  let w := fresh accepting [] in
  let r := insert_entry_validated "notes" {[ "body" := Some "   " ]}
             [("body", "text"); ("rank", "integer")] w in
  _cast_value_from_input (Some "   ") "text" = Return VNone
  /\ outcome r = Return true
  /\ log_after r
     = [Executed (InsertValues "notes" ["body"] ["%s"]) [VNone]; Committed].
Proof. vm_compute. repeat split; reflexivity. Qed.

(** C4, amended: the column list of the INSERT is made of the columns of
    the type map that are keys of the supplied values, in the order of
    the type map, each bound to the cast of its value, which is the null
    value for a blank one. If no column of the type map is a key of the
    values, the operation fails with "No columns to insert." and the
    session is left as it was. Otherwise, once every cast has succeeded,
    the INSERT is the one statement sent, followed by a commit if the
    server accepts it. *)
Theorem insert_takes_present_columns (w : World) (table : string)
    (values_dict : gmap string (option string)) (col_types : list (string * string)) :
  let r := insert_entry_validated table values_dict col_types w in
  let kept := present_items values_dict col_types in
  (kept = [] -> r = (Raise (ValueError "No columns to insert."), w))
  /\ (forall cols vals placeholders,
        insert_loop values_dict col_types [] [] [] = Return (cols, vals, placeholders) ->
        cols = map fst kept
        /\ Forall2 (casts_to values_dict) kept vals
        /\ (kept <> [] ->
            exists closing,
              log_after r
              = (log w ++ Executed (InsertValues table cols placeholders) vals :: closing)%list
              /\ (closing = [Committed] \/ closing = []))).
Proof.
  intros r kept. subst r kept. split.
  - intros Hnone. unfold insert_entry_validated, bind, lift.
    now rewrite (insert_loop_nothing_present _ _ _ _ _ Hnone).
  - intros cols vals ph Hloop.
    pose proof (insert_loop_spec _ _ _ _ _ _ _ _ Hloop) as (vs & Hc & Hv & _ & Hall).
    simpl in Hc, Hv. subst vs. split; [assumption|]. split; [assumption|].
    intros Hne. unfold insert_entry_validated, bind, lift. rewrite Hloop.
    destruct cols as [|c cols].
    { destruct (present_items values_dict col_types); [easy | discriminate]. }
    unfold execute, commit, ret, log_after.
    destruct (engine w _ _) as [n rows|err]; simpl.
    + exists [Committed]. split; [now rewrite <- app_assoc | now left].
    + exists []. split; [reflexivity | now right].
Qed.

Lemma insert_takes_present_columns_witness :
  insert_entry_validated "notes" ∅ [("body", "text"); ("rank", "integer")]
    (fresh accepting [])
  = (Raise (ValueError "No columns to insert."), fresh accepting []).
Proof.
  apply (insert_takes_present_columns (fresh accepting []) "notes" ∅
           [("body", "text"); ("rank", "integer")]).
  reflexivity.
Defined.

(** ** The cast of text *)

Lemma lstrip_unchanged (s : string) : first_is_space s = false -> Py.lstrip s = s.
Proof. destruct s as [|c s]; simpl; [reflexivity|]. now intros ->. Qed.

Lemma rstrip_unchanged (s : string) : last_is_space s = false -> Py.rstrip s = s.
Proof.
  induction s as [|c s IH]; [reflexivity|].
  destruct s as [|d s].
  - simpl. now intros ->.
  - intros Hlast. change (last_is_space (String c (String d s)))
      with (last_is_space (String d s)) in Hlast.
    change (Py.rstrip (String c (String d s)))
      with (match Py.rstrip (String d s) with
            | EmptyString => if Py.is_space c then EmptyString else String c EmptyString
            | r' => String c r'
            end).
    now rewrite (IH Hlast).
Qed.

Lemma strip_unchanged (s : string) :
  first_is_space s = false -> last_is_space s = false -> Py.strip s = s.
Proof.
  intros Hfirst Hlast. unfold Py.strip.
  rewrite (lstrip_unchanged s Hfirst). now apply rstrip_unchanged.
Qed.

Lemma cast_text (raw data_type : string) :
  cast_category data_type = CText ->
  _cast_value_from_input (Some raw) data_type
  = if String.eqb (Py.strip raw) EmptyString then Return VNone
    else Return (VStr (Py.strip raw)).
Proof.
  unfold cast_category, _cast_value_from_input.
  destruct (String.eqb (Py.strip raw) EmptyString); [reflexivity|].
  destruct (_ || _)%bool; [reflexivity|].
  repeat (match goal with |- context [if ?b then _ else _] => destruct b end;
          try discriminate).
Qed.

(** C6, as stated, fails: the cast of text strips the blanks around the
    input, so an input with a leading blank does not come back
    unchanged. And the bound of a filter is not cast at all: where the
    cast of ["abc"] for an integer column raises, the filter writes [0]. *)
Lemma cast_text_is_not_identity :
  cast_category "text" = CText
  /\ _cast_value_from_input (Some " a") "text" = Return (VStr "a")
  /\ _cast_value_from_input (Some " a") "text" <> Return (VStr " a")
  /\ _cast_value_from_input (Some "abc") "integer"
     = Raise (ValueError "invalid literal for int() with base 10")
  /\ outcome (build_filter_clause "notes" "rank" "integer"
                (fresh accepting ["abc"; EmptyString]))
     = Return (in_quotes "notes" ++ "." ++ in_quotes "rank" ++ " >= 0").
Proof. vm_compute. repeat split; try reflexivity. discriminate. Qed.

(** C6, amended: for a column of the text category and an input that is
    not blank, the cast returns the input without its leading and
    trailing whitespace, hence the input itself when it has none. This
    cast is what the insert and the update bind to their statement. *)
Theorem cast_text_returns_stripped (raw data_type : string) :
  cast_category data_type = CText ->
  Py.strip raw <> EmptyString ->
  _cast_value_from_input (Some raw) data_type = Return (VStr (Py.strip raw))
  /\ (first_is_space raw = false -> last_is_space raw = false ->
      _cast_value_from_input (Some raw) data_type = Return (VStr raw))
  /\ (forall w table col,
        exists closing,
          log_after (insert_entry_validated table {[ col := Some raw ]}
                       [(col, data_type)] w)
          = (log w ++ Executed (InsertValues table [col] ["%s"])
                        [VStr (Py.strip raw)] :: closing)%list)
  /\ (forall w table column row_id col_types id_col,
        dict_get column col_types = Some data_type ->
        head (q_primary_key (catalog w) table) = Some id_col ->
        exists closing,
          log_after (update_entry_validated table column row_id (Some raw) col_types w)
          = (log w ++ Executed (SelectPrimaryKey table) []
               :: Executed (UpdateById table column id_col)
                    [VStr (Py.strip raw); VStr row_id] :: closing)%list).
Proof.
  intros Hcat Hraw.
  assert (Hcast : _cast_value_from_input (Some raw) data_type
                  = Return (VStr (Py.strip raw))).
  { rewrite (cast_text raw data_type Hcat).
    apply String.eqb_neq in Hraw. now rewrite Hraw. }
  split; [exact Hcast|]. split; [|split].
  - intros Hfirst Hlast. rewrite Hcast. now rewrite strip_unchanged.
  - intros w table col.
    assert (Hne : String.eqb raw EmptyString = false).
    { apply String.eqb_neq. intros ->. now apply Hraw. }
    unfold insert_entry_validated, bind, lift. simpl insert_loop.
    rewrite lookup_singleton_eq, Hne, Hcast. simpl.
    unfold execute, commit, ret, log_after.
    destruct (engine w _ _) as [n rows|err]; simpl.
    + exists [Committed]. now rewrite <- app_assoc.
    + now exists [].
  - intros w table column row_id col_types id_col Hget Hpk.
    unfold update_entry_validated, bind, lift. rewrite Hget, Hcast, find_pk_run, Hpk.
    unfold execute, commit, ret, log_after.
    repeat change (engine (record ?e ?w0)) with (engine w0).
    destruct (engine w _ _) as [n rows|err]; simpl.
    + exists [Committed]. now rewrite <- !app_assoc.
    + exists []. now rewrite <- !app_assoc.
Qed.

Lemma cast_text_returns_stripped_witness :
  _cast_value_from_input (Some "  Ann Lee ") "character varying"
  = Return (VStr "Ann Lee").
Proof.
  assert (Hne : Py.strip "  Ann Lee " <> EmptyString) by discriminate.
  exact (proj1 (cast_text_returns_stripped "  Ann Lee " "character varying"
                  eq_refl Hne)).
Defined.

Example cast_examples :
  _cast_value_from_input (Some "Ann") "text" = Return (VStr "Ann")
  /\ _cast_value_from_input (Some "   ") "text" = Return VNone
  /\ _cast_value_from_input (Some " 42 ") "integer" = Return (VInt 42)
  /\ _cast_value_from_input (Some "Yes") "boolean" = Return (VBool true)
  /\ _cast_value_from_input (Some "maybe") "boolean"
     = Raise (ValueError "Invalid boolean value")
  /\ _cast_value_from_input (Some " 2024-01-01") "date" = Return (VStr "2024-01-01")
  /\ _cast_value_from_input None "integer" = Return VNone.
Proof. repeat split; reflexivity. Qed.

(** * Further properties of the code *)

(** ** The cast, beyond text *)

Lemma cast_of_blank_text (raw data_type : string) :
  Py.strip raw = EmptyString ->
  _cast_value_from_input (Some raw) data_type = Return VNone.
Proof. intros Hblank. unfold _cast_value_from_input. now rewrite Hblank. Qed.

(** X1: the cast of a blank input is the null value whatever the column
    type, and the cast raises only for an input that is not blank on a
    column of the integer, decimal or boolean category, and then a
    [ValueError]: text, temporal and unknown types take any input. *)
Theorem cast_raises_only_on_typed_input (raw data_type : string) :
  (Py.strip raw = EmptyString ->
   _cast_value_from_input (Some raw) data_type = Return VNone)
  /\ (forall e, _cast_value_from_input (Some raw) data_type = Raise e ->
        Py.strip raw <> EmptyString
        /\ (cast_category data_type = CInteger
            \/ cast_category data_type = CDecimal
            \/ cast_category data_type = CBoolean)
        /\ exists msg, e = ValueError msg).
Proof.
  split; [apply cast_of_blank_text|].
  intros e. unfold _cast_value_from_input, cast_category.
  destruct (String.eqb (Py.strip raw) EmptyString) eqn:Eblank; [discriminate|].
  apply String.eqb_neq in Eblank.
  destruct (_ || _)%bool; [discriminate|].
  destruct (_ || _)%bool.
  { destruct (Py.int _); [discriminate|]. intros [= <-]. eauto 6. }
  destruct (_ || _)%bool.
  { destruct (Py.float_ok _); [discriminate|]. intros [= <-]. eauto 6. }
  destruct (String.eqb _ "boolean").
  { destruct (Py.among _ _); [discriminate|].
    destruct (Py.among _ _); [discriminate|]. intros [= <-]. eauto 7. }
  destruct (_ || _)%bool; discriminate.
Qed.

Lemma cast_raises_only_on_typed_input_witness :
  Py.strip "x1" <> EmptyString
  /\ (cast_category "bigint" = CInteger
      \/ cast_category "bigint" = CDecimal
      \/ cast_category "bigint" = CBoolean)
  /\ exists msg, ValueError "invalid literal for int() with base 10" = ValueError msg.
Proof.
  apply (proj2 (cast_raises_only_on_typed_input "x1" "bigint")). reflexivity.
Defined.

(** ** Decimal notation read back *)

Lemma digit_char (x : N) :
  (x < 10)%N ->
  Py.is_digit (pretty_N_char x) = true
  /\ Py.digit_value (pretty_N_char x) = Z.of_N x.
Proof.
  intros Hx.
  assert (x = 0 \/ x = 1 \/ x = 2 \/ x = 3 \/ x = 4 \/ x = 5 \/ x = 6
          \/ x = 7 \/ x = 8 \/ x = 9)%N as Hcases by lia.
  repeat (destruct Hcases as [->|Hcases]; [now split|]). subst x. now split.
Qed.

(** Reading a printed number: the digits shift the accumulator. *)
Lemma digitpart_pretty_go (x : N) :
  (0 < x)%N ->
  exists p, forall s acc b,
    Py.digitpart (pretty_N_go x s) acc b
    = Py.digitpart s (acc * p + Z.of_N x) true.
Proof.
  induction (N.lt_wf_0 x) as [x _ IH]. intros Hpos.
  destruct (digit_char (x mod 10)) as [Hdig Hval]; [now apply N.mod_lt|].
  assert (Hdm : x = (10 * (x / 10) + x mod 10)%N) by (apply N.div_mod; lia).
  destruct (N.eq_dec (x / 10)%N 0%N) as [Hz|Hnz].
  - exists 10. intros s acc b.
    rewrite pretty_N_go_step by assumption. rewrite Hz, pretty_N_go_0.
    simpl Py.digitpart. rewrite Hdig, Hval. f_equal.
    rewrite Hz in Hdm. clear - Hdm. lia.
  - destruct (IH (x / 10)%N) as [p Hp];
      [apply N.div_lt; lia | now apply N.neq_0_lt_0 |].
    exists (10 * p). intros s acc b.
    rewrite pretty_N_go_step by assumption. rewrite Hp.
    simpl Py.digitpart. rewrite Hdig, Hval. f_equal.
    clear - Hdm. lia.
Qed.

Lemma all_digits_cons (c : ascii) (s : string) :
  Py.is_digit c = true -> s = EmptyString \/ all_digits s = true ->
  all_digits (String c s) = true.
Proof.
  intros Hc [->|Hs]; simpl; [assumption|].
  destruct s; [assumption|]. now rewrite Hc, Hs.
Qed.

Lemma all_digits_pretty_go (x : N) :
  (0 < x)%N ->
  forall s, s = EmptyString \/ all_digits s = true ->
    all_digits (pretty_N_go x s) = true.
Proof.
  induction (N.lt_wf_0 x) as [x _ IH]. intros Hpos s Hs.
  destruct (digit_char (x mod 10)) as [Hdig _]; [now apply N.mod_lt|].
  rewrite pretty_N_go_step by assumption.
  destruct (N.eq_dec (x / 10)%N 0%N) as [Hz|Hnz].
  - rewrite Hz, pretty_N_go_0. now apply all_digits_cons.
  - apply IH; [apply N.div_lt; lia | now apply N.neq_0_lt_0 |].
    right. now apply all_digits_cons.
Qed.

Lemma digit_not_space (c : ascii) : Py.is_digit c = true -> Py.is_space c = false.
Proof.
  unfold Py.is_digit, Py.is_space. generalize (nat_of_ascii c). intros n H.
  apply andb_prop in H as [H1 H2].
  apply Nat.leb_le in H1. apply Nat.leb_le in H2.
  apply orb_false_intro; apply andb_false_iff.
  - right. apply Nat.leb_gt. lia.
  - right. apply Nat.leb_gt. lia.
Qed.

Lemma digit_not_sign (c : ascii) (r : string) :
  Py.is_digit c = true ->
  Py.split_sign (String c r) = (false, String c r)
  /\ is_int_literal (String c r) = all_digits (String c r).
Proof.
  destruct c as [[] [] [] [] [] [] [] []]; intros H; try discriminate H;
    now split.
Qed.

Lemma all_digits_first (s : string) :
  all_digits s = true -> exists c r, s = String c r /\ Py.is_digit c = true.
Proof.
  destruct s as [|c r]; [discriminate|]. intros H. exists c, r. split; [reflexivity|].
  simpl in H. destruct r; [assumption|]. now apply andb_prop in H as [H _].
Qed.

Lemma all_digits_last (s : string) : all_digits s = true -> last_is_space s = false.
Proof.
  induction s as [|c s IH]; [discriminate|].
  destruct s as [|d s].
  - simpl. apply digit_not_space.
  - intros H. change (last_is_space (String c (String d s)))
      with (last_is_space (String d s)).
    apply IH. change (all_digits (String c (String d s)))
      with (Py.is_digit c && all_digits (String d s))%bool in H.
    now apply andb_prop in H as [_ H].
Qed.

Lemma strip_all_digits (s : string) : all_digits s = true -> Py.strip s = s.
Proof.
  intros H. apply strip_unchanged; [|now apply all_digits_last].
  destruct (all_digits_first s H) as (c & r & -> & Hc). simpl.
  now apply digit_not_space.
Qed.

Lemma strip_signed_digits (s : string) :
  all_digits s = true -> Py.strip (String "-" s) = String "-" s.
Proof.
  intros H. apply strip_unchanged; [reflexivity|].
  destruct (all_digits_first s H) as (c & r & Hs & _).
  rewrite Hs. change (last_is_space (String "-" (String c r)))
    with (last_is_space (String c r)).
  rewrite <- Hs. now apply all_digits_last.
Qed.

Lemma digitpart_all_digits (x : N) :
  (0 < x)%N -> Py.digitpart (pretty_N_go x EmptyString) 0 false = Some (Z.of_N x).
Proof.
  intros Hpos. destruct (digitpart_pretty_go x Hpos) as [p Hp].
  rewrite Hp. reflexivity.
Qed.

Lemma pretty_pos (p : positive) :
  pretty (Z.pos p) = pretty_N_go (N.pos p) EmptyString.
Proof. reflexivity. Qed.

Lemma pretty_neg (p : positive) :
  pretty (Z.neg p) = String "-" (pretty_N_go (N.pos p) EmptyString).
Proof. reflexivity. Qed.

(** ** What [int] skips, and the digits it counts *)

Lemma c_space_is_space (c : ascii) : Py.is_c_space c = true -> Py.is_space c = true.
Proof.
  unfold Py.is_c_space, Py.is_space. generalize (nat_of_ascii c). intros n H.
  apply orb_true_iff in H as [H|H].
  - now rewrite H.
  - apply Nat.eqb_eq in H. now subst n.
Qed.

Lemma not_space_not_c_space (c : ascii) :
  Py.is_space c = false -> Py.is_c_space c = false.
Proof.
  intros H. destruct (Py.is_c_space c) eqn:E; [|reflexivity].
  apply c_space_is_space in E. congruence.
Qed.

Lemma lskip_unchanged (s : string) : first_is_space s = false -> Py.lskip s = s.
Proof.
  destruct s as [|c s]; simpl; [reflexivity|].
  intros H. now rewrite (not_space_not_c_space c H).
Qed.

Lemma rskip_unchanged (s : string) : last_is_space s = false -> Py.rskip s = s.
Proof.
  induction s as [|c s IH]; [reflexivity|].
  destruct s as [|d s].
  - simpl. intros H. now rewrite (not_space_not_c_space c H).
  - intros Hlast. change (last_is_space (String c (String d s)))
      with (last_is_space (String d s)) in Hlast.
    change (Py.rskip (String c (String d s)))
      with (match Py.rskip (String d s) with
            | EmptyString => if Py.is_c_space c then EmptyString else String c EmptyString
            | r' => String c r'
            end).
    now rewrite (IH Hlast).
Qed.

(** A text that [strip] leaves alone is left alone by [int] too. *)
Lemma skip_unchanged (s : string) :
  first_is_space s = false -> last_is_space s = false -> Py.skip_blanks s = s.
Proof.
  intros Hfirst Hlast. unfold Py.skip_blanks.
  rewrite (lskip_unchanged s Hfirst). now apply rskip_unchanged.
Qed.

Lemma skip_all_digits (s : string) : all_digits s = true -> Py.skip_blanks s = s.
Proof.
  intros H. apply skip_unchanged; [|now apply all_digits_last].
  destruct (all_digits_first s H) as (c & r & -> & Hc). simpl.
  now apply digit_not_space.
Qed.

Lemma skip_signed_digits (s : string) :
  all_digits s = true -> Py.skip_blanks (String "-" s) = String "-" s.
Proof.
  intros H. apply skip_unchanged; [reflexivity|].
  destruct (all_digits_first s H) as (c & r & Hs & _).
  rewrite Hs. change (last_is_space (String "-" (String c r)))
    with (last_is_space (String c r)).
  rewrite <- Hs. now apply all_digits_last.
Qed.

Lemma count_digits_le (s : string) : (Py.count_digits s <= String.length s)%nat.
Proof.
  induction s as [|c s IH]; simpl; [lia|]. destruct (Py.is_digit c); lia.
Qed.

Lemma count_all_digits (s : string) :
  all_digits s = true -> Py.count_digits s = String.length s.
Proof.
  induction s as [|c s IH]; [discriminate|].
  destruct s as [|d s]; intros H.
  - simpl in H. simpl. now rewrite H.
  - change (Py.is_digit c && all_digits (String d s) = true)%bool in H.
    apply andb_prop in H as [Hc Hs].
    change (Py.count_digits (String c (String d s)))
      with (if Py.is_digit c then S (Py.count_digits (String d s))
            else Py.count_digits (String d s)).
    rewrite Hc, (IH Hs). reflexivity.
Qed.

(** A number below [10 ^ n] is printed with at most [n] digits. *)
Lemma length_pretty_go (n : nat) :
  forall (x : N) (s : string),
    (x < 10 ^ N.of_nat n)%N ->
    (String.length (pretty_N_go x s) <= n + String.length s)%nat.
Proof.
  induction n as [|n IH]; intros x s Hx.
  - assert (x = 0%N) as -> by (change (10 ^ N.of_nat 0)%N with 1%N in Hx; lia).
    rewrite pretty_N_go_0. simpl. lia.
  - destruct (N.eq_dec x 0%N) as [->|Hnz].
    + rewrite pretty_N_go_0. lia.
    + rewrite pretty_N_go_step by now apply N.neq_0_lt_0.
      rewrite Nat2N.inj_succ, N.pow_succ_r' in Hx.
      assert (Hq : (x / 10 < 10 ^ N.of_nat n)%N)
        by (apply N.Div0.div_lt_upper_bound; exact Hx).
      specialize (IH (x / 10)%N (String (pretty_N_char (x mod 10)) s) Hq).
      simpl in IH. lia.
Qed.

Lemma digits_within (m : nat) (p : positive) :
  Z.pos p < 10 ^ Z.of_nat m ->
  (Py.count_digits (pretty_N_go (N.pos p) EmptyString) <= m)%nat.
Proof.
  intros H.
  assert (Hn : (N.pos p < 10 ^ N.of_nat m)%N).
  { apply N2Z.inj_lt. rewrite N2Z.inj_pow, nat_N_Z. exact H. }
  pose proof (length_pretty_go m (N.pos p) EmptyString Hn) as Hlen.
  pose proof (count_digits_le (pretty_N_go (N.pos p) EmptyString)) as Hle.
  simpl in Hlen. lia.
Qed.

(** What the decimal notation of an integer looks like, and that [int]
    reads it back when it is not too long. *)
Lemma int_of_pretty (z : Z) :
  Py.strip (pretty z) = pretty z
  /\ pretty z <> EmptyString
  /\ is_int_literal (pretty z) = true
  /\ (Z.abs z < 10 ^ Z.of_nat Py.max_str_digits -> Py.int (pretty z) = Some z).
Proof.
  destruct z as [|p|p].
  - now repeat split.
  - rewrite pretty_pos.
    assert (Hd : all_digits (pretty_N_go (N.pos p) EmptyString) = true)
      by (apply all_digits_pretty_go; [lia | now left]).
    pose proof (strip_all_digits _ Hd) as Hstrip.
    pose proof (skip_all_digits _ Hd) as Hskip.
    destruct (all_digits_first _ Hd) as (c & r & Hs & Hc).
    destruct (digit_not_sign c r Hc) as [Hsign Hlit].
    repeat split; try assumption.
    + rewrite Hs. discriminate.
    + rewrite Hs, Hlit, <- Hs. exact Hd.
    + intros Hbound. apply digits_within in Hbound. apply Nat.ltb_ge in Hbound.
      pose proof (digitpart_all_digits (N.pos p) ltac:(lia)) as Hparse.
      unfold Py.int. rewrite Hskip. rewrite Hs in *.
      now rewrite Hsign, Hparse, Hbound.
  - rewrite pretty_neg.
    assert (Hd : all_digits (pretty_N_go (N.pos p) EmptyString) = true)
      by (apply all_digits_pretty_go; [lia | now left]).
    repeat split; try (now apply strip_signed_digits); try discriminate;
      try exact Hd.
    intros Hbound. change (Z.abs (Z.neg p)) with (Z.pos p) in Hbound.
    apply digits_within in Hbound. apply Nat.ltb_ge in Hbound.
    unfold Py.int. rewrite (skip_signed_digits _ Hd).
    change (Py.split_sign (String "-" (pretty_N_go (N.pos p) EmptyString)))
      with (true, pretty_N_go (N.pos p) EmptyString).
    cbv beta iota.
    now rewrite (digitpart_all_digits (N.pos p) ltac:(lia)), Hbound.
Qed.

(** X2: on a column of the integer category, the cast of the decimal
    notation of an integer is that integer, provided the integer has no
    more than the 4300 digits that [int] accepts, that is, lies strictly
    between [-10^4300] and [10^4300]. *)
Theorem cast_integer_round_trip (z : Z) (data_type : string) :
  cast_category data_type = CInteger ->
  Z.abs z < 10 ^ Z.of_nat Py.max_str_digits ->
  _cast_value_from_input (Some (pretty z)) data_type = Return (VInt z).
Proof.
  intros Hcat Hbound. destruct (int_of_pretty z) as (Hstrip & Hne & _ & Hint).
  specialize (Hint Hbound).
  unfold cast_category in Hcat. unfold _cast_value_from_input.
  rewrite Hstrip. apply String.eqb_neq in Hne. rewrite Hne.
  destruct (_ || _)%bool; [discriminate|].
  destruct (_ || _)%bool; [now rewrite Hint|].
  repeat (match type of Hcat with
          | context [if ?b then _ else _] => destruct b
          end; try discriminate).
Qed.

Lemma cast_integer_round_trip_witness :
  _cast_value_from_input (Some (pretty (-2048))) "integer" = Return (VInt (-2048)).
Proof.
  apply (cast_integer_round_trip (-2048) "integer"); [reflexivity|].
  vm_compute. reflexivity.
Defined.

(** ** The single-row writes, beyond the column list *)

Lemma map_const_repeat {A} (x : string) (l : list A) :
  map (fun _ => x) l = repeat x (length l).
Proof. induction l as [|a l IH]; simpl; [reflexivity | now rewrite IH]. Qed.

Lemma Forall2_same_length {A B} (R : A -> B -> Prop) (l : list A) (k : list B) :
  Forall2 R l k -> length l = length k.
Proof. induction 1; simpl; [reflexivity | now f_equal]. Qed.

(** X3: an insert that returns has sent exactly one INSERT, with at
    least one column, as many [%s] placeholders and as many bound values
    as columns, and has committed right after it. *)
Theorem insert_success_shape (w : World) (table : string)
    (values_dict : gmap string (option string)) (col_types : list (string * string))
    (done : bool) :
  outcome (insert_entry_validated table values_dict col_types w) = Return done ->
  done = true
  /\ exists cols vals,
       cols <> [] /\ length vals = length cols
       /\ log_after (insert_entry_validated table values_dict col_types w)
          = (log w ++ [Executed (InsertValues table cols (repeat "%s" (length cols))) vals;
                       Committed])%list.
Proof.
  unfold insert_entry_validated, bind, lift, outcome, log_after.
  destruct (insert_loop values_dict col_types [] [] [])
    as [[[cols vals] ph]|e] eqn:Eloop; [|discriminate].
  apply insert_loop_spec in Eloop as (vs & Hc & Hv & Hp & Hall).
  simpl in Hc, Hv, Hp. subst cols vals ph.
  apply Forall2_same_length in Hall.
  destruct (map fst (present_items values_dict col_types)) as [|c cols] eqn:Ecols;
    [discriminate|].
  unfold execute, commit, ret.
  destruct (engine w _ _) as [n rows|err] eqn:Eng; [|discriminate].
  simpl. intros [= <-]. split; [reflexivity|].
  exists (c :: cols), vs. split; [discriminate|]. split.
  - rewrite <- Ecols, length_map. now symmetry.
  - rewrite map_const_repeat, <- Ecols, length_map. now rewrite <- app_assoc.
Qed.

Lemma insert_success_shape_witness :
  exists cols vals,
    cols <> [] /\ length vals = length cols
    /\ log_after (insert_entry_validated "notes" {[ "rank" := Some "3" ]}
                    [("body", "text"); ("rank", "integer")] (fresh accepting []))
       = (log (fresh accepting [])
            ++ [Executed (InsertValues "notes" cols (repeat "%s" (length cols))) vals;
                Committed])%list.
Proof.
  exact (proj2 (insert_success_shape (fresh accepting []) "notes"
                  {[ "rank" := Some "3" ]}
                  [("body", "text"); ("rank", "integer")] true eq_refl)).
Defined.

Lemma insert_loop_raises (values_dict : gmap string (option string))
    (col dtype raw : string) (e : Exn) (items : list (string * string)) :
  In (col, dtype) items ->
  values_dict !! col = Some (Some raw) ->
  _cast_value_from_input (Some raw) dtype = Raise e ->
  forall cols vals placeholders,
    exists e', insert_loop values_dict items cols vals placeholders = Raise e'.
Proof.
  intros Hin Hlookup Hcast.
  assert (Hraw : String.eqb raw EmptyString = false).
  { destruct (String.eqb raw EmptyString) eqn:E; [|reflexivity].
    apply String.eqb_eq in E. subst raw. now rewrite cast_of_blank in Hcast. }
  induction items as [|[c d] items IH]; [contradiction|].
  intros cols vals placeholders. simpl.
  destruct Hin as [[= -> ->]|Hin].
  - rewrite Hlookup, Hraw, Hcast. eauto.
  - destruct (values_dict !! c) as [val|]; [|now apply IH].
    destruct (match val with Some _ => _ | None => _ end) as [v|e'];
      [now apply IH | eauto].
Qed.

(** X4: if the value supplied for one column of the type map does not
    cast, the insert raises and the session is left exactly as it was:
    nothing is sent, whatever the other columns hold. *)
Theorem insert_cast_failure_sends_nothing (w : World) (table : string)
    (values_dict : gmap string (option string)) (col_types : list (string * string))
    (col dtype raw : string) (e : Exn) :
  In (col, dtype) col_types ->
  values_dict !! col = Some (Some raw) ->
  _cast_value_from_input (Some raw) dtype = Raise e ->
  exists e', insert_entry_validated table values_dict col_types w = (Raise e', w).
Proof.
  intros Hin Hlookup Hcast.
  destruct (insert_loop_raises values_dict col dtype raw e col_types
              Hin Hlookup Hcast [] [] []) as [e' He'].
  exists e'. unfold insert_entry_validated, bind, lift. now rewrite He'.
Qed.

Lemma insert_cast_failure_sends_nothing_witness :
  exists e',
    insert_entry_validated "notes" {[ "rank" := Some "high" ]}
      [("body", "text"); ("rank", "integer")] (fresh accepting [])
    = (Raise e', fresh accepting []).
Proof.
  apply (insert_cast_failure_sends_nothing (fresh accepting []) "notes"
           {[ "rank" := Some "high" ]} [("body", "text"); ("rank", "integer")]
           "rank" "integer" "high"
           (ValueError "invalid literal for int() with base 10")).
  - right. now left.
  - reflexivity.
  - reflexivity.
Defined.



(** ** Bulk generation, beyond the column list *)

(** X6: on a table that the catalog does not know, or that has no
    column, the generator fails with "Table not found or has no
    columns" after the existence query (and the column query, if the
    table exists); the statement is never built. *)
Theorem generate_without_columns (w : World) (table : string) (count : Z) :
  q_table_exists (catalog w) table = false
  \/ q_columns (catalog w) table = [] ->
  outcome (generate_rows_sql table count w)
  = Raise (ValueError "Table not found or has no columns")
  /\ log_after (generate_rows_sql table count w)
     = (log w ++ Executed (SelectTableExists table) []
          :: (if q_table_exists (catalog w) table
              then [Executed (SelectColumns table) []] else []))%list.
Proof.
  intros Hcase. unfold generate_rows_sql, bind, outcome, log_after.
  rewrite get_columns_run.
  destruct (q_table_exists (catalog w) table) eqn:Eex.
  - destruct Hcase as [Hcase|Hcase]; [discriminate|]. rewrite Hcase.
    unfold raise. simpl. split; [reflexivity | now rewrite <- app_assoc].
  - now split.
Qed.

Lemma generate_without_columns_witness :
  outcome (generate_rows_sql "invoices" 5 (fresh accepting []))
  = Raise (ValueError "Table not found or has no columns")
  /\ log_after (generate_rows_sql "invoices" 5 (fresh accepting []))
     = [Executed (SelectTableExists "invoices") []].
Proof.
  apply (generate_without_columns (fresh accepting []) "invoices" 5).
  left. reflexivity.
Defined.



Lemma filter_keeps_order {A} (f : A -> bool) (l : list A) :
  sublist (List.filter f l) l.
Proof.
  induction l as [|a l IH]; simpl; [constructor|].
  destruct (f a); now constructor.
Qed.

(** X8: the statement of a bulk generation is aligned: it has one
    expression per column, the columns come in the order the table
    declares them, and the expression at each position is the one
    chosen for the column at that position and its declared type. *)
Theorem generated_statement_is_aligned (c : Catalog) (table : string) :
  length (generated_exprs c table) = length (insertable_columns c table)
  /\ sublist (insertable_columns c table) (map fst (q_columns c table))
  /\ forall (i : nat) (name : string),
       insertable_columns c table !! i = Some name ->
       exists dt, In (name, dt) (q_columns c table)
                  /\ generated_exprs c table !! i
                     = Some (select_expr (build_fk_map (q_foreign_keys c table))
                                         name dt).
Proof.
  unfold insertable_columns, generated_exprs. rewrite generate_loop_spec. simpl.
  split; [now rewrite !length_map|]. split.
  - apply (fmap_sublist fst), filter_keeps_order.
  - intros i name. rewrite !list_lookup_fmap.
    destruct (List.filter _ _ !! i) as [[n dt]|] eqn:Ei; [|discriminate].
    simpl. intros [= <-]. exists dt. split; [|reflexivity].
    apply list_elem_of_lookup_2 in Ei. apply list_elem_of_In in Ei.
    now apply filter_In in Ei as [Ei _].
Qed.

Section ForeignKeyMap.

Local Abbreviation step :=
  (fun (m : gmap string (string * string)) (r : string * string * string) =>
     let '(col, ftable, fcol) := r in <[col := (ftable, fcol)]> m).

Lemma fk_fold_sound (rows : list (string * string * string)) :
  forall (m : gmap string (string * string)) col ft fc,
    fold_left step rows m !! col = Some (ft, fc) ->
    In (col, ft, fc) rows \/ m !! col = Some (ft, fc).
Proof.
  induction rows as [|[[c t] f] rows IH]; intros m col ft fc; simpl; [now right|].
  intros H. apply IH in H as [H|H]; [left; now right|].
  destruct (decide (c = col)) as [->|Hne].
  - rewrite lookup_insert_eq in H. injection H as -> ->. left. now left.
  - rewrite lookup_insert_ne in H by assumption. now right.
Qed.

Lemma fk_fold_complete (rows : list (string * string * string)) :
  forall (m : gmap string (string * string)) col,
    (exists ft fc, In (col, ft, fc) rows) \/ is_Some (m !! col) ->
    is_Some (fold_left step rows m !! col).
Proof.
  induction rows as [|[[c t] f] rows IH]; intros m col; simpl.
  - intros [(ft & fc & [])|H]; exact H.
  - intros [(ft & fc & [[= -> -> ->]|Hin])|H]; apply IH.
    + right. rewrite lookup_insert_eq. eauto.
    + left. eauto.
    + right. destruct (decide (c = col)) as [->|Hne].
      * rewrite lookup_insert_eq. eauto.
      * now rewrite lookup_insert_ne.
Qed.

End ForeignKeyMap.

Lemma build_fk_map_sound (rows : list (string * string * string)) col ft fc :
  build_fk_map rows !! col = Some (ft, fc) -> In (col, ft, fc) rows.
Proof.
  intros H. apply fk_fold_sound in H as [H|H]; [assumption|].
  now rewrite lookup_empty in H.
Qed.

Lemma build_fk_map_complete (rows : list (string * string * string)) col ft fc :
  In (col, ft, fc) rows -> is_Some (build_fk_map rows !! col).
Proof. intros H. apply fk_fold_complete. left. eauto. Qed.

(** X9: a column that generation selects and that is the child column of
    a foreign key of the table is filled by a lookup into a parent: the
    expression paired with it draws a random row of the parent table and
    column of one of its foreign-key rows in the catalog, whatever the
    column's name or type. *)
Theorem foreign_key_column_draws_from_parent (c : Catalog)
    (table name data_type : string) (fk : ForeignKeyRow) :
  In (name, data_type) (q_columns c table) ->
  In name (q_not_null_no_default c table) ->
  In fk (cat_foreign_keys c) -> child_table fk = table -> child_column fk = name ->
  exists r,
    In r (cat_foreign_keys c) /\ child_table r = table /\ child_column r = name
    /\ In (name,
           "(SELECT " ++ Identifier (parent_column r) ++ " FROM "
             ++ Identifier (parent_table r) ++ " ORDER BY random() LIMIT 1)")
          (combine (insertable_columns c table) (generated_exprs c table)).
Proof.
  intros Hcol Hnn Hfk Htab Hchild.
  assert (Hrow : In (name, parent_table fk, parent_column fk) (q_foreign_keys c table)).
  { unfold q_foreign_keys. apply in_map_iff. exists fk. split; [now rewrite Hchild|].
    apply filter_In. split; [assumption | now apply String.eqb_eq]. }
  destruct (build_fk_map_complete _ _ _ _ Hrow) as [[ft fc] Hmap].
  pose proof (build_fk_map_sound _ _ _ _ Hmap) as Hsrc.
  unfold q_foreign_keys in Hsrc. apply in_map_iff in Hsrc as (r & Heq & Hr).
  apply filter_In in Hr as [Hr Hrt]. apply String.eqb_eq in Hrt.
  injection Heq as Hc Hft Hfc.
  exists r. repeat split; try assumption.
  rewrite generated_pairs. apply in_map_iff. exists (name, data_type). split.
  - unfold expr_for, select_expr. simpl. rewrite Hmap. now rewrite Hft, Hfc.
  - apply filter_In. split; [assumption | now apply among_In].
Qed.

Lemma foreign_key_column_draws_from_parent_witness :
  exists r,
    In r (cat_foreign_keys shop) /\ child_table r = "orders"
    /\ child_column r = "customer_id"
    /\ In ("customer_id",
           "(SELECT " ++ Identifier (parent_column r) ++ " FROM "
             ++ Identifier (parent_table r) ++ " ORDER BY random() LIMIT 1)")
          (combine (insertable_columns shop "orders") (generated_exprs shop "orders")).
Proof.
  apply (foreign_key_column_draws_from_parent shop "orders" "customer_id" "integer"
           {| child_table := "orders"; child_column := "customer_id";
              parent_table := "customers"; parent_column := "id" |}).
  - right. now left.
  - now left.
  - now left.
  - reflexivity.
  - reflexivity.
Defined.

(** ** Catalog readers *)

(** X10: the join resolver is direction-blind: naming the two tables in
    the other order finds the same foreign-key row and returns the same
    condition (or the same absence of one). *)
Theorem join_is_direction_blind (w : World) (t1 t2 : string) :
  outcome (find_join_expression t1 t2 w) = outcome (find_join_expression t2 t1 w).
Proof.
  rewrite !find_join_expression_run. unfold outcome. simpl. do 3 f_equal.
  unfold q_join_edge. apply filter_ext. intros r. apply orb_comm.
Qed.

Section Dict.

Local Abbreviation put :=
  (fun (d : list (string * string)) (kv : string * string) =>
     dict_set (fst kv) (snd kv) d).

Lemma dict_set_fresh (k v : string) (d : list (string * string)) :
  ~ In k (map fst d) -> dict_set k v d = (d ++ [(k, v)])%list.
Proof.
  induction d as [|[k' v'] d IH]; simpl; [reflexivity|]. intros Hnot.
  destruct (String.eqb k' k) eqn:E.
  - apply String.eqb_eq in E. exfalso. apply Hnot. now left.
  - rewrite IH; [reflexivity|]. intros H. apply Hnot. now right.
Qed.

Lemma dict_set_keys (k v : string) (d : list (string * string)) :
  map fst (dict_set k v d)
  = if Py.among k (map fst d) then map fst d else (map fst d ++ [k])%list.
Proof.
  induction d as [|[k' v'] d IH]; [reflexivity|].
  change (Py.among k (map fst ((k', v') :: d)))
    with (String.eqb k k' || Py.among k (map fst d))%bool.
  assert (Hs : String.eqb k k' = String.eqb k' k) by apply String.eqb_sym.
  rewrite Hs. simpl dict_set.
  destruct (String.eqb k' k) eqn:E; simpl.
  - reflexivity.
  - rewrite IH. now destruct (Py.among k (map fst d)).
Qed.

Lemma dict_set_get (k v k0 : string) (d : list (string * string)) :
  dict_get k0 (dict_set k v d)
  = if String.eqb k k0 then Some v else dict_get k0 d.
Proof.
  induction d as [|[k' v'] d IH]; simpl.
  - reflexivity.
  - destruct (String.eqb k' k) eqn:E; simpl.
    + apply String.eqb_eq in E. subst k'. now destruct (String.eqb k k0).
    + rewrite IH. destruct (String.eqb k' k0) eqn:E0; [|reflexivity].
      apply String.eqb_eq in E0. subst k'. apply String.eqb_neq in E.
      destruct (String.eqb k k0) eqn:E1; [|reflexivity].
      apply String.eqb_eq in E1. congruence.
Qed.

Lemma dict_fold_keys (cols d : list (string * string)) :
  List.NoDup (map fst d) ->
  List.NoDup (map fst (fold_left put cols d))
  /\ forall k, In k (map fst (fold_left put cols d))
               <-> In k (map fst d) \/ In k (map fst cols).
Proof.
  revert d. induction cols as [|[k v] cols IH]; intros d Hnd; simpl.
  - split; [assumption | tauto].
  - assert (Hnd' : List.NoDup (map fst (dict_set k v d))).
    { rewrite dict_set_keys.
      destruct (Py.among k (map fst d)) eqn:E; [assumption|].
      apply List.NoDup_app; try assumption.
      - constructor; [intros [] | constructor].
      - intros x Hx [<-|[]]. apply among_In in Hx. congruence. }
    destruct (IH _ Hnd') as [H1 H2]. split; [assumption|].
    intros k0. rewrite H2. rewrite dict_set_keys.
    destruct (Py.among k (map fst d)) eqn:E.
    + apply among_In in E. split; [tauto|].
      intros [H|[<-|H]]; tauto.
    + rewrite in_app_iff. simpl. tauto.
Qed.

Lemma dict_fold_get (cols d : list (string * string)) (k v : string) :
  dict_get k (fold_left put cols d) = Some v ->
  In (k, v) cols \/ dict_get k d = Some v.
Proof.
  revert d. induction cols as [|[k' v'] cols IH]; intros d; simpl; [now right|].
  intros H. apply IH in H as [H|H]; [left; now right|].
  simpl in H. rewrite dict_set_get in H.
  destruct (String.eqb k' k) eqn:E; [|now right].
  apply String.eqb_eq in E. injection H as <-. subst. left. now left.
Qed.

Lemma dict_fold_distinct (cols d : list (string * string)) :
  List.NoDup (map fst d ++ map fst cols) ->
  fold_left put cols d = (d ++ cols)%list.
Proof.
  revert d. induction cols as [|[k v] cols IH]; intros d Hnd; simpl.
  - now rewrite app_nil_r.
  - simpl in Hnd.
    rewrite dict_set_fresh.
    + rewrite IH; [now rewrite <- app_assoc|].
      rewrite map_app. simpl. rewrite <- app_assoc. exact Hnd.
    + apply NoDup_remove_2 in Hnd. intros H. apply Hnd. apply in_or_app. now left.
Qed.

End Dict.

(** X11: for a table the catalog does not know, [get_column_types]
    returns [None] after the existence query alone. For a table it
    knows, it returns a map whose keys are distinct and are exactly the
    column names of the table, each mapped to a type the table declares
    for that name; when the column names are distinct, as they are in a
    table, the map is the column list itself, in declaration order. *)
Theorem column_types_of_table (w : World) (table : string) :
  (q_table_exists (catalog w) table = false ->
   get_column_types table w
   = (Return None, record (Executed (SelectTableExists table) []) w))
  /\ (q_table_exists (catalog w) table = true ->
      exists d,
        outcome (get_column_types table w) = Return (Some d)
        /\ List.NoDup (map fst d)
        /\ (forall name, In name (map fst d)
                         <-> In name (map fst (q_columns (catalog w) table)))
        /\ (forall name dt, dict_get name d = Some dt ->
                            In (name, dt) (q_columns (catalog w) table))
        /\ (List.NoDup (map fst (q_columns (catalog w) table)) ->
            d = q_columns (catalog w) table)).
Proof.
  unfold get_column_types, bind, outcome. rewrite get_columns_run. split.
  - now intros ->.
  - intros ->. exists (dict_of (q_columns (catalog w) table)).
    split; [reflexivity|]. unfold dict_of.
    destruct (dict_fold_keys (q_columns (catalog w) table) [] (List.NoDup_nil _))
      as [Hnd Hkeys].
    split; [exact Hnd|]. split; [|split].
    + intros name. rewrite Hkeys. simpl. tauto.
    + intros name dt H. apply dict_fold_get in H as [H|H]; [assumption | discriminate].
    + intros Hdistinct. now apply (dict_fold_distinct _ []).
Qed.

Lemma column_types_of_table_witness :
  get_column_types "invoices" (fresh accepting [])
  = (Return None, record (Executed (SelectTableExists "invoices") []) (fresh accepting [])).
Proof.
  apply (column_types_of_table (fresh accepting []) "invoices"). reflexivity.
Defined.

(** ** Frame rules *)

Lemma same_session_refl (w : World) : same_session w w.
Proof. now repeat split. Qed.

Lemma sends_only_weaken (P Q : Event -> Prop) {A} (m : M A) :
  (forall e, P e -> Q e) -> sends_only P m -> sends_only Q m.
Proof.
  intros HPQ Hm w. destruct (Hm w) as (Hc & He & new & Hl & Hall).
  repeat split; try assumption. exists new. split; [assumption|].
  eapply Forall_impl; eassumption.
Qed.

Lemma sends_only_ret (P : Event -> Prop) {A} (a : A) : sends_only P (ret a).
Proof.
  intros w. repeat split. exists []. split; [now rewrite app_nil_r | constructor].
Qed.

Lemma sends_only_raise (P : Event -> Prop) {A} (e : Exn) :
  sends_only P (@raise A e).
Proof.
  intros w. repeat split. exists []. split; [now rewrite app_nil_r | constructor].
Qed.

Lemma sends_only_lift (P : Event -> Prop) {A} (r : Result A) : sends_only P (lift r).
Proof.
  intros w. repeat split. exists []. split; [now rewrite app_nil_r | constructor].
Qed.

Lemma sends_only_input (P : Event -> Prop) (prompt : string) :
  sends_only P (input prompt).
Proof.
  intros w. unfold input. destruct (stdin w); simpl; repeat split;
    exists []; (split; [now rewrite app_nil_r | constructor]).
Qed.

Lemma sends_only_print (P : Event -> Prop) (message : string) :
  sends_only P (print message).
Proof.
  intros w. repeat split. exists []. split; [now rewrite app_nil_r | constructor].
Qed.

Lemma sends_only_query (P : Event -> Prop) {A} (q : Statement) (f : Catalog -> A) :
  P (Executed q []) -> sends_only P (query q f).
Proof.
  intros HP w. repeat split. exists [Executed q []]. split; [reflexivity|].
  now repeat constructor.
Qed.

Lemma sends_only_query_with (P : Event -> Prop) {A} (q : Statement)
    (params : list Value) (f : Catalog -> A) :
  P (Executed q params) -> sends_only P (query_with q params f).
Proof.
  intros HP w. repeat split. exists [Executed q params]. split; [reflexivity|].
  now repeat constructor.
Qed.

Lemma sends_only_execute (P : Event -> Prop) (q : Statement) (params : list Value) :
  P (Executed q params) -> sends_only P (execute q params).
Proof.
  intros HP w. unfold execute. destruct (engine w q params); simpl; repeat split;
    exists [Executed q params]; (split; [reflexivity | now repeat constructor]).
Qed.

Lemma sends_only_commit (P : Event -> Prop) : P Committed -> sends_only P commit.
Proof.
  intros HP w. repeat split. exists [Committed]. split; [reflexivity|].
  now repeat constructor.
Qed.

Lemma sends_only_rollback (P : Event -> Prop) : P RolledBack -> sends_only P rollback.
Proof.
  intros HP w. repeat split. exists [RolledBack]. split; [reflexivity|].
  now repeat constructor.
Qed.

(** The continuation needs the rule only for results that the first
    computation can return. *)
Lemma sends_only_bind_from (P : Event -> Prop) {A B} (m : M A) (k : A -> M B) :
  sends_only P m ->
  (forall w a, fst (m w) = Return a -> sends_only P (k a)) ->
  sends_only P (bind m k).
Proof.
  intros Hm Hk w. unfold bind.
  destruct (Hm w) as (Hc & He & new & Hl & Hall).
  destruct (m w) as [[a|e] w1] eqn:Em; simpl in *.
  - assert (Hka : sends_only P (k a)) by (apply (Hk w); now rewrite Em).
    destruct (Hka w1) as (Hc' & He' & new' & Hl' & Hall').
    split; [congruence|]. split; [congruence|].
    exists (new ++ new')%list. split.
    + rewrite Hl', Hl. now rewrite <- app_assoc.
    + now apply Forall_app.
  - repeat split; try assumption. now exists new.
Qed.

Lemma sends_only_bind (P : Event -> Prop) {A B} (m : M A) (k : A -> M B) :
  sends_only P m -> (forall a, sends_only P (k a)) -> sends_only P (bind m k).
Proof.
  intros Hm Hk. apply sends_only_bind_from; [assumption|].
  intros w a _. apply Hk.
Qed.

Lemma sends_only_try (P : Event -> Prop) {A} (body : M A) (handler : Exn -> M A) :
  sends_only P body -> (forall e, sends_only P (handler e)) ->
  sends_only P (try_except body handler).
Proof.
  intros Hb Hh w. unfold try_except.
  destruct (Hb w) as (Hc & He & new & Hl & Hall).
  destruct (body w) as [[a|e] w1] eqn:Em; simpl in *.
  - repeat split; try assumption. now exists new.
  - destruct (Hh e w1) as (Hc' & He' & new' & Hl' & Hall').
    split; [congruence|]. split; [congruence|].
    exists (new ++ new')%list. split.
    + rewrite Hl', Hl. now rewrite <- app_assoc.
    + now apply Forall_app.
Qed.

Lemma rounds_unfold {A} (body : M (option A)) (lines : list string) (w : World) :
  rounds body lines w
  = match body w with
    | (Return (Some a), w') => (Return a, w')
    | (Return None, w') =>
        match lines with
        | [] => (Raise EOFError, w')
        | _ :: rest => rounds body rest w'
        end
    | (Raise e, w') => (Raise e, w')
    end.
Proof.
  destruct lines; simpl; unfold bind; now destruct (body w) as [[[a|]|e] w'].
Qed.

Lemma sends_only_rounds (P : Event -> Prop) {A} (body : M (option A))
    (lines : list string) :
  sends_only P body -> sends_only P (rounds body lines).
Proof.
  intros Hb. induction lines as [|l lines IH]; simpl.
  - apply sends_only_bind; [assumption|]. intros [a|];
      [apply sends_only_ret | apply sends_only_raise].
  - apply sends_only_bind; [assumption|]. intros [a|];
      [apply sends_only_ret | assumption].
Qed.

Lemma sends_only_while (P : Event -> Prop) {A} (body : M (option A)) :
  sends_only P body -> sends_only P (while_true body).
Proof. intros Hb w. unfold while_true. now apply sends_only_rounds. Qed.

(** A loop that returns [a] has run a round that returned it. *)
Lemma rounds_return {A} (body : M (option A)) (lines : list string) :
  forall w a w', rounds body lines w = (Return a, w') ->
    exists w0, body w0 = (Return (Some a), w').
Proof.
  induction lines as [|l lines IH]; intros w a w'; rewrite rounds_unfold;
    destruct (body w) as [[[b|]|e] w1] eqn:Eb; intros H;
    try discriminate; try (injection H as <- <-; eauto).
  now apply IH in H.
Qed.

(** Nothing is sent by a computation that sends only impossible events. *)
Lemma sends_nothing {A} (m : M A) :
  sends_only (fun _ => False) m -> console_only m.
Proof.
  intros Hm w. destruct (Hm w) as (Hc & He & new & Hl & Hall).
  repeat split; try assumption.
  destruct new as [|e new]; [now rewrite app_nil_r in Hl|].
  now inversion Hall.
Qed.

Ltac frame_basic :=
  repeat first
    [ apply sends_only_ret | apply sends_only_raise | apply sends_only_lift
    | apply sends_only_input | apply sends_only_print
    | apply sends_only_while | apply sends_only_rounds
    | apply sends_only_bind; [|intros ?]
    | apply sends_only_try; [|intros ?]
    | match goal with
      | |- sends_only _ (let _ := _ in _) => cbv zeta
      | |- sends_only _ (if ?x then _ else _) => destruct x
      | |- sends_only _ (match ?x with _ => _ end) => destruct x
      end ].

(** ** The prompts of [class Interface] *)

Lemma print_each_frame (P : Event -> Prop) {A} (line : A -> string) (items : list A) :
  sends_only P (print_each line items).
Proof. induction items; simpl; frame_basic. assumption. Qed.

Lemma print_numbered_frame (P : Event -> Prop) {A} (line : nat -> A -> string)
    (items : list A) :
  forall i, sends_only P (print_numbered line i items).
Proof. induction items; intros i; simpl; frame_basic. apply IHitems. Qed.

Ltac frame :=
  repeat first
    [ apply print_each_frame | apply print_numbered_frame | progress frame_basic ].

Lemma get_table_name_frame (P : Event -> Prop) (prompt : string) (allow_empty : bool) :
  sends_only P (get_table_name prompt allow_empty).
Proof. unfold get_table_name. frame. Qed.

Lemma get_number_of_filters_frame (P : Event -> Prop) :
  sends_only P get_number_of_filters.
Proof. unfold get_number_of_filters. frame. Qed.

Lemma choose_from_frame (P : Event -> Prop) (prompt : string) (entries : list string) :
  sends_only P (choose_from prompt entries).
Proof. unfold choose_from. frame. Qed.

Lemma build_filter_clause_frame (P : Event -> Prop) (table column data_type : string) :
  sends_only P (build_filter_clause table column data_type).
Proof. unfold build_filter_clause. frame. Qed.

(** X12: [get_table_name] without [allow_empty] skips the blank lines,
    answering each with "Table name cannot be empty.", and returns the
    first line that is not blank, stripped; it has then consumed these
    lines and no more, and has not touched the session. Whenever it
    returns, the name it returns is not empty. *)
Theorem get_table_name_skips_blanks (prompt : string) (blanks : list string)
    (line : string) (rest : list string) (w : World) :
  Forall (fun b => Py.strip b = EmptyString) blanks ->
  Py.strip line <> EmptyString ->
  stdin w = (blanks ++ line :: rest)%list ->
  get_table_name prompt false w
  = (Return (Py.strip line),
     after_console w (S (length blanks))
       (flat_map (fun _ => [prompt; "Table name cannot be empty."]) blanks
          ++ [prompt])%list)
  /\ forall w0 t w', get_table_name prompt false w0 = (Return t, w') ->
                     t <> EmptyString.
Proof.
  intros Hblanks Hline Hin. split.
  - apply String.eqb_neq in Hline.
    revert w Hin. induction Hblanks as [|b blanks Hb _ IH]; intros w Hin.
    + destruct w as [c e l sin sout]. simpl in Hin. subst sin.
      unfold get_table_name, while_true, after_console. simpl.
      unfold bind, input. simpl. rewrite Hline. reflexivity.
    + destruct w as [c e l sin sout]. simpl in Hin. subst sin.
      unfold get_table_name, while_true. simpl stdin.
      rewrite rounds_unfold. unfold bind at 1, input at 1. simpl stdin.
      cbv iota beta. rewrite Hb. simpl.
      match goal with
      | |- rounds ?body ?fuel ?w1 = _ =>
          change (rounds body fuel w1) with (get_table_name prompt false w1)
      end.
      rewrite IH by reflexivity. unfold after_console. simpl.
      now rewrite <- !app_assoc.
  - intros w0 t w'. unfold get_table_name, while_true. intros H.
    apply rounds_return in H as [w1 H]. revert H. unfold bind, input.
    destruct (stdin w1) as [|l0 ls]; [discriminate|]. simpl.
    destruct (String.eqb (Py.strip l0) EmptyString) eqn:E; simpl; [discriminate|].
    intros [= <- _]. now apply String.eqb_neq.
Qed.

Lemma get_table_name_skips_blanks_witness :
  get_table_name table_prompt false (fresh accepting ["  "; " orders "; "5"])
  = (Return (Py.strip " orders "),
     after_console (fresh accepting ["  "; " orders "; "5"]) 2
       (flat_map (fun _ => [table_prompt; "Table name cannot be empty."]) ["  "]
          ++ [table_prompt])%list).
Proof.
  assert (Hline : Py.strip " orders " <> EmptyString) by discriminate.
  apply (get_table_name_skips_blanks table_prompt ["  "] " orders " ["5"]
           (fresh accepting ["  "; " orders "; "5"])).
  - now repeat constructor.
  - exact Hline.
  - reflexivity.
Defined.

Lemma bind_return {A B} (m : M A) (k : A -> M B) (w w' : World) (b : B) :
  bind m k w = (Return b, w') ->
  exists a w1, m w = (Return a, w1) /\ k a w1 = (Return b, w').
Proof.
  unfold bind. destruct (m w) as [[a|e] w1]; [eauto | discriminate].
Qed.

Lemma frame_of_run {A} (m : M A) (w w' : World) (r : Result A) :
  sends_only (fun _ => False) m -> m w = (r, w') -> same_session w w'.
Proof.
  intros Hm Hrun. pose proof (sends_nothing m Hm w) as H. now rewrite Hrun in H.
Qed.

(** X13: the number that [get_number_of_filters] returns lies between 0
    and 10, whatever was typed before it, and asking for it does not
    touch the session. *)
Theorem number_of_filters_in_range (w w' : World) (n : Z) :
  get_number_of_filters w = (Return n, w') ->
  0 <= n <= 10 /\ same_session w w'.
Proof.
  intros Hrun. split.
  - unfold get_number_of_filters, while_true in Hrun.
    apply rounds_return in Hrun as [w0 Hrun]. revert Hrun. unfold bind, input.
    destruct (stdin w0) as [|l ls]; [discriminate|]. simpl.
    destruct (Py.int (Py.strip l)) as [k|]; [|discriminate].
    destruct ((0 <=? k) && (k <=? 10))%bool eqn:E; simpl; [|discriminate].
    intros [= <- _]. apply andb_prop in E as [E1 E2]. lia.
  - eapply frame_of_run; [apply get_number_of_filters_frame | eassumption].
Qed.

Lemma number_of_filters_in_range_witness :
  0 <= 3 <= 10
  /\ same_session (fresh accepting ["many"; "11"; " 3 "])
       (after_console (fresh accepting ["many"; "11"; " 3 "]) 3
          ["How many attribute filters do you want to apply? (0-10): ";
           "Enter a number between 0 and 10.";
           "How many attribute filters do you want to apply? (0-10): ";
           "Enter a number between 0 and 10.";
           "How many attribute filters do you want to apply? (0-10): "]).
Proof.
  apply (number_of_filters_in_range (fresh accepting ["many"; "11"; " 3 "])).
  reflexivity.
Defined.

Lemma nth_error_is_lookup {A} (l : list A) (i : nat) : nth_error l i = l !! i.
Proof. revert i. induction l as [|a l IH]; intros [|i]; simpl; auto. Qed.

Lemma py_index_In {A} (l : list A) (i : Z) (x : A) :
  py_index l i = Some x -> In x l.
Proof.
  unfold py_index.
  destruct ((0 <=? i) && (i <? Z.of_nat (length l)))%bool;
    [apply nth_error_In|].
  destruct ((- Z.of_nat (length l) <=? i) && (i <? 0))%bool;
    [apply nth_error_In | discriminate].
Qed.

Lemma py_index_either_end {A} (l : list A) (i : nat) (x : A) :
  l !! i = Some x ->
  py_index l (Z.of_nat i) = Some x
  /\ py_index l (Z.of_nat i - Z.of_nat (length l)) = Some x.
Proof.
  intros Hi. pose proof (lookup_lt_Some _ _ _ Hi) as Hlt.
  unfold py_index. split.
  - replace ((0 <=? Z.of_nat i) && (Z.of_nat i <? Z.of_nat (length l)))%bool
      with true by (symmetry; apply andb_true_intro; split; lia).
    now rewrite Nat2Z.id, nth_error_is_lookup.
  - replace ((0 <=? Z.of_nat i - Z.of_nat (length l))
             && (Z.of_nat i - Z.of_nat (length l) <? Z.of_nat (length l)))%bool
      with false by (symmetry; apply andb_false_intro1; lia).
    replace ((- Z.of_nat (length l) <=? Z.of_nat i - Z.of_nat (length l))
             && (Z.of_nat i - Z.of_nat (length l) <? 0))%bool
      with true by (symmetry; apply andb_true_intro; split; lia).
    replace (Z.of_nat (length l) + (Z.of_nat i - Z.of_nat (length l)))
      with (Z.of_nat i) by lia.
    now rewrite Nat2Z.id, nth_error_is_lookup.
Qed.

Lemma choose_from_return (prompt : string) (entries : list string)
    (w w' : World) (t : string) :
  choose_from prompt entries w = (Return t, w') -> In t entries.
Proof.
  unfold choose_from, while_true. intros Hrun.
  apply rounds_return in Hrun as [w0 Hrun]. revert Hrun. unfold bind, input.
  destruct (stdin w0) as [|l ls]; [discriminate|]. simpl.
  destruct (Py.int (Py.strip l)) as [k|]; [|discriminate].
  destruct (py_index entries (k - 1)) as [entry|] eqn:E; simpl; [|discriminate].
  intros [= <- _]. now apply py_index_In in E.
Qed.

Lemma dict_get_of_key (k : string) (d : list (string * string)) :
  In k (map fst d) -> is_Some (dict_get k d).
Proof.
  induction d as [|[k' v] d IH]; simpl; [contradiction|].
  destruct (String.eqb k' k) eqn:E; [eauto|].
  intros [->|H]; [|now apply IH]. now rewrite String.eqb_refl in E.
Qed.

(** X14: what [choose_table_for_filter] returns is one of the tables it
    was given, and what [choose_column] returns is a key of the type
    map, so that the lookup of its type cannot fail; neither touches the
    session. *)
Theorem choice_is_an_entry (tables : list string) (table : string)
    (col_types : list (string * string)) (w w' : World) (t : string) :
  (choose_table_for_filter tables w = (Return t, w') ->
   In t tables /\ same_session w w')
  /\ (choose_column table col_types w = (Return t, w') ->
      In t (map fst col_types) /\ is_Some (dict_get t col_types)
      /\ same_session w w').
Proof.
  split; intros Hrun.
  - split.
    + unfold choose_table_for_filter in Hrun.
      apply bind_return in Hrun as (_ & w1 & _ & Hrun).
      apply bind_return in Hrun as (_ & w2 & _ & Hrun).
      now apply choose_from_return in Hrun.
    + eapply frame_of_run; [|eassumption]. unfold choose_table_for_filter.
      frame.
  - assert (Hin : In t (map fst col_types)).
    { unfold choose_column in Hrun.
      apply bind_return in Hrun as (_ & w1 & _ & Hrun).
      apply bind_return in Hrun as (_ & w2 & _ & Hrun).
      now apply choose_from_return in Hrun. }
    split; [assumption|]. split; [now apply dict_get_of_key|].
    eapply frame_of_run; [|eassumption]. unfold choose_column.
    frame.
Qed.

Lemma choice_is_an_entry_witness :
  In "customers" ["orders"; "customers"]
  /\ same_session (fresh accepting ["9"; "2"])
       (snd (choose_table_for_filter ["orders"; "customers"]
               (fresh accepting ["9"; "2"]))).
Proof.
  apply (proj1 (choice_is_an_entry ["orders"; "customers"] "orders" []
                  (fresh accepting ["9"; "2"])
                  (snd (choose_table_for_filter ["orders"; "customers"]
                          (fresh accepting ["9"; "2"])))
                  "customers")).
  reflexivity.
Defined.

Lemma print_numbered_run {A} (line : nat -> A -> string) (items : list A) :
  forall i w, exists out,
    print_numbered line i items w = (Return tt, after_console w 0 out).
Proof.
  induction items as [|x items IH]; intros i w; simpl.
  - exists []. unfold ret, after_console. destruct w. simpl.
    now rewrite app_nil_r.
  - unfold bind, print.
    match goal with
    | |- context [print_numbered line (S i) items ?w1] =>
        destruct (IH (S i) w1) as [out ->]
    end.
    exists (line i x :: out). unfold after_console. simpl.
    now rewrite <- app_assoc.
Qed.

(** X15: in [choose_table_for_filter] the answer [i+1] picks the entry at
    position [i] (counting from 0), and so does the answer
    [i+1-len(tables)]: answers from [1-len] to [0] count from the end,
    so that [0] picks the last table instead of being refused. *)
Theorem choice_counts_from_either_end (tables : list string) (w : World)
    (v : string) (rest : list string) (n : Z) (i : nat) (t : string) :
  stdin w = v :: rest ->
  Py.int (Py.strip v) = Some n ->
  tables !! i = Some t ->
  n = Z.of_nat i + 1 \/ n = Z.of_nat i + 1 - Z.of_nat (length tables) ->
  outcome (choose_table_for_filter tables w) = Return t.
Proof.
  intros Hin Hint Hi Hn.
  assert (Hidx : py_index tables (n - 1) = Some t).
  { destruct (py_index_either_end tables i t Hi) as [H1 H2].
    destruct Hn as [->| ->].
    - now replace (Z.of_nat i + 1 - 1) with (Z.of_nat i) by lia.
    - now replace (Z.of_nat i + 1 - Z.of_nat (length tables) - 1)
        with (Z.of_nat i - Z.of_nat (length tables)) by lia. }
  unfold choose_table_for_filter, outcome, bind at 1, print at 1.
  unfold bind at 1.
  match goal with
  | |- context [print_numbered ?line 1%nat tables ?w1] =>
      destruct (print_numbered_run line tables 1%nat w1) as [out ->]
  end.
  unfold choose_from, while_true. rewrite rounds_unfold.
  unfold bind at 1, input at 1. unfold after_console at 1 2 3. simpl stdin.
  rewrite Hin. rewrite !drop_0. cbv iota beta. rewrite Hint, Hidx. reflexivity.
Qed.

Lemma choice_counts_from_either_end_witness :
  outcome (choose_table_for_filter ["orders"; "customers"] (fresh accepting ["0"]))
  = Return "customers".
Proof.
  apply (choice_counts_from_either_end ["orders"; "customers"]
           (fresh accepting ["0"]) "0" [] 0 1 "customers");
    try reflexivity.
  right. reflexivity.
Defined.

(** ** Literals and filters *)

Lemma length_append (a b : string) :
  String.length (a ++ b) = (String.length a + String.length b)%nat.
Proof.
  induction a as [|c a IH]; [reflexivity|].
  change (S (String.length (a ++ b)) = S (String.length a + String.length b)).
  now rewrite IH.
Qed.

Lemma append_inv_tail (x y t : string) : (x ++ t = y ++ t)%string -> x = y.
Proof.
  revert y. induction x as [|a x IH]; intros [|c y] H.
  - reflexivity.
  - change (t = String c (y ++ t)) in H.
    apply (f_equal String.length) in H.
    change (String.length t = S (String.length (y ++ t))) in H.
    rewrite length_append in H. lia.
  - change (String a (x ++ t) = t) in H.
    apply (f_equal String.length) in H.
    change (S (String.length (x ++ t)) = String.length t) in H.
    rewrite length_append in H. lia.
  - change (String a (x ++ t) = String c (y ++ t)) in H.
    injection H as -> H. f_equal. now apply IH.
Qed.

Lemma replace_quote_cons (c : ascii) (r : string) :
  Py.replace_char "'" "''" (String c r)
  = if Ascii.eqb c "'" then String "'" (String "'" (Py.replace_char "'" "''" r))
    else String c (Py.replace_char "'" "''" r).
Proof. simpl. now destruct (Ascii.eqb c "'"). Qed.

Lemma replace_quote_inj (a b : string) :
  Py.replace_char "'" "''" a = Py.replace_char "'" "''" b -> a = b.
Proof.
  revert b. induction a as [|c a IH]; intros [|d b]; rewrite ?replace_quote_cons.
  - reflexivity.
  - simpl. destruct (Ascii.eqb d "'"); discriminate.
  - simpl. destruct (Ascii.eqb c "'"); discriminate.
  - destruct (Ascii.eqb c "'") eqn:Ec, (Ascii.eqb d "'") eqn:Ed.
    + apply Ascii.eqb_eq in Ec, Ed. subst. intros [= H]. f_equal. now apply IH.
    + intros [= <- _]. now rewrite Ascii.eqb_refl in Ed.
    + intros [= -> _]. now rewrite Ascii.eqb_refl in Ec.
    + intros [= -> H]. f_equal. now apply IH.
Qed.

(** X16: [_quote_literal] loses nothing: two inputs with the same quoted
    literal are the same input; and the literal is never empty, it
    begins with a quote. *)
Theorem quote_literal_is_injective (a b : string) :
  (_quote_literal a = _quote_literal b -> a = b)
  /\ exists body, _quote_literal a = String "'" body.
Proof.
  unfold _quote_literal. split; [|eexists; reflexivity].
  intros H.
  change (String "'" (Py.replace_char "'" "''" a ++ "'")
          = String "'" (Py.replace_char "'" "''" b ++ "'")) in H.
  injection H as H. apply append_inv_tail in H. now apply replace_quote_inj.
Qed.

Lemma quote_literal_is_injective_witness :
  exists body, _quote_literal "O'Hara" = String "'" body.
Proof. exact (proj2 (quote_literal_is_injective "O'Hara" "O'Hara")). Defined.

(** X17: a filter whose answers are all blank is [TRUE], whatever the
    type of the column, and building a filter does not touch the
    session. *)
Theorem blank_answers_filter_nothing (w : World) (table column data_type : string)
    (l1 l2 : string) (rest : list string) :
  stdin w = l1 :: l2 :: rest ->
  Py.strip l1 = EmptyString -> Py.strip l2 = EmptyString ->
  outcome (build_filter_clause table column data_type w) = Return "TRUE"
  /\ same_session w (snd (build_filter_clause table column data_type w)).
Proof.
  intros Hin H1 H2. split.
  - unfold build_filter_clause, outcome.
    repeat (match goal with
            | |- context [if ?b then _ else _] =>
                match b with
                | context [Py.lower data_type] => destruct b
                end
            end);
      unfold bind, input; rewrite Hin; simpl stdin; cbv iota beta;
      rewrite ?H1, ?H2; reflexivity.
  - apply sends_nothing, build_filter_clause_frame.
Qed.

Lemma blank_answers_filter_nothing_witness :
  outcome (build_filter_clause "orders" "tag" "uuid" (fresh accepting ["  "; EmptyString]))
  = Return "TRUE"
  /\ same_session (fresh accepting ["  "; EmptyString])
       (snd (build_filter_clause "orders" "tag" "uuid"
               (fresh accepting ["  "; EmptyString]))).
Proof.
  apply (blank_answers_filter_nothing (fresh accepting ["  "; EmptyString])
           "orders" "tag" "uuid" "  " EmptyString []); reflexivity.
Defined.

Lemma filter_single_tests (data_type : string) :
  let dt := Py.lower data_type in
  let numeric :=
    (Py.startswith dt "integer"
     || Py.among dt ["bigint"; "smallint"; "numeric"; "double precision"; "real"])%bool in
  let text := (Py.contains "character" dt || String.eqb dt "text")%bool in
  let temporal := (Py.contains "date" dt || Py.contains "timestamp" dt)%bool in
  (filter_category data_type = CText -> numeric = false /\ text = true)
  /\ (filter_category data_type = CBoolean ->
      numeric = false /\ text = false /\ String.eqb dt "boolean" = true)
  /\ (filter_category data_type = CUnknown ->
      numeric = false /\ text = false /\ String.eqb dt "boolean" = false
      /\ temporal = false).
Proof.
  unfold filter_category, Py.among. simpl existsb.
  destruct (Py.startswith _ _); [repeat split; discriminate|].
  destruct (String.eqb _ "bigint"); [repeat split; discriminate|].
  destruct (String.eqb _ "smallint"); [repeat split; discriminate|].
  destruct (String.eqb _ "numeric"); [repeat split; discriminate|].
  destruct (String.eqb _ "double precision"); [repeat split; discriminate|].
  destruct (String.eqb _ "real"); [repeat split; discriminate|]. simpl.
  destruct (_ || _)%bool; [repeat split; easy|].
  destruct (String.eqb _ "boolean"); [repeat split; easy|].
  destruct (_ || _)%bool; repeat split; easy.
Qed.

(** X18: the filters that ask one question. On a text column a pattern
    that is not blank gives [ILIKE] against the quoted pattern; on a
    boolean column the answer is read without regard to case, one of
    true/t/1/yes/y gives [= TRUE], one of false/f/0/no/n gives
    [= FALSE] and anything else is silently [TRUE]; on a column of any
    other type an answer that is not blank gives equality with the
    quoted answer. *)
Theorem single_answer_predicate_shape (w : World) (table column data_type : string)
    (v : string) (rest : list string) :
  stdin w = v :: rest ->
  let col_ref := in_quotes table ++ "." ++ in_quotes column in
  let a := Py.strip v in
  let r := outcome (build_filter_clause table column data_type w) in
  (filter_category data_type = CText ->
   r = Return (if String.eqb a EmptyString then "TRUE"
               else col_ref ++ " ILIKE " ++ _quote_literal a))
  /\ (filter_category data_type = CBoolean ->
      r = Return (if Py.among (Py.lower a) ["true"; "t"; "1"; "yes"; "y"]
                  then col_ref ++ " = TRUE"
                  else if Py.among (Py.lower a) ["false"; "f"; "0"; "no"; "n"]
                       then col_ref ++ " = FALSE"
                       else "TRUE"))
  /\ (filter_category data_type = CUnknown ->
      r = Return (if String.eqb a EmptyString then "TRUE"
                  else col_ref ++ " = " ++ _quote_literal a)).
Proof.
  intros Hin col_ref a r. subst r a.
  destruct (filter_single_tests data_type) as (Htext & Hbool & Hunk).
  unfold build_filter_clause, outcome. split; [|split]; intros Hcat.
  - destruct (Htext Hcat) as [E1 E2]. rewrite E1, E2.
    unfold bind, input. rewrite Hin. simpl stdin. cbv iota beta.
    now destruct (String.eqb (Py.strip v) EmptyString).
  - destruct (Hbool Hcat) as (E1 & E2 & E3). rewrite E1, E2, E3.
    unfold bind, input. rewrite Hin. simpl stdin. cbv iota beta.
    repeat match goal with
           | |- context [if Py.among ?x ?l then _ else _] => destruct (Py.among x l)
           end; reflexivity.
  - destruct (Hunk Hcat) as (E1 & E2 & E3 & E4). rewrite E1, E2, E3, E4.
    unfold bind, input. rewrite Hin. simpl stdin. cbv iota beta.
    now destruct (String.eqb (Py.strip v) EmptyString).
Qed.

Lemma single_answer_predicate_shape_witness :
  outcome (build_filter_clause "customers" "name" "text" (fresh accepting [" O'H% "]))
  = Return (in_quotes "customers" ++ "." ++ in_quotes "name" ++ " ILIKE 'O''H%'").
Proof.
  exact (proj1 (single_answer_predicate_shape (fresh accepting [" O'H% "])
                  "customers" "name" "text" " O'H% " [] eq_refl) eq_refl).
Defined.

(** ** Report parameters *)

Lemma all_digits_digitpart (s : string) :
  all_digits s = true -> forall acc b, is_Some (Py.digitpart s acc b).
Proof.
  induction s as [|c s IH]; [discriminate|].
  destruct s as [|d s]; intros H acc b.
  - simpl in H. simpl. rewrite H. eauto.
  - change (Py.is_digit c && all_digits (String d s) = true)%bool in H.
    apply andb_prop in H as [Hc Hs].
    change (Py.digitpart (String c (String d s)) acc b)
      with (if Py.is_digit c
            then Py.digitpart (String d s) (10 * acc + Py.digit_value c) true
            else if (Ascii.eqb c "_" && b)%bool
                 then Py.digitpart (String d s) acc false else None).
    rewrite Hc. now apply IH.
Qed.

Lemma sign_cases (s : string) :
  let body := match s with String "-" r => r | _ => s end in
  s = String "-" body \/ s = body.
Proof.
  destruct s as [|c r]; [now right|].
  destruct c as [[] [] [] [] [] [] [] []]; first [now left | now right].
Qed.

Lemma is_int_literal_cases (s : string) :
  is_int_literal s = true ->
  (exists r, s = String "-" r /\ all_digits r = true) \/ all_digits s = true.
Proof.
  destruct s as [|c r]; [discriminate|].
  destruct c as [[] [] [] [] [] [] [] []]; intros H;
    first [left; exists r; split; [reflexivity | exact H] | right; exact H].
Qed.

(** On an integer literal, [int] fails exactly when the literal has more
    digits than it accepts. *)
Lemma int_of_literal (s : string) :
  is_int_literal s = true ->
  ((Py.count_digits s <= Py.max_str_digits)%nat -> is_Some (Py.int s))
  /\ ((Py.max_str_digits < Py.count_digits s)%nat -> Py.int s = None).
Proof.
  intros H. apply is_int_literal_cases in H as [(r & -> & Hr)|Hs]; unfold Py.int.
  - rewrite (skip_signed_digits r Hr).
    change (Py.split_sign (String "-" r)) with (true, r). cbv beta iota.
    change (Py.count_digits (String "-" r)) with (Py.count_digits r).
    destruct (all_digits_digitpart r Hr 0 false) as [n ->]. split; intros Hn.
    + apply Nat.ltb_ge in Hn. rewrite Hn. eauto.
    + apply Nat.ltb_lt in Hn. now rewrite Hn.
  - rewrite (skip_all_digits s Hs).
    destruct (all_digits_first s Hs) as (c & r & -> & Hc).
    destruct (digit_not_sign c r Hc) as [-> _].
    destruct (all_digits_digitpart _ Hs 0 false) as [n ->]. split; intros Hn.
    + apply Nat.ltb_ge in Hn. rewrite Hn. eauto.
    + apply Nat.ltb_lt in Hn. now rewrite Hn.
Qed.

Lemma length_lstrip (s : string) :
  (String.length (Py.lstrip s) <= String.length s)%nat.
Proof.
  induction s as [|c s IH]; simpl; [lia|]. destruct (Py.is_space c); simpl; lia.
Qed.

Lemma length_rstrip (s : string) :
  (String.length (Py.rstrip s) <= String.length s)%nat.
Proof.
  induction s as [|c s IH]; simpl; [lia|].
  destruct (Py.rstrip s); [destruct (Py.is_space c)|]; simpl in *; lia.
Qed.

Lemma length_strip (s : string) :
  (String.length (Py.strip s) <= String.length s)%nat.
Proof.
  unfold Py.strip. pose proof (length_rstrip (Py.lstrip s)).
  pose proof (length_lstrip s). lia.
Qed.

Lemma cut_spec (c : ascii) (s a b : string) :
  Py.cut c s = (a, Some b) -> s = (a ++ String c b)%string.
Proof.
  revert a. induction s as [|d s IH]; intros a; simpl; [discriminate|].
  destruct (Ascii.eqb d c) eqn:E.
  - apply Ascii.eqb_eq in E. subst d. now intros [= <- <-].
  - destruct (Py.cut c s) as [a' b'] eqn:Ec. intros [= <- ->].
    now rewrite (IH a' eq_refl).
Qed.

Lemma chars_append (a b : string) :
  list_ascii_of_string (a ++ b)
  = (list_ascii_of_string a ++ list_ascii_of_string b)%list.
Proof.
  induction a as [|c a IH]; [reflexivity|].
  change (c :: list_ascii_of_string (a ++ b)
          = c :: (list_ascii_of_string a ++ list_ascii_of_string b)%list).
  now rewrite IH.
Qed.

Lemma chars_digits (s : string) :
  all_digits s = true ->
  Forall (fun c => Py.is_digit c = true) (list_ascii_of_string s).
Proof.
  induction s as [|c s IH]; [discriminate|].
  destruct s as [|d s]; intros H.
  - simpl in H. simpl. now repeat constructor.
  - change (Py.is_digit c && all_digits (String d s) = true)%bool in H.
    apply andb_prop in H as [Hc Hs].
    change (Forall (fun c0 => Py.is_digit c0 = true)
                   (c :: list_ascii_of_string (String d s))).
    constructor; [assumption | now apply IH].
Qed.

(** The characters of a decimal literal: digits, the point, the sign. *)
Lemma literal_char (c : ascii) :
  Py.is_digit c = true \/ c = "."%char \/ c = "-"%char ->
  Py.is_space c = false /\ Py.lower_char c = c /\ c <> "e"%char.
Proof.
  intros [H|[->| ->]]; [|now repeat split..].
  destruct c as [[] [] [] [] [] [] [] []]; try discriminate H; now repeat split.
Qed.

Lemma literal_chars (s : string) :
  Forall (fun c => Py.is_digit c = true \/ c = "."%char \/ c = "-"%char)
         (list_ascii_of_string s) ->
  Py.lower s = s /\ Py.cut "e" s = (s, None)
  /\ first_is_space s = false /\ last_is_space s = false.
Proof.
  induction s as [|c s IH]; [now repeat split|].
  change (list_ascii_of_string (String c s)) with (c :: list_ascii_of_string s).
  intros H. inversion H as [|? ? Hc Hs]; subst.
  destruct (literal_char c Hc) as (Hsp & Hlow & He).
  destruct (IH Hs) as (IHlow & IHcut & _ & IHlast).
  repeat split.
  - simpl. now rewrite Hlow, IHlow.
  - simpl. apply Ascii.eqb_neq in He. now rewrite He, IHcut.
  - exact Hsp.
  - destruct s; [exact Hsp | exact IHlast].
Qed.

Lemma float_of_literal (s : string) :
  is_float_literal s = true -> Py.float_ok s = true.
Proof.
  unfold is_float_literal. intros H.
  destruct (sign_cases s) as [Hs|Hs];
    set (body := match s with String "-" r => r | _ => s end) in *;
    destruct (Py.cut "." body) as [ip [fp|]] eqn:Ecut; try discriminate;
    apply andb_prop in H as [Hip Hfp];
    pose proof (cut_spec _ _ _ _ Ecut) as Hbody;
    assert (Hchars : Forall (fun c => Py.is_digit c = true \/ c = "."%char
                                      \/ c = "-"%char)
                            (list_ascii_of_string body));
    try (rewrite Hbody, chars_append; apply Forall_app; split;
         [eapply Forall_impl; [apply (chars_digits ip Hip) | tauto]
         | constructor; [tauto|];
           eapply Forall_impl; [apply (chars_digits fp Hfp) | tauto]]);
    destruct (literal_chars body Hchars) as (Hlow & Hcute & Hfirst & Hlast);
    assert (Hnum : Py.is_floatnumber body = true);
    try (unfold Py.is_floatnumber, Py.is_number; rewrite Hcute, Ecut;
         destruct ip as [|i0 ip']; [discriminate|];
         destruct fp as [|f0 fp']; [discriminate|];
         unfold Py.is_digitpart;
         destruct (all_digits_digitpart _ Hip 0 false) as [n1 ->];
         destruct (all_digits_digitpart _ Hfp 0 false) as [n2 ->];
         reflexivity).
  - assert (Hstrip : Py.skip_blanks s = s).
    { rewrite Hs. apply skip_unchanged; [reflexivity|].
      destruct body; [discriminate Hbody + (destruct ip; discriminate)|].
      exact Hlast. }
    unfold Py.float_ok. rewrite Hstrip, Hs.
    change (Py.lower (String "-" body)) with (String "-" (Py.lower body)).
    rewrite Hlow.
    change (snd (Py.split_sign (String "-" body))) with body.
    rewrite Hnum. apply orb_true_r.
  - assert (Hstrip : Py.skip_blanks s = s).
    { rewrite Hs. now apply skip_unchanged. }
    unfold Py.float_ok. rewrite Hstrip, Hs, Hlow.
    destruct (all_digits_first ip Hip) as (c & r & Hipc & Hc).
    assert (Hb : body = String c (r ++ String "." fp)) by (now rewrite Hbody, Hipc).
    rewrite Hb at 1 2.
    destruct (digit_not_sign c (r ++ String "." fp) Hc) as [-> _].
    simpl snd. rewrite <- Hb, Hnum. apply orb_true_r.
Qed.

(** The one way for [_try_cast_param] to raise: an integer literal that
    [int] finds too long. *)
Lemma try_cast_param_cases (val : string) :
  let s := Py.strip val in
  if (is_int_literal s && Nat.ltb Py.max_str_digits (Py.count_digits s))%bool
  then exists msg, _try_cast_param val = Raise (ValueError msg)
  else exists v, _try_cast_param val = Return v.
Proof.
  cbv zeta. unfold _try_cast_param.
  destruct (String.eqb (Py.strip val) EmptyString) eqn:Eblank.
  { apply String.eqb_eq in Eblank. rewrite Eblank. simpl. eauto. }
  destruct (is_int_literal (Py.strip val)) eqn:Ei.
  { destruct (int_of_literal _ Ei) as [Hok Hlong]. simpl andb.
    destruct (Nat.ltb Py.max_str_digits (Py.count_digits (Py.strip val))) eqn:El.
    - apply Nat.ltb_lt in El. rewrite (Hlong El). eauto.
    - apply Nat.ltb_ge in El. destruct (Hok El) as [n ->]. eauto. }
  simpl andb. cbv iota.
  destruct (is_float_literal (Py.strip val)) eqn:Ef.
  { rewrite (float_of_literal _ Ef). eauto. }
  destruct (Py.among _ _); eauto.
Qed.

Lemma try_cast_param_short (val : string) :
  (String.length val <= Py.max_str_digits)%nat ->
  exists v, _try_cast_param val = Return v.
Proof.
  intros Hlen. pose proof (try_cast_param_cases val) as H. cbv zeta in H.
  destruct (Nat.ltb Py.max_str_digits (Py.count_digits (Py.strip val))) eqn:El.
  - apply Nat.ltb_lt in El.
    pose proof (count_digits_le (Py.strip val)). pose proof (length_strip val). lia.
  - now rewrite andb_false_r in H.
Qed.

Lemma try_cast_param_raises (val : string) (e : Exn) :
  _try_cast_param val = Raise e -> exists msg, e = ValueError msg.
Proof.
  pose proof (try_cast_param_cases val) as H. cbv zeta in H.
  destruct (_ && _)%bool.
  - destruct H as [msg ->]. intros [= <-]. eauto.
  - destruct H as [v ->]. discriminate.
Qed.

(** X19: [_try_cast_param] raises in one case only: the answer, once
    stripped, is an integer literal of more than the 4300 digits that
    [int] accepts; it then raises a [ValueError]. An answer of at most
    4300 characters is therefore always read: the patterns tested
    before [int] and [float] admit only texts that these read. A blank
    answer is the null value, and the decimal notation of an integer
    below [10^4300] in absolute value is read back as that integer. *)
Theorem try_cast_param_reads_integers (val : string) (z : Z) :
  (forall e, _try_cast_param val = Raise e ->
     is_int_literal (Py.strip val) = true
     /\ (Py.max_str_digits < Py.count_digits (Py.strip val))%nat
     /\ exists msg, e = ValueError msg)
  /\ (is_int_literal (Py.strip val) = true ->
      (Py.max_str_digits < Py.count_digits (Py.strip val))%nat ->
      exists msg, _try_cast_param val = Raise (ValueError msg))
  /\ ((String.length val <= Py.max_str_digits)%nat ->
      exists v, _try_cast_param val = Return v)
  /\ (Py.strip val = EmptyString -> _try_cast_param val = Return VNone)
  /\ (Z.abs z < 10 ^ Z.of_nat Py.max_str_digits ->
      _try_cast_param (pretty z) = Return (VInt z)).
Proof.
  pose proof (try_cast_param_cases val) as Hcases. cbv zeta in Hcases.
  split; [|split; [|split; [|split]]].
  - intros e He.
    destruct (is_int_literal (Py.strip val));
      [|destruct Hcases as [v Hv]; congruence].
    destruct (Nat.ltb _ _) eqn:El;
      [|destruct Hcases as [v Hv]; congruence].
    apply Nat.ltb_lt in El. repeat split; try assumption.
    now apply (try_cast_param_raises val).
  - intros Hlit Hlong. apply Nat.ltb_lt in Hlong. now rewrite Hlit, Hlong in Hcases.
  - apply try_cast_param_short.
  - intros H. unfold _try_cast_param. now rewrite H.
  - intros Hbound. destruct (int_of_pretty z) as (Hstrip & Hne & Hlit & Hint).
    unfold _try_cast_param. rewrite Hstrip, Hlit, (Hint Hbound).
    apply String.eqb_neq in Hne. now rewrite Hne.
Qed.

Lemma try_cast_param_reads_integers_witness :
  (exists v, _try_cast_param " 42 " = Return v)
  /\ _try_cast_param (pretty (-7)) = Return (VInt (-7)).
Proof.
  pose proof (try_cast_param_reads_integers " 42 " (-7)) as (_ & _ & Hshort & _ & Hint).
  split.
  - apply Hshort. vm_compute. lia.
  - apply Hint. vm_compute. reflexivity.
Defined.

Example try_cast_param_examples :
  _try_cast_param " -12 " = Return (VInt (-12))
  /\ _try_cast_param "3.50" = Return (VFloat "3.50")
  /\ _try_cast_param "TRUE" = Return (VBool true)
  /\ _try_cast_param "false" = Return (VBool false)
  /\ _try_cast_param "1e3" = Return (VStr "1e3")
  /\ _try_cast_param "%Kyiv%" = Return (VStr "%Kyiv%").
Proof. repeat split; reflexivity. Qed.

Lemma ask_loop_run (left : nat) :
  forall (i : nat) (params : list Value) (w : World),
    (left <= length (stdin w))%nat ->
    Forall (fun line => (String.length line <= Py.max_str_digits)%nat)
           (take left (stdin w)) ->
    exists vs out,
      ask_loop i left params w
      = (Return (params ++ vs)%list, after_console w left out)
      /\ length vs = left.
Proof.
  induction left as [|left IH]; intros i params w Hlen Hshort.
  - exists [], []. split; [|reflexivity]. unfold ask_loop, ret, after_console.
    destruct w. simpl. now rewrite !app_nil_r.
  - destruct w as [c e l sin sout]. simpl in Hlen, Hshort.
    destruct sin as [|line lines]; [simpl in Hlen; lia|]. simpl in Hlen.
    change (take (S left) (line :: lines)) with (line :: take left lines) in Hshort.
    apply Forall_cons in Hshort as [Hline Hrest].
    destruct (try_cast_param_short line Hline) as [v Hv].
    simpl ask_loop. unfold bind at 1, input at 1. simpl stdin. cbv iota beta.
    unfold bind at 1, lift at 1. rewrite Hv.
    match goal with
    | |- context [ask_loop (S i) left ?ps ?w1] =>
        destruct (IH (S i) ps w1) as (vs & out & -> & Hvs);
          [simpl; lia | exact Hrest |]
    end.
    eexists (v :: vs), _. split; [|simpl; now rewrite Hvs].
    unfold after_console. simpl. rewrite <- !app_assoc. reflexivity.
Qed.

Lemma ask_loop_eof (left : nat) :
  forall (i : nat) (params : list Value) (w : World),
    (length (stdin w) < left)%nat ->
    Forall (fun line => (String.length line <= Py.max_str_digits)%nat) (stdin w) ->
    outcome (ask_loop i left params w) = Raise EOFError.
Proof.
  induction left as [|left IH]; intros i params w Hlen Hshort; [lia|].
  destruct w as [c e l sin sout]. simpl in Hlen, Hshort.
  destruct sin as [|line lines]; [reflexivity|]. simpl in Hlen.
  apply Forall_cons in Hshort as [Hline Hrest].
  destruct (try_cast_param_short line Hline) as [v Hv].
  simpl ask_loop. unfold outcome, bind at 1, input at 1. simpl stdin. cbv iota beta.
  unfold bind at 1, lift at 1. rewrite Hv.
  apply IH; [simpl; lia | exact Hrest].
Qed.

(** Whenever the loop returns, it has added one parameter per round. *)
Lemma ask_loop_length (left : nat) :
  forall (i : nat) (params ps : list Value) (w : World),
    fst (ask_loop i left params w) = Return ps ->
    length ps = (length params + left)%nat.
Proof.
  induction left as [|left IH]; intros i params ps w; simpl.
  - unfold ret. simpl. intros [= <-]. lia.
  - unfold bind at 1, input at 1.
    destruct (stdin w) as [|line lines]; [discriminate|].
    unfold bind at 1, lift at 1.
    destruct (_try_cast_param line) as [v|e]; [|discriminate].
    intros H. apply IH in H. rewrite length_app in H. simpl in H. lia.
Qed.

(** X20: [ask_parameters_for_template] asks one question per [%s] of
    the template. Whenever it returns, it returns exactly that many
    parameters. With at least that many lines on the console, none of
    the lines it reads longer than the 4300 digits that [int] accepts,
    it does return, having consumed that many lines and left the
    session alone; with fewer lines, none of them longer than that, it
    ends in [EOFError]. *)
Theorem parameters_match_placeholders (template_sql : string) (w : World) :
  let num := count_placeholders template_sql in
  let short := fun line => (String.length line <= Py.max_str_digits)%nat in
  (forall params w',
     ask_parameters_for_template template_sql w = (Return params, w') ->
     length params = num)
  /\ ((num <= length (stdin w))%nat -> Forall short (take num (stdin w)) ->
      exists params out,
        ask_parameters_for_template template_sql w
        = (Return params, after_console w num out)
        /\ length params = num)
  /\ ((length (stdin w) < num)%nat -> Forall short (stdin w) ->
      outcome (ask_parameters_for_template template_sql w) = Raise EOFError).
Proof.
  intros num short. unfold ask_parameters_for_template. fold num.
  split; [|split].
  - intros params w' Hrun.
    apply (ask_loop_length num 0%nat [] params w). now rewrite Hrun.
  - intros Hlen Hshort.
    destruct (ask_loop_run num 0%nat [] w Hlen Hshort) as (vs & out & H & Hvs).
    exists vs, out. now split.
  - apply ask_loop_eof.
Qed.

Lemma parameters_match_placeholders_witness :
  exists params out,
    ask_parameters_for_template sql3 (fresh accepting ["%Lviv%"; "%"; "100"; "x"])
    = (Return params,
       after_console (fresh accepting ["%Lviv%"; "%"; "100"; "x"])
                     (count_placeholders sql3) out)
    /\ length params = count_placeholders sql3.
Proof.
  apply (proj1 (proj2 (parameters_match_placeholders sql3
                         (fresh accepting ["%Lviv%"; "%"; "100"; "x"])))).
  - vm_compute. lia.
  - vm_compute. repeat (apply Forall_cons; split; [lia|]). now apply Forall_nil.
Defined.

Example placeholders_of_the_reports :
  map (fun r => count_placeholders (snd r)) get_prepared_reports_templates
  = [2; 2; 3]%nat.
Proof. reflexivity. Qed.

(** ** Values typed at the console *)

Lemma values_loop_run (items : list (string * string)) :
  forall (result : gmap string (option string)) (w : World),
    (length items <= length (stdin w))%nat ->
    exists d out,
      values_loop items result w = (Return d, after_console w (length items) out)
      /\ forall col v, d !! col = Some v ->
           result !! col = Some v
           \/ (In col (map fst items)
               /\ exists s, v = Some s
                            /\ In s (take (length items) (stdin w))
                            /\ Py.strip s <> EmptyString).
Proof.
  induction items as [|[c dtype] items IH]; intros result w Hlen.
  - exists result, []. split; [|now left].
    unfold after_console. destruct w. simpl. unfold ret. now rewrite app_nil_r.
  - destruct w as [ct e l sin sout]. simpl in Hlen.
    destruct sin as [|line lines]; [simpl in Hlen; lia|]. simpl in Hlen.
    simpl values_loop. unfold bind at 1, input at 1. simpl stdin. cbv iota beta.
    destruct (String.eqb (Py.strip line) EmptyString) eqn:Eblank.
    + match goal with
      | |- context [values_loop items result ?w1] =>
          destruct (IH result w1) as (d & out & -> & Hd); [simpl; lia|]
      end.
      eexists d, _. split.
      * unfold after_console. simpl. rewrite <- !app_assoc. reflexivity.
      * intros col v Hv. destruct (Hd col v Hv) as [H|(Hin & s & -> & Hs & Hne)];
          [now left|]. right. split; [now right|].
        exists s. repeat split; [now right | assumption].
    + match goal with
      | |- context [values_loop items ?res ?w1] =>
          destruct (IH res w1) as (d & out & -> & Hd); [simpl; lia|]
      end.
      eexists d, _. split.
      * unfold after_console. simpl. rewrite <- !app_assoc. reflexivity.
      * intros col v Hv. destruct (Hd col v Hv) as [H|(Hin & s & -> & Hs & Hne)].
        -- destruct (decide (c = col)) as [->|Hc].
           ++ rewrite lookup_insert_eq in H. injection H as <-.
              right. split; [now left|]. exists line.
              repeat split; [now left | now apply String.eqb_neq].
           ++ rewrite lookup_insert_ne in H by assumption. now left.
        -- right. split; [now right|].
           exists s. repeat split; [now right | assumption].
Qed.

(** X21: [get_values_for_columns] asks one question per column of the
    type map. With that many lines on the console it returns a mapping
    whose keys are columns of the type map and whose values are answers
    as they were typed, none of them blank: a blank answer leaves its
    column out. It consumes exactly these lines and leaves the session
    alone. *)
Theorem console_values_are_typed_answers (col_types : list (string * string))
    (w : World) :
  (length col_types <= length (stdin w))%nat ->
  exists d out,
    get_values_for_columns col_types w
    = (Return d, after_console w (length col_types) out)
    /\ forall col v, d !! col = Some v ->
         In col (map fst col_types)
         /\ exists s, v = Some s
                      /\ In s (take (length col_types) (stdin w))
                      /\ Py.strip s <> EmptyString.
Proof.
  intros Hlen. unfold get_values_for_columns, bind, print.
  match goal with
  | |- context [values_loop col_types ∅ ?w1] =>
      destruct (values_loop_run col_types ∅ w1) as (d & out & -> & Hd);
        [exact Hlen|]
  end.
  eexists d, _. split.
  - unfold after_console. simpl. rewrite <- !app_assoc. reflexivity.
  - intros col v Hv. destruct (Hd col v Hv) as [H|H]; [|exact H].
    now rewrite lookup_empty in H.
Qed.

Lemma console_values_are_typed_answers_witness :
  exists d out,
    get_values_for_columns [("body", "text"); ("rank", "integer")]
      (fresh accepting [" hello "; "  "; "next"])
    = (Return d, after_console (fresh accepting [" hello "; "  "; "next"]) 2 out)
    /\ forall col v, d !! col = Some v ->
         In col ["body"; "rank"]
         /\ exists s, v = Some s /\ In s [" hello "; "  "]
                      /\ Py.strip s <> EmptyString.
Proof.
  apply (console_values_are_typed_answers [("body", "text"); ("rank", "integer")]
           (fresh accepting [" hello "; "  "; "next"])).
  simpl. lia.
Defined.

(** ** The controller *)

Lemma get_columns_frame (P : Event -> Prop) (table : string) :
  (forall e, is_read e -> P e) -> sends_only P (get_columns table).
Proof.
  intros HP. unfold get_columns, table_exists.
  apply sends_only_bind; [apply sends_only_query, HP; exact I|].
  intros found. destruct (negb found); [apply sends_only_ret|].
  apply sends_only_bind; [apply sends_only_query, HP; exact I|].
  intros rows. apply sends_only_ret.
Qed.

Lemma get_column_types_frame (P : Event -> Prop) (table : string) :
  (forall e, is_read e -> P e) -> sends_only P (get_column_types table).
Proof.
  intros HP. unfold get_column_types.
  apply sends_only_bind; [now apply get_columns_frame|].
  intros [cols|]; apply sends_only_ret.
Qed.

Lemma values_loop_frame (P : Event -> Prop) (items : list (string * string)) :
  forall result, sends_only P (values_loop items result).
Proof.
  induction items as [|[c dtype] items IH]; intros result; simpl; frame;
    apply IH.
Qed.

Lemma get_values_for_columns_frame (P : Event -> Prop)
    (col_types : list (string * string)) :
  sends_only P (get_values_for_columns col_types).
Proof. unfold get_values_for_columns. frame. apply values_loop_frame. Qed.

Lemma Forall2_right {A B} (R : A -> B -> Prop) (l : list A) (k : list B) (y : B) :
  Forall2 R l k -> In y k -> exists x, In x l /\ R x y.
Proof.
  induction 1 as [|x0 y0 l k Hxy _ IH]; [contradiction|].
  intros [<-|Hin].
  - exists x0. split; [now left | assumption].
  - destruct (IH Hin) as (x & Hx & HR). exists x. split; [now right | assumption].
Qed.

(** The events of a single-row insert of values none of which is blank. *)
Lemma insert_frame (table : string) (values_dict : gmap string (option string))
    (col_types : list (string * string)) :
  (forall col v, values_dict !! col = Some v ->
     exists s, v = Some s /\ Py.strip s <> EmptyString) ->
  sends_only
    (fun e => (e = Committed \/ exists cols ph vals,
                 e = Executed (InsertValues table cols ph) vals)
              /\ binds_no_null e)
    (insert_entry_validated table values_dict col_types).
Proof.
  intros Hvalues. unfold insert_entry_validated.
  apply sends_only_bind_from; [apply sends_only_lift|].
  intros w [[cols vals] ph] Hloop. simpl in Hloop.
  destruct cols as [|c cols]; [apply sends_only_raise|].
  apply insert_loop_spec in Hloop as (vs & _ & Hv & _ & Hall). simpl in Hv. subst vs.
  assert (Hnull : ~ In VNone vals).
  { intros Hin. destruct (Forall2_right _ _ _ _ Hall Hin) as (item & _ & raw & Hraw & Hc).
    destruct (Hvalues _ _ Hraw) as (s & -> & Hs).
    now apply (cast_non_blank s (snd item) Hs). }
  apply sends_only_bind; [apply sends_only_execute|].
  { split; [right; eauto | exact Hnull]. }
  intros _. apply sends_only_bind; [apply sends_only_commit|].
  { split; [now left | exact I]. }
  intros _. apply sends_only_ret.
Qed.

(** X22: through [add_entry] the session sees nothing but catalog
    queries, INSERT statements and commits, and so no rollback; and no
    INSERT binds a null: the blank answers were dropped at the console
    and every other answer casts to a value or stops the insert. *)
Theorem add_entry_binds_no_null :
  sends_only
    (fun e => (is_read e \/ e = Committed
               \/ exists table cols ph vals,
                    e = Executed (InsertValues table cols ph) vals)
              /\ binds_no_null e)
    AppController.add_entry.
Proof.
  unfold AppController.add_entry.
  apply sends_only_bind; [apply get_table_name_frame|]. intros table.
  apply sends_only_bind.
  { apply get_column_types_frame. intros e He. split; [now left|].
    destruct e as [[] ?| |]; try exact I; contradiction. }
  intros [col_types|]; [|apply sends_only_print].
  apply sends_only_bind_from; [apply get_values_for_columns_frame|].
  intros w values Hvalues.
  assert (Hnb : forall col v, values !! col = Some v ->
                  exists s, v = Some s /\ Py.strip s <> EmptyString).
  { destruct (get_values_for_columns col_types w) as [r w'] eqn:Erun.
    simpl in Hvalues. subst r. exact (console_values_non_blank _ _ _ _ Erun). }
  apply sends_only_try.
  - apply sends_only_bind; [|intros _; apply sends_only_print].
    eapply sends_only_weaken; [|apply (insert_frame table values col_types Hnb)].
    intros e [[->|(cols & ph & vals & ->)] Hn]; split; try assumption;
      [right; now left | right; right; eauto].
  - intros [msg|pgerror|]; first [apply sends_only_print | apply sends_only_raise].
Qed.

(** ** What the controller lets escape *)


















(** ** Runs of the controller *)

Lemma get_table_name_first (prompt : string) (allow_empty : bool)
    (line : string) (rest : list string) (w : World) :
  stdin w = line :: rest -> Py.strip line <> EmptyString ->
  get_table_name prompt allow_empty w
  = (Return (Py.strip line), after_console w 1 [prompt]).
Proof.
  intros Hin Hline. apply String.eqb_neq in Hline.
  destruct w as [c e l sin sout]. simpl in Hin. subst sin.
  unfold get_table_name, while_true, after_console. simpl stdin.
  rewrite rounds_unfold. unfold bind, input. simpl stdin. cbv iota beta.
  rewrite Hline. reflexivity.
Qed.

Lemma print_each_run {A} (line : A -> string) (items : list A) :
  forall w, exists out, print_each line items w = (Return tt, after_console w 0 out).
Proof.
  induction items as [|x items IH]; intros w; simpl.
  - exists []. unfold ret, after_console. destruct w. simpl. now rewrite app_nil_r.
  - unfold bind, print.
    match goal with
    | |- context [print_each line items ?w1] => destruct (IH w1) as [out ->]
    end.
    exists (line x :: out). unfold after_console. simpl. now rewrite <- app_assoc.
Qed.

Lemma display_query_result_run (str : Value -> string) (columns : list string)
    (rows : list (list Value)) (w : World) :
  exists out,
    display_query_result str columns rows w = (Return tt, after_console w 0 out).
Proof.
  unfold display_query_result. destruct rows as [|r rows].
  - eexists [_]. unfold print, after_console. destruct w. reflexivity.
  - unfold bind, print.
    match goal with
    | |- context [print_each ?f ?l ?w1] =>
        destruct (print_each_run f l w1) as [out ->]
    end.
    eexists. unfold after_console. simpl. rewrite <- !app_assoc. reflexivity.
Qed.

(** X24: the controller's [delete_entry] catches the errors of the
    server only. For a table without referencing child table and
    without primary key, the "Primary key not found" error of the model
    leaves the method as a [ValueError], after the child-table query and
    the primary-key lookup; no DELETE is sent and nothing is printed
    beyond the two prompts. *)
Theorem controller_delete_lets_value_error_escape (w : World)
    (name id : string) (rest : list string) :
  stdin w = name :: id :: rest ->
  Py.strip name <> EmptyString ->
  q_child_tables (catalog w) (Py.strip name) = [] ->
  q_primary_key (catalog w) (Py.strip name) = [] ->
  let table := Py.strip name in
  AppController.delete_entry w
  = (Raise (ValueError "Primary key not found"),
     {| catalog := catalog w; engine := engine w;
        log := (log w ++ [Executed (Text child_tables_sql) [VStr table];
                          Executed (SelectPrimaryKey table) []])%list;
        stdin := rest;
        stdout := app (stdout w)
                      [table_prompt;
                       "Enter " ++ table ++ " primary key value (ID): "] |}).
Proof.
  intros Hin Hname Hchildren Hpk table. subst table.
  unfold AppController.delete_entry. unfold bind at 1.
  rewrite (get_table_name_first _ _ name (id :: rest) w Hin Hname).
  destruct w as [c e l sin sout]. simpl in Hin, Hchildren, Hpk. subst sin.
  cbv [after_console get_id get_child_tables query_with
       AppController.confirm_children try_except delete_entry _find_pk_column
       query bind input ret raise record].
  cbn [catalog engine log stdin stdout tail drop fst snd].
  rewrite Hchildren. cbn [negb catalog engine log stdin stdout]. rewrite Hpk.
  cbn [head]. now rewrite <- !app_assoc.
Qed.

Lemma controller_delete_lets_value_error_escape_witness :
  AppController.delete_entry (fresh accepting ["notes"; "4"])
  = (Raise (ValueError "Primary key not found"),
     {| catalog := shop; engine := accepting;
        log := [Executed (Text child_tables_sql) [VStr "notes"];
                Executed (SelectPrimaryKey "notes") []];
        stdin := [];
        stdout := [table_prompt; "Enter notes primary key value (ID): "] |}).
Proof.
  assert (Hname : Py.strip "notes" <> EmptyString) by discriminate.
  exact (controller_delete_lets_value_error_escape (fresh accepting ["notes"; "4"])
           "notes" "4" [] eq_refl Hname eq_refl eq_refl).
Defined.

(** X25: [generate_data_sql] with a row count that is not an integer, or
    not positive, prints "Invalid number of rows." and returns: the
    session is not contacted, not even to look the table up. *)
Theorem generate_data_sql_rejects_bad_count (ms : Z) (w : World)
    (name count : string) (rest : list string) :
  stdin w = name :: count :: rest ->
  Py.strip name <> EmptyString ->
  (forall n, Py.int (Py.strip count) = Some n -> n <= 0) ->
  AppController.generate_data_sql ms w
  = (Return tt,
     after_console w 2
       [table_prompt; "Enter number of rows to generate: ";
        "Invalid number of rows." ++ newline]).
Proof.
  intros Hin Hname Hbad.
  unfold AppController.generate_data_sql.
  unfold bind at 1. rewrite (get_table_name_first _ _ name (count :: rest) w Hin Hname).
  destruct w as [c e l sin sout]. simpl in Hin. subst sin.
  unfold after_console. simpl stdin. simpl drop.
  unfold bind at 1, get_row_count at 1, bind at 1, input at 1. simpl stdin.
  cbv iota beta. unfold ret at 1.
  destruct (Py.int (Py.strip count)) as [n|] eqn:Eint.
  - specialize (Hbad n eq_refl). apply Z.leb_le in Hbad. rewrite Hbad.
    unfold show_message, print. simpl. now rewrite <- !app_assoc.
  - unfold show_message, print. simpl. now rewrite <- !app_assoc.
Qed.

Lemma generate_data_sql_rejects_bad_count_witness :
  AppController.generate_data_sql 0 (fresh rejecting ["orders"; "-3"])
  = (Return tt,
     after_console (fresh rejecting ["orders"; "-3"]) 2
       [table_prompt; "Enter number of rows to generate: ";
        "Invalid number of rows." ++ newline]).
Proof.
  assert (Hname : Py.strip "orders" <> EmptyString) by discriminate.
  apply (generate_data_sql_rejects_bad_count 0 (fresh rejecting ["orders"; "-3"])
           "orders" "-3" [] eq_refl Hname).
  intros n H. vm_compute in H. injection H as <-. lia.
Defined.

(** X26: in [delete_entry], when tables reference the one named, the
    warning that lists them is printed, and an answer to the
    confirmation other than y or yes (in any case) cancels:
    "Delete cancelled." is printed and the only statement the session
    has seen is the child-table query. *)
Theorem delete_needs_confirmation (w : World) (name id answer : string)
    (rest : list string) (child : string) (others : list string) :
  stdin w = name :: id :: answer :: rest ->
  Py.strip name <> EmptyString ->
  q_child_tables (catalog w) (Py.strip name) = child :: others ->
  Py.among (Py.lower (Py.strip answer)) ["y"; "yes"] = false ->
  let table := Py.strip name in
  AppController.delete_entry w
  = (Return tt,
     {| catalog := catalog w; engine := engine w;
        log := (log w ++ [Executed (Text child_tables_sql) [VStr table]])%list;
        stdin := rest;
        stdout := app (stdout w)
                       [table_prompt;
                         "Enter " ++ table ++ " primary key value (ID): ";
                         "Warning: There are child tables referencing " ++ table
                           ++ ": " ++ Py.join ", " (child :: others);
                         "Do you really want to delete " ++ table ++ " row "
                           ++ Py.strip id
                           ++ "? This may cascade or fail. (yes/no): ";
                         "Delete cancelled." ++ newline] |}).
Proof.
  intros Hin Hname Hchildren Hno table. subst table.
  unfold AppController.delete_entry.
  unfold bind at 1.
  rewrite (get_table_name_first _ _ name (id :: answer :: rest) w Hin Hname).
  destruct w as [c e l sin sout]. simpl in Hin, Hchildren. subst sin.
  unfold after_console. simpl stdin. simpl drop.
  unfold bind at 1, get_id at 1, bind at 1, input at 1. simpl stdin. cbv iota beta.
  unfold ret at 1.
  unfold bind at 1, get_child_tables at 1, query_with at 1. simpl catalog.
  rewrite Hchildren.
  unfold bind at 1, AppController.confirm_children at 1.
  unfold bind at 1, show_message at 1, print at 1.
  unfold bind at 1, confirm at 1, bind at 1, input at 1. simpl stdin. cbv iota beta.
  unfold ret at 1. rewrite Hno. simpl negb. cbv iota.
  unfold bind at 1, show_message at 1, print at 1, ret at 1. simpl negb. cbv iota.
  unfold ret. simpl. now rewrite <- !app_assoc.
Qed.

Lemma delete_needs_confirmation_witness :
  AppController.delete_entry (fresh accepting ["customers"; "1"; "no"; "x"])
  = (Return tt,
     {| catalog := shop; engine := accepting;
        log := [Executed (Text child_tables_sql) [VStr "customers"]];
        stdin := ["x"];
        stdout := [table_prompt;
                   "Enter customers primary key value (ID): ";
                   "Warning: There are child tables referencing customers: orders";
                   "Do you really want to delete customers row 1? This may cascade or fail. (yes/no): ";
                   "Delete cancelled." ++ newline] |}).
Proof.
  assert (Hname : Py.strip "customers" <> EmptyString) by discriminate.
  exact (delete_needs_confirmation (fresh accepting ["customers"; "1"; "no"; "x"])
           "customers" "1" "no" ["x"] "orders" [] eq_refl Hname eq_refl eq_refl).
Defined.

(** ** Computations that send at most one statement *)

Lemma at_most_one_quiet (P : Event -> Prop) {A} (m : M A) :
  sends_only (fun _ => False) m -> sends_at_most_one P m.
Proof.
  intros Hm w. destruct (sends_nothing m Hm w) as (_ & _ & Hl).
  exists []. rewrite Hl, app_nil_r. split; [reflexivity | now left].
Qed.

Lemma at_most_one_after (P : Event -> Prop) {A B} (m : M A) (k : A -> M B) :
  sends_only (fun _ => False) m ->
  (forall w a, fst (m w) = Return a -> sends_at_most_one P (k a)) ->
  sends_at_most_one P (bind m k).
Proof.
  intros Hm Hk w. unfold bind.
  destruct (sends_nothing m Hm w) as (_ & _ & Hl).
  destruct (m w) as [[a|e] w1] eqn:Em; simpl in *.
  - assert (Hka : sends_at_most_one P (k a)) by (apply (Hk w); now rewrite Em).
    destruct (Hka w1) as (new & Hnew & Hcases).
    exists new. rewrite Hnew, Hl. now split.
  - exists []. rewrite Hl, app_nil_r. split; [reflexivity | now left].
Qed.

Lemma ask_loop_frame (P : Event -> Prop) (left : nat) :
  forall i params, sends_only P (ask_loop i left params).
Proof.
  induction left as [|left IH]; intros i params; simpl; frame_basic. apply IH.
Qed.

Lemma report_run (str : Value -> string) (ms : Z) (title template : string)
    (params : list Value) (handler : Exn -> string) (w : World) :
  log (snd (try_except
              (r <- execute_prepared_select template params ;;
               let '(rows, cols) := r in
               display_query_result str cols rows ;;;
               show_message ("Report '" ++ title ++ "' executed in " ++ pretty ms
                               ++ " ms." ++ newline))
              (fun e => show_message (handler e)) w))
  = (log w ++ [Executed (Text template) params])%list.
Proof.
  unfold try_except, execute_prepared_select, bind, execute.
  destruct (engine w (Text template) params) as [n rows|err]; [|reflexivity].
  unfold ret. destruct (rows_and_cols (snd (n, rows))) as [rs cols].
  match goal with
  | |- context [display_query_result str cols rs ?w1] =>
      destruct (display_query_result_run str cols rs w1) as [out ->]
  end.
  reflexivity.
Qed.

(** X27: whatever is typed, [run_prepared_reports] sends at most one
    statement to the session and neither commits nor rolls back; the
    statement, if any, is the text of one of the three prepared reports
    with exactly as many parameters as the text has [%s] placeholders. *)
Theorem report_sends_one_template (str : Value -> string) (ms : Z) :
  sends_at_most_one is_report (AppController.run_prepared_reports str ms).
Proof.
  unfold AppController.run_prepared_reports. cbv zeta.
  apply at_most_one_after; [unfold show_message; frame|]. intros w1 [] _.
  apply at_most_one_after; [frame|]. intros w2 [] _.
  apply at_most_one_after; [unfold get_input; frame|]. intros w3 choice _.
  destruct (Py.int choice) as [n|];
    [|apply at_most_one_quiet; unfold show_message; frame].
  destruct (negb _); [apply at_most_one_quiet; unfold show_message; frame|].
  destruct (py_index get_prepared_reports_templates (n - 1))
    as [[title template]|] eqn:Eidx;
    [|apply at_most_one_quiet; unfold show_message; frame].
  apply py_index_In in Eidx.
  apply at_most_one_after; [apply ask_loop_frame|]. intros w4 params Hparams.
  apply ask_loop_length in Hparams. simpl in Hparams.
  intros w. eexists. split; [apply report_run|].
  right. eexists. split; [reflexivity|]. now exists title, template, params.
Qed.
